(** * Buquebus price client: credential cache and fare aggregation

    A shallow embedding of the Python sources

      - [buquebus_client.py]     (class [BuquebusClient], Argentina, V1)
      - [buquebus_clientV2.py]   (class [BuquebusClientV2], Argentina, "PRO")
      - [buquebus_clientUYU.py]  (class [BuquebusClientUYU], Uruguay)
      - [api.py]                 (the [/debug/token] endpoint)

    The file has three layers: a model of the Python run time the sources rely
    on (module [Py]: exceptions, JSON values, [str] and [float] built-ins), the
    functions of the sources translated one by one (modules [Client],
    [ClientV2], [ClientUYU], [Api], and [Threads] for concurrent callers;
    [Capture] and [CaptureUYU] for the browser session, [Session],
    [SessionV2] and [SessionUYU] for the methods that read the clock and the
    cache file and post upstream, [Details] and [Classes] for the price
    details), and the properties, stated with the notions of [Notions] and
    [Terms] on the upstream responses that [Sample] builds. *)

From Stdlib Require Import ZArith NArith List String Ascii Bool Lia.
From Stdlib Require Import Floats.PrimFloat Floats.SpecFloat Floats.FloatOps.
From Stdlib Require Import DecimalString Sorted RelationClasses.
Import ListNotations.

#[local] Set Warnings "-inexact-float".

Open Scope string_scope.
Open Scope Z_scope.

(* ================================================================== *)
(** * The Python run time *)
(* ================================================================== *)

Module Py.

(** ** Exceptions

    Python code either returns a value or raises.  Only the classes that the
    sources can meet are listed; [JSONDecodeError] is a subclass of
    [ValueError], everything is a subclass of [Exception]. *)

Inductive exn : Type :=
| TypeError
| ValueError
| AttributeError
| OverflowError
| IndexError
| RuntimeError (msg : string)
| RequestException (msg : string)
| JSONDecodeError (msg : string).

Inductive result (A : Type) : Type :=
| Ok (a : A)
| Raise (e : exn).

Arguments Ok {A} a.
Arguments Raise {A} e.

Definition bind {A B : Type} (c : result A) (k : A -> result B) : result B :=
  match c with
  | Ok a => k a
  | Raise e => Raise e
  end.

Notation "x <- c ;; k" := (bind c (fun x => k))
  (at level 61, c at next level, right associativity).
Notation "' pat <- c ;; k" := (bind c (fun x => match x with pat => k end))
  (at level 61, pat pattern, c at next level, right associativity).

(** [isinstance(e, ValueError)], the test of an [except ValueError] clause. *)
Definition is_ValueError (e : exn) : bool :=
  match e with
  | ValueError | JSONDecodeError _ => true
  | _ => false
  end.

(** [str(e)]: the message of an exception; only its being a string matters. *)
Definition str_of_exn (e : exn) : string :=
  match e with
  | TypeError => "TypeError"
  | ValueError => "ValueError"
  | AttributeError => "AttributeError"
  | OverflowError => "OverflowError"
  | IndexError => "IndexError"
  | RuntimeError m | RequestException m | JSONDecodeError m => m
  end.

Definition succeeds {A : Type} (c : result A) : Prop := exists a, c = Ok a.

(** ** Values

    What [json.loads] and [requests.Response.json] build: [None], [bool],
    [int] (unbounded), [float] (IEEE binary64, the kernel's primitive floats),
    [str], [list] and [dict].  A [str] is modelled by a [string] whose
    characters are read as the code points U+0000 to U+00FF.  A [dict] is an
    association list in insertion order; the first binding of a key is the
    dict's, so every list denotes a dict. *)

#[local] Unset Elimination Schemes.
Inductive json : Type :=
| JNull
| JBool (b : bool)
| JInt (n : Z)
| JFloat (f : float)
| JStr (s : string)
| JList (l : list json)
| JDict (kv : list (string * json)).
#[local] Set Elimination Schemes.

(** ** Characters and [str] methods *)

Definition isspace (c : ascii) : bool :=
  let n := N_of_ascii c in
  ((9 <=? n) && (n <=? 13) || (28 <=? n) && (n <=? 32) || (n =? 133) || (n =? 160))%N.

Definition isdigit (c : ascii) : bool :=
  let n := N_of_ascii c in ((48 <=? n) && (n <=? 57))%N.

Definition digit_val (c : ascii) : Z := Z.of_N (N_of_ascii c) - 48.

Fixpoint lstrip_by (p : ascii -> bool) (s : string) : string :=
  match s with
  | EmptyString => EmptyString
  | String c s' => if p c then lstrip_by p s' else s
  end.

Fixpoint rstrip_by (p : ascii -> bool) (s : string) : string :=
  match s with
  | EmptyString => EmptyString
  | String c s' =>
      match rstrip_by p s' with
      | EmptyString => if p c then EmptyString else String c EmptyString
      | r => String c r
      end
  end.

(** [s.strip()] *)
Definition strip (s : string) : string := rstrip_by isspace (lstrip_by isspace s).

(** The white space that [int(str)] and [float(str)] skip at both ends:
    unlike [str.strip] they keep U+001C to U+001F. *)
Definition isspace_num (c : ascii) : bool :=
  let n := N_of_ascii c in
  ((9 <=? n) && (n <=? 13) || (n =? 32) || (n =? 133) || (n =? 160))%N.

Definition strip_num (s : string) : string :=
  rstrip_by isspace_num (lstrip_by isspace_num s).

(** [c.upper()] for one character.  The three characters below U+0100 whose
    upper-case form is not one character of that range (U+00B5, U+00DF,
    U+00FF) are left as they are: none of their upper-case forms contains
    an ASCII letter of the sentinel the sources compare with. *)
Definition upper_char (c : ascii) : ascii :=
  let n := N_of_ascii c in
  if ((97 <=? n) && (n <=? 122) || (224 <=? n) && (n <=? 254) && negb (n =? 247))%N
  then ascii_of_N (n - 32) else c.

(** [s.upper()] *)
Fixpoint upper (s : string) : string :=
  match s with
  | EmptyString => EmptyString
  | String c s' => String (upper_char c) (upper s')
  end.

(** [s[:n]] and [s[n:]] for [0 <= n]. *)
Fixpoint take (n : nat) (s : string) : string :=
  match n, s with
  | S n', String c s' => String c (take n' s')
  | _, _ => EmptyString
  end.

Fixpoint drop (n : nat) (s : string) : string :=
  match n, s with
  | S n', String _ s' => drop n' s'
  | _, _ => s
  end.

(** [s[a:b]] for [0 <= a <= b]. *)
Definition slice (a b : nat) (s : string) : string := take (b - a) (drop a s).

(** [s[-n:]]: the last [n] characters, the whole of a shorter string. *)
Definition last_chars (n : nat) (s : string) : string :=
  drop (String.length s - n) s.

(** [c in s] for a one-character [c]. *)
Fixpoint contains (c : ascii) (s : string) : bool :=
  match s with
  | EmptyString => false
  | String d s' => Ascii.eqb c d || contains c s'
  end.

(** [s.split(sep)] for a one-character separator: never empty. *)
Fixpoint split (sep : ascii) (s : string) : list string :=
  match s with
  | EmptyString => [EmptyString]
  | String c s' =>
      if Ascii.eqb c sep then EmptyString :: split sep s'
      else match split sep s' with
           | w :: ws => String c w :: ws
           | [] => [String c EmptyString]
           end
  end.

(** [s.zfill(width)]: zeros go after a leading sign. *)
Definition zfill (width : nat) (s : string) : string :=
  let pad := String.concat "" (repeat "0" (width - String.length s)) in
  match s with
  | String c s' =>
      if Ascii.eqb c "+" || Ascii.eqb c "-" then String c (pad ++ s') else pad ++ s
  | EmptyString => pad
  end.

(** [s.replace(a, b)] for one-character [a] and [b]. *)
Fixpoint replace (a b : ascii) (s : string) : string :=
  match s with
  | EmptyString => EmptyString
  | String c s' => String (if Ascii.eqb c a then b else c) (replace a b s')
  end.

Fixpoint all_chars (p : ascii -> bool) (s : string) : bool :=
  match s with
  | EmptyString => true
  | String c s' => p c && all_chars p s'
  end.

(** [re.fullmatch(r"\d{6}", s) is not None]: below U+0100 the decimal digits
    are the ASCII ones. *)
Definition fullmatch_6_digits (s : string) : bool :=
  (String.length s =? 6)%nat && all_chars isdigit s.

(** ** [int(str)]

    Base 10: surrounding white space, an optional sign, then digits in which
    single underscores may stand between two digits. *)

Fixpoint int_digits (s : string) (acc : Z) (after_digit : bool) : option Z :=
  match s with
  | EmptyString => if after_digit then Some acc else None
  | String c s' =>
      if isdigit c then int_digits s' (10 * acc + digit_val c) true
      else if Ascii.eqb c "_" && after_digit then int_digits s' acc false
      else None
  end.

Definition int_literal (s : string) : option Z :=
  match strip_num s with
  | String "+" r => int_digits r 0 false
  | String "-" r => option_map Z.opp (int_digits r 0 false)
  | t => int_digits t 0 false
  end.

Definition int_of_string (s : string) : result Z :=
  match int_literal s with
  | Some n => Ok n
  | None => Raise ValueError
  end.

(** ** [float]

    Python's [float] is IEEE binary64; the operations below are stated on the
    kernel's primitive floats and computed exactly on [Z].  [float_of_ratio]
    is the double nearest to [num/den] (ties to even), the rounding of
    [float(str)], of [round] and of the division of two exact integers. *)

Definition float_of_ratio (neg : bool) (num den : positive) : float :=
  let '(mz, ez, lz) := SFdiv_core_binary prec emax (Zpos num) 0 (Zpos den) 0 in
  SF2Prim (binary_round_aux prec emax neg mz ez lz).

(** The double nearest to [m * 10^e], for [0 <= m]. *)
Definition float_of_decimal (neg : bool) (m e : Z) : float :=
  match m with
  | Zpos p =>
      match e with
      | Zneg k => float_of_ratio neg p (Pos.pow 10 k)
      | _ =>
          let n := m * 10 ^ e in
          SF2Prim (binary_normalize prec emax (if neg then - n else n) 0 false)
      end
  | _ => if neg then neg_zero else zero
  end.

(** [float(n)] for an [int]: [OverflowError] where the nearest double is
    infinite. *)
Definition float_of_int (n : Z) : result float :=
  let f := float_of_decimal (n <? 0) (Z.abs n) 0 in
  if is_infinity f then Raise OverflowError else Ok f.

(** The exact value of a finite float as [(negative, m, e)], meaning
    [m * 2^e]. *)
Definition exact_value (f : float) : option (bool * Z * Z) :=
  match Prim2SF f with
  | S754_zero s => Some (s, 0, 0)
  | S754_finite s m e => Some (s, Zpos m, e)
  | _ => None
  end.

(** [int(f)] for a [float]: truncation towards zero. *)
Definition int_of_float (f : float) : result Z :=
  match Prim2SF f with
  | S754_zero _ => Ok 0
  | S754_finite s m e =>
      let a := if 0 <=? e then Zpos m * 2 ^ e else Zpos m / 2 ^ (- e) in
      Ok (if s then - a else a)
  | S754_infinity _ => Raise OverflowError
  | S754_nan => Raise ValueError
  end.

(** [|f| * 100] rounded to an integer, ties to even: the digits that
    [round(f, 2)] and the format [.2f] keep. *)
Definition hundredths (m e : Z) : Z :=
  if 0 <=? e then m * 2 ^ e * 100
  else
    let d := 2 ^ (- e) in
    let q := (m * 100) / d in
    let r := (m * 100) mod d in
    match 2 * r ?= d with
    | Lt => q
    | Gt => q + 1
    | Eq => if Z.even q then q else q + 1
    end.

(** [round(f, 2)] *)
Definition round2 (f : float) : float :=
  match exact_value f with
  | Some (s, m, e) => float_of_decimal s (hundredths m e) (-2)
  | None => f
  end.

(** [float(str)]: white space, a sign, then [inf], [infinity], [nan] in any
    case, or a decimal number with an optional fraction and exponent, single
    underscores allowed between digits. *)

(** Reads the digits at the head of [s] (underscores between digits only):
    the digits read as a number, how many they are, and the rest. *)
Fixpoint digit_run (s : string) (acc : Z) (cnt : Z) : Z * Z * string :=
  match s with
  | String c s' =>
      if isdigit c then digit_run s' (10 * acc + digit_val c) (cnt + 1)
      else if Ascii.eqb c "_" && (0 <? cnt) then
        match s' with
        | String d _ => if isdigit d then digit_run s' acc cnt else (acc, cnt, s)
        | EmptyString => (acc, cnt, s)
        end
      else (acc, cnt, s)
  | EmptyString => (acc, cnt, s)
  end.

Definition float_exponent (s : string) : option Z :=
  match s with
  | EmptyString => Some 0
  | String c r =>
      if Ascii.eqb c "e" || Ascii.eqb c "E" then
        let '(neg, r') :=
          match r with
          | String "+" t => (false, t)
          | String "-" t => (true, t)
          | _ => (false, r)
          end in
        let '(x, n, rest) := digit_run r' 0 0 in
        if (0 <? n) && String.eqb rest "" then Some (if neg then - x else x) else None
      else None
  end.

Definition float_number (neg : bool) (s : string) : option float :=
  let '(ip, ni, r1) := digit_run s 0 0 in
  let '(m, nf, r2) :=
    match r1 with
    | String "." t => let '(m, n, r) := digit_run t ip 0 in (m, n, r)
    | _ => (ip, 0, r1)
    end in
  if 0 <? ni + nf then
    match float_exponent r2 with
    | Some x => Some (float_of_decimal neg m (x - nf))
    | None => None
    end
  else None.

Definition float_literal (s : string) : option float :=
  let t := strip_num s in
  let '(neg, u) :=
    match t with
    | String "+" r => (false, r)
    | String "-" r => (true, r)
    | _ => (false, t)
    end in
  let w := upper u in
  if String.eqb w "INF" || String.eqb w "INFINITY" then
    Some (if neg then neg_infinity else infinity)
  else if String.eqb w "NAN" then Some nan
  else float_number neg u.

Definition float_of_string (s : string) : result float :=
  match float_literal s with
  | Some f => Ok f
  | None => Raise ValueError
  end.

(** [0.0], [-0.0] are false, every other float (NaN too) is true. *)
Definition float_truthy (f : float) : bool := negb (PrimFloat.eqb f zero).

(** ** Operations on values *)

(** [bool(v)] *)
Definition truthy (v : json) : bool :=
  match v with
  | JNull => false
  | JBool b => b
  | JInt n => negb (n =? 0)
  | JFloat f => float_truthy f
  | JStr s => negb (String.eqb s "")
  | JList l => match l with [] => false | _ :: _ => true end
  | JDict kv => match kv with [] => false | _ :: _ => true end
  end.

(** [a or b]: the first operand when it is true, else the second. *)
Definition py_or (a b : json) : json := if truthy a then a else b.

Definition is_none (v : json) : bool :=
  match v with JNull => true | _ => false end.

(** [isinstance(v, dict)] *)
Definition is_dict (v : json) : bool :=
  match v with JDict _ => true | _ => false end.

Fixpoint assoc (k : string) (kv : list (string * json)) : option json :=
  match kv with
  | [] => None
  | (k', v) :: r => if String.eqb k k' then Some v else assoc k r
  end.

Fixpoint dict_keys (kv : list (string * json)) : list string :=
  match kv with
  | [] => []
  | (k, _) :: r => k :: filter (fun k' => negb (String.eqb k k')) (dict_keys r)
  end.

(** [v.get(k, default)]: of the values of this model only a dict has the
    method. *)
Definition get (v : json) (k : string) (default : json) : result json :=
  match v with
  | JDict kv => Ok (match assoc k kv with Some x => x | None => default end)
  | _ => Raise AttributeError
  end.

(** The elements a [for] loop over [v] visits. *)
Definition iter (v : json) : result (list json) :=
  match v with
  | JList l => Ok l
  | JStr s => Ok (map (fun c => JStr (String c EmptyString)) (list_ascii_of_string s))
  | JDict kv => Ok (map JStr (dict_keys kv))
  | _ => Raise TypeError
  end.

(** [float(v)] *)
Definition float_of (v : json) : result float :=
  match v with
  | JStr s => float_of_string s
  | JInt n => float_of_int n
  | JFloat f => Ok f
  | JBool b => Ok (if b then one else zero)
  | _ => Raise TypeError
  end.

(** [int(v)] *)
Definition int_of (v : json) : result Z :=
  match v with
  | JInt n => Ok n
  | JBool b => Ok (if b then 1 else 0)
  | JFloat f => int_of_float f
  | JStr s => int_of_string s
  | _ => Raise TypeError
  end.

(** [int(str(v))].  [str] of an [int] is its decimal numeral, which [int]
    reads back; [str] of [None], of a [bool], of a [float] (it always has a
    point, an exponent, [inf] or [nan]), of a list or of a dict is no integer
    numeral. *)
Definition int_of_str_of (v : json) : result Z :=
  match v with
  | JStr s => int_of_string s
  | JInt n => Ok n
  | _ => Raise ValueError
  end.

(** [str(v).upper() == "N/A"]: [str] of a value that is not a string never
    reads N/A. *)
Definition str_upper_is_NA (v : json) : bool :=
  match v with
  | JStr s => String.eqb (upper s) "N/A"
  | _ => false
  end.

(** Numbers as Python compares them, exactly: [m * 2^e], an infinity, NaN. *)
Inductive xnum : Type :=
| XFin (m e : Z)
| XInf (neg : bool)
| XNaN.

Definition numval (v : json) : option xnum :=
  match v with
  | JInt n => Some (XFin n 0)
  | JBool b => Some (XFin (if b then 1 else 0) 0)
  | JFloat f =>
      Some match Prim2SF f with
           | S754_zero _ => XFin 0 0
           | S754_finite s m e => XFin (if s then Zneg m else Zpos m) e
           | S754_infinity s => XInf s
           | S754_nan => XNaN
           end
  | _ => None
  end.

Definition xcompare (a b : xnum) : option comparison :=
  match a, b with
  | XNaN, _ | _, XNaN => None
  | XInf s, XInf t => Some (if Bool.eqb s t then Eq else if s then Lt else Gt)
  | XInf s, XFin _ _ => Some (if s then Lt else Gt)
  | XFin _ _, XInf t => Some (if t then Gt else Lt)
  | XFin m1 e1, XFin m2 e2 =>
      let e0 := Z.min e1 e2 in
      Some (m1 * 2 ^ (e1 - e0) ?= m2 * 2 ^ (e2 - e0))
  end.

(** [a < b] between two strings (by code points) and between two numbers;
    [TypeError] between a string or [None] and a number, the other cases the
    sources can reach.  (Two lists, which Python also orders, are never
    compared: a list is no dict key and no time.) *)
Definition lt (a b : json) : result bool :=
  match a, b with
  | JStr s, JStr t => Ok match String.compare s t with Lt => true | _ => false end
  | _, _ =>
      match numval a, numval b with
      | Some x, Some y => Ok match xcompare x y with Some Lt => true | _ => false end
      | _, _ => Raise TypeError
      end
  end.

(** [a > b] *)
Definition gt (a b : json) : result bool := lt b a.

(** [a == b] for the values that can be keys of a dict ([True == 1 == 1.0]).
    A NaN is equal to nothing here; Python would find again the very same
    NaN object. *)
Definition key_eqb (a b : json) : bool :=
  match a, b with
  | JStr s, JStr t => String.eqb s t
  | JNull, JNull => true
  | _, _ =>
      match numval a, numval b with
      | Some x, Some y => match xcompare x y with Some Eq => true | _ => false end
      | _, _ => false
      end
  end.

(** [hash(v)] raises [TypeError] for a list and for a dict. *)
Definition hashable (v : json) : bool :=
  match v with
  | JList _ | JDict _ => false
  | _ => true
  end.

(** ** Sorting

    [sorted] and [list.sort] are stable and compare with [<] only; on keys
    that [<] orders totally the result is that of a stable insertion sort. *)

Section Sorting.
Context {A : Type} (key : A -> json).

Fixpoint insert_sorted (x : A) (l : list A) : result (list A) :=
  match l with
  | [] => Ok [x]
  | y :: r =>
      b <- lt (key y) (key x) ;;
      if b then r' <- insert_sorted x r ;; Ok (y :: r')
      else Ok (x :: y :: r)
  end.

Fixpoint sort_by (l : list A) : result (list A) :=
  match l with
  | [] => Ok []
  | x :: r => r' <- sort_by r ;; insert_sorted x r'
  end.

End Sorting.

(** ** Formatting [f"{v:,.2f}"] *)

Definition digits_of (n : Z) : string :=
  NilZero.string_of_uint (N.to_uint (Z.to_N n)).

(** Commas every three digits, counted from the right; [rev_digits] is the
    numeral reversed. *)
Fixpoint group3 (rev_digits : list ascii) (n : nat) (acc : list ascii) : list ascii :=
  match rev_digits with
  | [] => acc
  | c :: r =>
      match n with
      | O => group3 r 2 (c :: "," :: acc)%char
      | S n' => group3 r n' (c :: acc)
      end
  end.

Definition grouped (n : Z) : string :=
  string_of_list_ascii (group3 (rev (list_ascii_of_string (digits_of n))) 3 []).

Definition format_comma_2f (f : float) : string :=
  match Prim2SF f with
  | S754_nan => "nan"
  | S754_infinity s => if s then "-inf" else "inf"
  | S754_zero s => if s then "-0.00" else "0.00"
  | S754_finite s m e =>
      let h := hundredths (Zpos m) e in
      (if s then "-" else "") ++ grouped (h / 100) ++ "." ++ zfill 2 (digits_of (h mod 100))
  end.

(** ** Control *)

(** [try: c  except Exception as e: h(e)] *)
Definition try_except {A : Type} (c : result A) (h : exn -> result A) : result A :=
  match c with
  | Ok a => Ok a
  | Raise e => h e
  end.

(** A [for] loop that threads a state and stops at the first exception. *)
Fixpoint foldM {A S : Type} (f : S -> A -> result S) (l : list A) (s : S) : result S :=
  match l with
  | [] => Ok s
  | x :: r => s' <- f s x ;; foldM f r s'
  end.

(** A [for] loop that appends one item per element. *)
Fixpoint mapM {A B : Type} (f : A -> result B) (l : list A) : result (list B) :=
  match l with
  | [] => Ok []
  | x :: r => y <- f x ;; ys <- mapM f r ;; Ok (y :: ys)
  end.

(** [v == s] for a string literal [s]. *)
Definition eq_str (v : json) (s : string) : bool :=
  match v with
  | JStr t => String.eqb t s
  | _ => false
  end.

(** [len(s)] *)
Definition len (s : string) : nat := String.length s.

End Py.

Import Py.

(* ================================================================== *)
(** * buquebus_client.py *)
(* ================================================================== *)

Module Client.

(** ** Utilities *)

(** [_to_money(v)]: the body of the [try], then the [except Exception]. *)
Definition to_money_try (v : json) : result (option float) :=
  if is_none v then Ok None
  else if match v with
          | JStr s => String.eqb (upper (strip s)) "N/A"
          | _ => false
          end
  then Ok None
  else
    n <- int_of_str_of v ;;
    x <- float_of_int n ;;
    Ok (Some (round2 (x / 100)%float)).

Definition _to_money (v : json) : option float :=
  match to_money_try v with
  | Ok r => r
  | Raise _ => None
  end.

(** ** Dates *)

(** [a, b, c = l]: exactly three values, else [ValueError]. *)
Definition unpack3 (l : list string) : result (string * string * string) :=
  match l with
  | [a; b; c] => Ok (a, b, c)
  | _ => Raise ValueError
  end.

(** [BuquebusClient._normalize_date_to_yymmdd] *)
Definition _normalize_date_to_yymmdd (fecha : string) : result (string * string * string) :=
  let fecha := strip fecha in
  if fullmatch_6_digits fecha then
    Ok (slice 0 2 fecha, slice 2 4 fecha, slice 4 6 fecha)
  else
    '(yyyy, mm, dd) <-
      (if contains "/" fecha then
         '(dd, mm, yyyy) <- unpack3 (split "/" fecha) ;; Ok (yyyy, mm, dd)
       else unpack3 (split "-" fecha)) ;;
    let yy := last_chars 2 yyyy in
    Ok (yy, zfill 2 mm, zfill 2 dd).

(** ** Token cache *)

(** The cache file as [_get_cached_token] finds it: absent, unreadable (the
    read or [json.loads] raises), or holding a JSON value. *)
Inductive cache_file : Type :=
| NoFile
| Unreadable (e : exn)
| Content (data : json).

Definition load (c : cache_file) : result json :=
  match c with
  | Content data => Ok data
  | Unreadable e => Raise e
  | NoFile => Raise (RuntimeError "no file")
  end.

Definition exists_ (c : cache_file) : bool :=
  match c with NoFile => false | _ => true end.

(** [BuquebusClient._get_cached_token]; [now] is [_now_ts()]. *)
Definition _get_cached_token (c : cache_file) (now : Z) : option json :=
  if exists_ c then
    match
      data <- load c ;;
      tok <- get data "token" JNull ;;
      exp <- get data "exp" JNull ;;
      if truthy tok && truthy exp then
        n <- int_of exp ;;
        if n >? now then Ok (Some tok) else Ok None
      else Ok None
    with
    | Ok (Some tok) => Some tok
    | Ok None => None
    | Raise _ => None
    end
  else None.

(** [BuquebusClient._save_token]: a failed write is swallowed and leaves
    the file as it was. *)
Definition _save_token (write_ok : bool) (c : cache_file) (token exp : json) : cache_file :=
  if write_ok then Content (JDict [("token", token); ("exp", exp)]) else c.

(** ** HTTP *)

(** What [requests.post] does: raise, or answer with a status and a body. *)
Inductive body : Type :=
| EmptyBody
| JsonBody (j : json)
| OtherBody (msg : string).

Inductive http_outcome : Type :=
| Fails (e : exn)
| Responds (status_code : Z) (content : body).

Definition post (o : http_outcome) : result (Z * body) :=
  match o with
  | Fails e => Raise e
  | Responds st b => Ok (st, b)
  end.

(** [resp.json() if resp.content else {}] *)
Definition json_or_empty (b : body) : result json :=
  match b with
  | EmptyBody => Ok (JDict [])
  | JsonBody j => Ok j
  | OtherBody msg => Raise (JSONDecodeError msg)
  end.

(** [BuquebusClient._call_price_availability]; [send] is the network. *)
Definition _call_price_availability {P : Type} (send : P -> http_outcome) (payload : P)
  : result (Z * json) :=
  try_except
    ('(status_code, content) <- post (send payload) ;;
     j <- json_or_empty content ;;
     Ok (status_code, j))
    (fun e => Ok (500, JStr (str_of_exn e))).

(** ** Reading one sailing entry

    The nested look-ups shared by every function that walks [sailingprice]. *)

(** [t.get("c_QOR_QuotationBasisResponse", {})
      .get("m_TARF_TariffCodeTypeDescription", {}).get("c_U282_TariffType")] *)
Definition tariff_type (t : json) : result json :=
  a <- get t "c_QOR_QuotationBasisResponse" (JDict []) ;;
  b <- get a "m_TARF_TariffCodeTypeDescription" (JDict []) ;;
  get b "c_U282_TariffType" JNull.

(** [t.get("c_QLP_ChargesTotal", {}).get("m_CHTO_ChargeTotals", {})
      .get("m_U618_TotalAmount")] *)
Definition tariff_amount (t : json) : result json :=
  a <- get t "c_QLP_ChargesTotal" (JDict []) ;;
  b <- get a "m_CHTO_ChargeTotals" (JDict []) ;;
  get b "m_U618_TotalAmount" JNull.

(** The blocks read at the top of each loop body: [r], then [travel], [dep],
    [arr] and [ship]. *)
Record blocks : Type := {
  travel : json;
  depblk : json;
  arrblk : json;
  shipblk : json
}.

Definition read_blocks (s : json) : result blocks :=
  r <- get s "c_RDR_RouteDateTimeResponse" (JDict []) ;;
  tr <- get r "m_ROUT_TravelRoute" (JDict []) ;;
  dp <- get r "m_DPDT_DepartureDateAndTime" (JDict []) ;;
  ar <- get r "c_ARDT_ArrivalDateAndTime" (JDict []) ;;
  sh <- get r "c_SHNM_ShipName" (JDict []) ;;
  Ok {| travel := tr; depblk := dp; arrblk := ar; shipblk := sh |}.

(** [for t in s.get("c_TCT_TariffChargesTotals", [])] *)
Definition tariff_totals (s : json) : result (list json) :=
  tct <- get s "c_TCT_TariffChargesTotals" (JList []) ;;
  iter tct.

(** ** [fetch_day_full] *)

Record full_item : Type := {
  sailingCode : json;
  dep : json;
  arr : json;
  ship : json;
  available : bool;
  turista : option float;
  business : option float;
  diff : option float
}.

(** The inner loop: the last PROGRAMADA and the last FLEXIBLE total win. *)
Fixpoint full_totals (ts : list json) (programada flexible : option float)
  : result (option float * option float) :=
  match ts with
  | [] => Ok (programada, flexible)
  | t :: r =>
      typ <- tariff_type t ;;
      amt <- tariff_amount t ;;
      let val := _to_money amt in
      if eq_str typ "PROGRAMADA" then full_totals r val flexible
      else if eq_str typ "FLEXIBLE" then full_totals r programada val
      else full_totals r programada flexible
  end.

(** [(flexible - programada) if (programada is not None and flexible is not
    None) else None] *)
Definition full_diff (programada flexible : option float) : option float :=
  match programada, flexible with
  | Some p, Some f => Some (f - p)%float
  | _, _ => None
  end.

(** The body of the outer loop: the item appended for the entry [s]. *)
Definition full_item_of (s : json) : result full_item :=
  b <- read_blocks s ;;
  ts <- tariff_totals s ;;
  '(programada, flexible) <- full_totals ts None None ;;
  code <- get (travel b) "c_C276_SailingCode" JNull ;;
  d <- get (depblk b) "m_U248_StandardDepartureTime" JNull ;;
  a <- get (arrblk b) "c_U239_NominalArrivalTime" JNull ;;
  nm <- get (shipblk b) "m_SHNM_ShipName" JNull ;;
  av <- get (travel b) "c_C081_IsAvailable" JNull ;;
  Ok {| sailingCode := code; dep := d; arr := a; ship := nm;
        available := truthy av;
        turista := programada; business := flexible;
        diff := full_diff programada flexible |}.

(** What the public methods return next to the status: the upstream body as
    it came, or the rows they built. *)
Inductive payload (R : Type) : Type :=
| Upstream (data : json)
| Rows (rows : list R).

Arguments Upstream {R} data.
Arguments Rows {R} rows.

(** [BuquebusClient.fetch_day_full]; [fetch_price] is the outcome of
    [self.fetch_price(origen, destino, fecha)]. *)
Definition fetch_day_full (fetch_price : result (Z * json))
  : result (Z * payload full_item) :=
  '(status, data) <- fetch_price ;;
  if negb (status =? 200) then Ok (status, Upstream data)
  else
    sp <- get data "sailingprice" (JList []) ;;
    ss <- iter sp ;;
    out <- mapM full_item_of ss ;;
    Ok (200, Rows out).

(** ** The extractor [_totales_programada_por_sailing] *)

(** The tuples the extractors store, [(total, hora_salida, hora_llegada,
    barco)], and the dict from sailing code to tuple, in insertion order. *)
Definition tuple4 : Type := option float * json * json * json.
Definition fare_map : Type := list (json * tuple4).

Definition total_of (t : tuple4) : option float := let '(a, _, _, _) := t in a.
Definition salida_of (t : tuple4) : json := let '(_, hs, _, _) := t in hs.
Definition llegada_of (t : tuple4) : json := let '(_, _, ha, _) := t in ha.
Definition barco_of (t : tuple4) : json := let '(_, _, _, b) := t in b.

Fixpoint set_item (m : fare_map) (k : json) (v : tuple4) : fare_map :=
  match m with
  | [] => [(k, v)]
  | (k', v') :: r => if key_eqb k' k then (k', v) :: r else (k', v') :: set_item r k v
  end.

(** [m[k] = v] *)
Definition store (m : fare_map) (k : json) (v : tuple4) : result fare_map :=
  if hashable k then Ok (set_item m k v) else Raise TypeError.

Fixpoint lookup (m : fare_map) (k : json) : option tuple4 :=
  match m with
  | [] => None
  | (k', v) :: r => if key_eqb k' k then Some v else lookup r k
  end.

(** [(hs[:2] + ":" + hs[2:]) if len(hs) == 4 else empty].  [len] of [None],
    a number or a [bool] raises; a list or a dict of length 4 fails at the
    slice or at the [+] ([TypeError]; for the dict [KeyError] from Python
    3.12 on). *)
Definition hhmm_or (empty : json) (hs : json) : result json :=
  match hs with
  | JStr s => Ok (if (len s =? 4)%nat then JStr (take 2 s ++ ":" ++ drop 2 s) else empty)
  | JList l => if (List.length l =? 4)%nat then Raise TypeError else Ok empty
  | JDict kv => if (List.length (dict_keys kv) =? 4)%nat then Raise TypeError else Ok empty
  | _ => Raise TypeError
  end.

(** The inner loop: the first PROGRAMADA total that [float] reads ends the
    loop; one that raises [ValueError] is skipped. *)
Fixpoint total_programada (ts : list json) (total_prog : option float)
  : result (option float) :=
  match ts with
  | [] => Ok total_prog
  | t :: r =>
      tipo <- tariff_type t ;;
      if eq_str tipo "PROGRAMADA" then
        total_str <- tariff_amount t ;;
        if truthy total_str && negb (str_upper_is_NA total_str) then
          match float_of total_str with
          | Ok x => Ok (Some (x / 100)%float)
          | Raise e => if is_ValueError e then total_programada r None else Raise e
          end
        else total_programada r total_prog
      else total_programada r total_prog
  end.

(** The tuple stored for an entry and the store itself; [empty] is what an
    unformatted time becomes. *)
Definition store_entry (empty : json) (out : fare_map) (b : blocks) (code : json)
    (total : option float) : result fare_map :=
  hs <- get (depblk b) "m_U248_StandardDepartureTime" (JStr "") ;;
  ha <- get (arrblk b) "c_U239_NominalArrivalTime" (JStr "") ;;
  t1 <- hhmm_or empty hs ;;
  t2 <- hhmm_or empty ha ;;
  nm <- get (shipblk b) "m_SHNM_ShipName" JNull ;;
  store out code (total, t1, t2, nm).

(** The body of the outer loop. *)
Definition programada_step (out : fare_map) (s : json) : result fare_map :=
  b <- read_blocks s ;;
  code <- get (travel b) "c_C276_SailingCode" JNull ;;
  ts <- tariff_totals s ;;
  total_prog <- total_programada ts None ;;
  if truthy code && (match total_prog with Some _ => true | None => false end)
  then store_entry (JStr "") out b code total_prog
  else Ok out.

(** [BuquebusClient._totales_programada_por_sailing] *)
Definition _totales_programada_por_sailing (raw_json : json) : result fare_map :=
  data <- get raw_json "data" raw_json ;;
  sailings <- get data "sailingprice" (JList []) ;;
  ss <- iter sailings ;;
  foldM programada_step ss [].

(** ** [get_web_prices]: the local [hhmm] *)


End Client.

(* ================================================================== *)
(** * buquebus_clientV2.py *)
(* ================================================================== *)

Module ClientV2.
Import Client.

(** [BuquebusClientV2._call_price_availability]: the override posts through
    the session and keeps the [try]. *)
Definition _call_price_availability {P : Type} (send : P -> http_outcome) (payload : P)
  : result (Z * json) :=
  try_except
    ('(status_code, content) <- post (send payload) ;;
     j <- json_or_empty content ;;
     Ok (status_code, j))
    (fun e => Ok (500, JStr (str_of_exn e))).

(** The inner loop of [_totales_por_tarifa]: the first total of the
    requested tariff ends the loop, whatever its amount. *)
Fixpoint total_tarifa (tarifa : string) (ts : list json) (total : option float)
  : result (option float) :=
  match ts with
  | [] => Ok total
  | t :: r =>
      tipo <- tariff_type t ;;
      if eq_str tipo tarifa then
        amt <- tariff_amount t ;;
        if truthy amt && negb (str_upper_is_NA amt) then
          try_except (x <- float_of amt ;; Ok (Some (x / 100)%float))
                     (fun _ => Ok None)
        else Ok total
      else total_tarifa tarifa r total
  end.

(** The body of the outer loop. *)
Definition tarifa_step (tarifa : string) (out : fare_map) (s : json) : result fare_map :=
  b <- read_blocks s ;;
  code <- get (travel b) "c_C276_SailingCode" JNull ;;
  ts <- tariff_totals s ;;
  total <- total_tarifa tarifa ts None ;;
  if truthy code && (match total with Some _ => true | None => false end)
  then store_entry JNull out b code total
  else Ok out.

(** [BuquebusClientV2._totales_por_tarifa] *)
Definition _totales_por_tarifa (raw_json : json) (tarifa : string) : result fare_map :=
  if negb (is_dict raw_json) then Ok []
  else
    d <- get raw_json "data" JNull ;;
    let payload := if is_dict d then d else raw_json in
    sp <- get payload "sailingprice" (JList []) ;;
    ss <- iter sp ;;
    foldM (tarifa_step tarifa) ss [].

(** ** The merged table *)

Record web_row : Type := {
  hora_salida : json;
  hora_llegada : json;
  barco : json;
  codigo : json;
  turista : option string;
  business : option string;
  diferencia : option string;
  economica : option string;
  primera : option string
}.

(** [fmt]: [None] stays [None]; [f"ARS {v:,.2f}"] with the separators
    swapped. *)
Definition fmt (currency : string) (v : option float) : option string :=
  match v with
  | None => None
  | Some x =>
      Some (replace "X" "." (replace "." "," (replace "," "X"
             (currency ++ " " ++ format_comma_2f x))))
  end.

(** [bool(v)] for an amount that may be [None]. *)
Definition amount_truthy (v : option float) : bool :=
  match v with
  | Some x => float_truthy x
  | None => false
  end.

(** [(bus - tur) if (bus and tur) else None] *)
Definition web_diff (bus tur : option float) : option float :=
  match bus, tur with
  | Some b, Some t => if float_truthy b && float_truthy t then Some (b - t)%float else None
  | _, _ => None
  end.

(** [m.get(code, (None, None, None, None))] *)
Definition get4 (m : fare_map) (code : json) : tuple4 :=
  match lookup m code with
  | Some t => t
  | None => (None, JNull, JNull, JNull)
  end.

(** [set(a) | set(b)] on the keys, the first of equal keys kept. *)
Fixpoint add_keys (seen : list json) (ks : list json) : list json :=
  match ks with
  | [] => seen
  | k :: r => add_keys (if existsb (key_eqb k) seen then seen else (seen ++ [k])%list) r
  end.

Definition union_keys (ms : list fare_map) : list json :=
  fold_left (fun seen m => add_keys seen (map fst m)) ms [].

(** The body of the merge loop: the row appended for [code]. *)
Definition merge_row (currency : string) (mapa_t mapa_b mapa_p mapa_e : fare_map)
    (code : json) : web_row :=
  let '(tur, hs, ha, ship_t) := get4 mapa_t code in
  let '(bus, _, _, ship_b) := get4 mapa_b code in
  let '(pri, _, _, ship_p) := get4 mapa_p code in
  let '(eco, hs_e, ha_e, ship_e) := get4 mapa_e code in
  let barco := py_or (py_or (py_or ship_t ship_b) ship_p) ship_e in
  let hora_salida := py_or hs hs_e in
  let hora_llegada := py_or ha ha_e in
  let diff := web_diff bus tur in
  {| hora_salida := hora_salida;
     hora_llegada := hora_llegada;
     barco := barco;
     codigo := code;
     turista := fmt currency tur;
     business := fmt currency bus;
     diferencia := fmt currency diff;
     economica := fmt currency eco;
     primera := fmt currency pri |}.

(** [x["hora_salida"] or "99:99"] *)
Definition sort_key (x : web_row) : json := py_or (hora_salida x) (JStr "99:99").

(** The merge loop over the sorted codes, then the sort by departure. *)
Definition merge (currency : string) (mapa_t mapa_b mapa_p mapa_e : fare_map)
  : result (list web_row) :=
  codes <- sort_by (fun k => k) (union_keys [mapa_t; mapa_b; mapa_p; mapa_e]) ;;
  let results := map (merge_row currency mapa_t mapa_b mapa_p mapa_e) codes in
  sort_by sort_key results.

(** [BuquebusClientV2.fetch_day_web_prices_pro].  [token] is the outcome of
    [self._get_valid_token()]; [call_t], [call_b], [call_p] and [call_e] are
    what the four futures hold ([_post_day_pricing] with TSEAT, BSEAT and
    PRSEAT, [_post_day_pricing_economica] with ESEAT), read in that order. *)
Definition fetch_day_web_prices_pro (token : result json)
    (call_t call_b call_p call_e : result (Z * json))
  : result (Z * payload web_row) :=
  _ <- token ;;
  '(st_t, raw_t) <- call_t ;;
  '(st_b, raw_b) <- call_b ;;
  '(st_p, raw_p) <- call_p ;;
  '(st_e, raw_e) <- call_e ;;
  if negb (st_t =? 200) then Ok (st_t, Upstream raw_t)
  else if negb (st_b =? 200) then Ok (st_b, Upstream raw_b)
  else if negb (st_p =? 200) then Ok (st_p, Upstream raw_p)
  else
    mapa_t <- _totales_programada_por_sailing raw_t ;;
    mapa_b <- _totales_programada_por_sailing raw_b ;;
    mapa_p <- _totales_programada_por_sailing raw_p ;;
    mapa_e <- (if st_e =? 200 then _totales_por_tarifa raw_e "ECONOMICA" else Ok []) ;;
    results <- merge "ARS" mapa_t mapa_b mapa_p mapa_e ;;
    Ok (200, Rows results).

End ClientV2.

(* ================================================================== *)
(** * buquebus_clientUYU.py *)
(* ================================================================== *)

Module ClientUYU.
Import Client.

(** [BuquebusClientUYU._get_cached_token] *)
Definition _get_cached_token (c : cache_file) (now : Z) : option json :=
  if exists_ c then
    match
      data <- load c ;;
      tok <- get data "token" JNull ;;
      if truthy tok then
        exp <- get data "exp" (JInt 0) ;;
        later <- gt exp (JInt now) ;;
        if later then Ok (Some tok) else Ok None
      else Ok None
    with
    | Ok (Some tok) => Some tok
    | Ok None => None
    | Raise _ => None
    end
  else None.

(** [BuquebusClientUYU._call_price_availability]: no [try] here. *)
Definition _call_price_availability {P : Type} (send : P -> http_outcome) (payload : P)
  : result (Z * json) :=
  '(status_code, content) <- post (send payload) ;;
  j <- json_or_empty content ;;
  Ok (status_code, j).

(** [BuquebusClientUYU.fetch_day_web_prices_pro]: only the tourist status
    is tested before the extractors run.  Each [call_] stands for building
    the payload ([self._payload], which normalizes the date and asks for the
    token) and for the call itself; when several of them raise, which
    exception leaves the method is not told apart. *)
Definition fetch_day_web_prices_pro (token : result json)
    (call_t call_b call_p call_e : result (Z * json))
  : result (Z * payload ClientV2.web_row) :=
  _ <- token ;;
  '(st_t, raw_t) <- call_t ;;
  '(st_b, raw_b) <- call_b ;;
  '(st_p, raw_p) <- call_p ;;
  '(st_e, raw_e) <- call_e ;;
  if negb (st_t =? 200) then Ok (st_t, Upstream raw_t)
  else
    mapa_t <- _totales_programada_por_sailing raw_t ;;
    mapa_b <- _totales_programada_por_sailing raw_b ;;
    mapa_p <- _totales_programada_por_sailing raw_p ;;
    mapa_e <- (if st_e =? 200 then ClientV2._totales_por_tarifa raw_e "ECONOMICA" else Ok []) ;;
    results <- ClientV2.merge "UYU" mapa_t mapa_b mapa_p mapa_e ;;
    Ok (200, Rows results).

End ClientUYU.

(* ================================================================== *)
(** * api.py *)
(* ================================================================== *)

Module Api.
Import Client.

Inductive token_status : Type :=
| NoToken
| HasToken (masked : string) (valid : bool) (exp : json).

(** [tok[:10] + "..." + tok[-10:] if len(tok) > 24 else "masked"] *)
Definition mask (tok : string) : string :=
  if (24 <? len tok)%nat then take 10 tok ++ "..." ++ last_chars 10 tok else "masked".

(** [(exp is None) or (int(exp) > int(time.time()))] *)
Definition valid_exp (exp : json) (now : Z) : result bool :=
  if is_none exp then Ok true
  else n <- int_of exp ;; Ok (n >? now).

(** The [elif] branch: the token field of the cache file, [None] when the
    file is absent or the [try] fails. *)
Definition token_field (c : cache_file) : json :=
  if exists_ c then
    match data <- load c ;; get data "token" JNull with
    | Ok t => t
    | Raise _ => JNull
    end
  else JNull.

(** [debug_token].  [env] is the variable BQB_STATIC_TOKEN, [c] the cache
    file of the Argentine client, [b64json] the decoding
    [json.loads(base64.urlsafe_b64decode(_))], [now] is [time.time()]
    truncated. *)
Definition debug_token (env : option string) (c : cache_file)
    (b64json : string -> result json) (now : Z) : result token_status :=
  let tok :=
    match env with
    | Some e => if negb (String.eqb e "") then JStr e else token_field c
    | None => token_field c
    end in
  if negb (truthy tok) then Ok NoToken
  else
    match tok with
    | JStr t =>
        let parts := split "." t in
        let payload :=
          match
            match nth_error parts 1 with
            | Some p1 => b64json (p1 ++ "===")
            | None => Raise IndexError
            end
          with
          | Ok j => j
          | Raise _ => JDict []
          end in
        exp <- get payload "exp" JNull ;;
        valid <- valid_exp exp now ;;
        Ok (HasToken (mask t) valid exp)
    | _ => Raise AttributeError
    end.

End Api.

(* ================================================================== *)
(** * Concurrent callers of [_get_valid_token] *)
(* ================================================================== *)

(** The callers are threads of one process (the endpoints of [api.py] run in
    a thread pool, and [fetch_day_web_prices_pro] submits four calls that
    each ask for the token).  Each call is cut into steps at its accesses to
    what the threads share: the cache file, the class-level lock of the
    Uruguayan client, and the browser.  A schedule picks the thread that
    takes the next step.  A read of the cache file sees it as it was before
    or after a write, never half written. *)

Module Threads.
Import Client.

Record world : Type := {
  cache : cache_file;
  lock_held : bool;
  launches : nat;
  running : nat;
  peak : nat
}.

(** Where a caller stands inside [_get_valid_token]. *)
Inductive pc : Type :=
| Start
| WaitLock
| Recheck
| Launch
| Browsing (k : nat)
| Save (tok exp : json)
| Release (r : result json)
| Returned (tok : json)
| Raised (e : exn).

Definition with_cache (w : world) (c : cache_file) : world :=
  {| cache := c; lock_held := lock_held w; launches := launches w;
     running := running w; peak := peak w |}.

Definition with_lock (w : world) (b : bool) : world :=
  {| cache := cache w; lock_held := b; launches := launches w;
     running := running w; peak := peak w |}.

(** [p.chromium.launch(...)]: one more session, open from now on. *)
Definition open_browser (w : world) : world :=
  {| cache := cache w; lock_held := lock_held w; launches := S (launches w);
     running := S (running w); peak := Nat.max (peak w) (S (running w)) |}.

(** [browser.close()] *)
Definition close_browser (w : world) : world :=
  {| cache := cache w; lock_held := lock_held w; launches := launches w;
     running := Nat.pred (running w); peak := peak w |}.

Section Callers.

(** The environment variable BQB_STATIC_TOKEN, the clock (it stands still
    while the callers run), what the [k]-th browser session captures, and
    whether writing the cache file works. *)
Variable env : option string.
Variable now : Z.
Variable browser : nat -> option json.
Variable write_ok : bool.

(** The end of [_obtain_token_via_playwright] and the test that follows it
    in the caller: [(tok, now + 10 h)], or [RuntimeError] without a token. *)
Definition captured (k : nat) : result (json * json) :=
  match browser k with
  | Some tok =>
      if truthy tok then Ok (tok, JInt (now + 10 * 60 * 60))
      else Raise (RuntimeError "No se pudo obtener token")
  | None => Raise (RuntimeError "No se pudo obtener token")
  end.

(** One step of [BuquebusClient._get_valid_token] (Argentina): the
    environment, the cache, the browser, the save.  No lock. *)
Definition step_ar (w : world) (p : pc) : option (world * pc) :=
  match p with
  | Start =>
      match env with
      | Some e =>
          if negb (String.eqb e "") then Some (w, Returned (JStr (strip e)))
          else match Client._get_cached_token (cache w) now with
               | Some tok => Some (w, Returned tok)
               | None => Some (w, Launch)
               end
      | None =>
          match Client._get_cached_token (cache w) now with
          | Some tok => Some (w, Returned tok)
          | None => Some (w, Launch)
          end
      end
  | Launch => Some (open_browser w, Browsing (launches w))
  | Browsing k =>
      match captured k with
      | Ok (tok, exp) => Some (close_browser w, Save tok exp)
      | Raise e => Some (close_browser w, Raised e)
      end
  | Save tok exp =>
      Some (with_cache w (_save_token write_ok (cache w) tok exp), Returned tok)
  | _ => None
  end.

(** One step of [BuquebusClientUYU._get_valid_token]: the cache, then
    [with self._token_lock:] the cache again, the browser, the save; leaving
    the [with] block releases the lock, on [return] and on [raise] alike. *)
Definition step_uy (w : world) (p : pc) : option (world * pc) :=
  match p with
  | Start =>
      match ClientUYU._get_cached_token (cache w) now with
      | Some tok => Some (w, Returned tok)
      | None => Some (w, WaitLock)
      end
  | WaitLock =>
      if lock_held w then None else Some (with_lock w true, Recheck)
  | Recheck =>
      match ClientUYU._get_cached_token (cache w) now with
      | Some tok => Some (w, Release (Ok tok))
      | None => Some (w, Launch)
      end
  | Launch => Some (open_browser w, Browsing (launches w))
  | Browsing k =>
      match captured k with
      | Ok (tok, exp) => Some (close_browser w, Save tok exp)
      | Raise e => Some (close_browser w, Release (Raise e))
      end
  | Save tok exp =>
      Some (with_cache w (_save_token write_ok (cache w) tok exp), Release (Ok tok))
  | Release (Ok tok) => Some (with_lock w false, Returned tok)
  | Release (Raise e) => Some (with_lock w false, Raised e)
  | _ => None
  end.

End Callers.

(** The threads and the scheduler. *)
Definition system : Type := (world * list pc)%type.

Fixpoint set_nth {A : Type} (l : list A) (i : nat) (x : A) : list A :=
  match l, i with
  | [], _ => []
  | _ :: r, O => x :: r
  | y :: r, S j => y :: set_nth r j x
  end.

(** Thread [i] takes a step if it can; a blocked or finished thread stays. *)
Definition fire (step : world -> pc -> option (world * pc)) (st : system) (i : nat)
  : system :=
  match nth_error (snd st) i with
  | Some p =>
      match step (fst st) p with
      | Some (w', p') => (w', set_nth (snd st) i p')
      | None => st
      end
  | None => st
  end.

Definition run (step : world -> pc -> option (world * pc)) (sched : list nat)
    (st : system) : system :=
  fold_left (fire step) sched st.

(** The callers inside the [with self._token_lock:] block, and those with a
    browser session open. *)
Definition critical (p : pc) : bool :=
  match p with
  | Recheck | Launch | Browsing _ | Save _ _ | Release _ => true
  | _ => false
  end.

Definition browsing (p : pc) : bool :=
  match p with
  | Browsing _ => true
  | _ => false
  end.

Definition count (f : pc -> bool) (ps : list pc) : nat :=
  List.length (filter f ps).

Definition b2n (b : bool) : nat := if b then 1%nat else 0%nat.

(** Mutual exclusion: the lock is held exactly when one caller is inside
    the block, the open sessions are those of the callers that browse, and
    no two sessions were ever open at once. *)
Definition exclusive (st : system) : Prop :=
  count critical (snd st) = (if lock_held (fst st) then 1 else 0)%nat /\
  running (fst st) = count browsing (snd st) /\
  (peak (fst st) <= 1)%nat.

(** Single flight, for callers that find no credential at time [now] and a
    first session that captures [tok0]: nothing launched yet; or the one
    session launched and its credential not yet saved; or the credential
    saved and handed to whoever has returned. *)
Definition single_flight (now : Z) (tok0 : json) (st : system) : Prop :=
  let saved := Content (JDict [("token", tok0); ("exp", JInt (now + 10 * 60 * 60))]) in
  let w := fst st in
  (launches w = 0%nat /\
   ClientUYU._get_cached_token (cache w) now = None /\
   Forall (fun p => p = Start \/ p = WaitLock \/ p = Recheck \/ p = Launch) (snd st))
  \/
  (launches w = 1%nat /\ lock_held w = true /\
   ClientUYU._get_cached_token (cache w) now = None /\
   Forall (fun p => p = Start \/ p = WaitLock \/ p = Browsing 0 \/
                    p = Save tok0 (JInt (now + 10 * 60 * 60))) (snd st))
  \/
  (launches w = 1%nat /\
   cache w = saved /\
   Forall (fun p => p = Start \/ p = WaitLock \/ p = Recheck \/
                    p = Release (Ok tok0) \/ p = Returned tok0) (snd st)).

(** A caller that has left the method, and how many steps a caller has
    left at most. *)
Definition finished (p : pc) : bool :=
  match p with
  | Returned _ | Raised _ => true
  | _ => false
  end.

Definition rank (p : pc) : nat :=
  match p with
  | Start => 7
  | WaitLock => 6
  | Recheck => 5
  | Launch => 4
  | Browsing _ => 3
  | Save _ _ => 2
  | Release _ => 1
  | Returned _ | Raised _ => 0
  end.

Definition total_rank (ps : list pc) : nat := fold_right (fun p n => (rank p + n)%nat) 0%nat ps.

(** No caller can take a step. *)
Definition stuck (step : world -> pc -> option (world * pc)) (st : system) : Prop :=
  forall i p, nth_error (snd st) i = Some p -> step (fst st) p = None.

(** The steps really taken along a schedule (a turn given to a blocked or
    finished caller takes none). *)
Fixpoint steps_taken (step : world -> pc -> option (world * pc)) (sched : list nat)
    (st : system) : nat :=
  match sched with
  | [] => 0
  | i :: r =>
      (match nth_error (snd st) i with
       | Some p => match step (fst st) p with Some _ => 1 | None => 0 end
       | None => 0
       end + steps_taken step r (fire step st i))%nat
  end.

(** [n] callers at the start of the call, no browser open, the lock free. *)
Definition initial (c : cache_file) (n : nat) : system :=
  ({| cache := c; lock_held := false; launches := 0; running := 0; peak := 0 |},
   repeat Start n).

End Threads.

(* ================================================================== *)
(** * Notions the properties are stated with *)
(* ================================================================== *)

Module Notions.
Import Client.

(** The sentinel of "not applicable": N/A in any case, white space around. *)
Definition sentinel (s : string) : bool := String.eqb (upper (strip s)) "N/A".

(** A string that is no integer numeral: [int] rejects it. *)
Definition non_numeric (s : string) : Prop := int_literal s = None.

(** A character that no integer numeral contains. *)
Definition foreign (c : ascii) : bool :=
  negb (isdigit c || isspace_num c || Ascii.eqb c "+" || Ascii.eqb c "-" || Ascii.eqb c "_").

Fixpoint has (p : ascii -> bool) (s : string) : bool :=
  match s with
  | EmptyString => false
  | String c s' => p c || has p s'
  end.

(** An entry of [sailingprice] as the extractors read it: its sailing code
    and its total for a tariff ([None] when no total of that tariff has a
    readable amount). *)
Definition entry_code (s : json) : result json :=
  b <- read_blocks s ;; get (travel b) "c_C276_SailingCode" JNull.

Definition entry_programada (s : json) : result (option float) :=
  ts <- tariff_totals s ;; total_programada ts None.

Definition entry_tarifa (tarifa : string) (s : json) : result (option float) :=
  ts <- tariff_totals s ;; ClientV2.total_tarifa tarifa ts None.

(** The entries that each extractor walks. *)
Definition programada_entries (raw_json : json) : result (list json) :=
  data <- get raw_json "data" raw_json ;;
  sailings <- get data "sailingprice" (JList []) ;;
  iter sailings.

Definition tarifa_entries (raw_json : json) : result (list json) :=
  if negb (is_dict raw_json) then Ok []
  else
    d <- get raw_json "data" JNull ;;
    sp <- get (if is_dict d then d else raw_json) "sailingprice" (JList []) ;;
    iter sp.

(** [k] is the code of an entry of [ss] that has a total. *)
Definition priced (ss : list json) (total : json -> result (option float)) (k : json)
  : Prop :=
  exists s x, In s ss /\ entry_code s = Ok k /\ total s = Ok (Some x).

(** What one pass of the loop body can do to the dict: nothing, or one
    store under the entry's code with the entry's total. *)
Definition step_effect (total : json -> result (option float)) (out : fare_map)
    (s : json) (out' : fare_map) : Prop :=
  exists code tot,
    entry_code s = Ok code /\ total s = Ok tot /\
    match tot with
    | None => out' = out
    | Some x =>
        (truthy code = false /\ out' = out) \/
        (truthy code = true /\
         exists t1 t2 nm, out' = set_item out code (Some x, t1, t2, nm))
    end.

(** Every key of the dict is true, has an amount, and is the code of a
    priced entry. *)
Definition all_priced (ss : list json) (total : json -> result (option float))
    (out : fare_map) : Prop :=
  forall k t, In (k, t) out ->
    (exists x, total_of t = Some x) /\ truthy k = true /\ priced ss total k.

(** [fetch_day_full]: the two totals of an entry, and the row that stands
    for an entry: its code, its two amounts as they are (present or not),
    and a differential that is absent exactly when an amount is. *)
Definition entry_totals (s : json) : result (option float * option float) :=
  ts <- tariff_totals s ;; full_totals ts None None.

Definition row_for (s : json) (item : full_item) : Prop :=
  exists programada flexible,
    entry_totals s = Ok (programada, flexible) /\
    entry_code s = Ok (sailingCode item) /\
    turista item = programada /\
    business item = flexible /\
    (diff item = None <-> programada = None \/ flexible = None).

(** The expiry [exp], read as a number of seconds, is later than the time
    [now]; a float stands for its exact value [m * 2^e].  What is not a
    number is not later than anything. *)
Definition later_than (exp : json) (now : Z) : Prop :=
  match exp with
  | JInt n => now < n
  | JBool b => now < (if b then 1 else 0)
  | JFloat f =>
      match Prim2SF f with
      | S754_zero _ => now < 0
      | S754_finite s m e =>
          let v := if s then Zneg m else Zpos m in
          if 0 <=? e then now < v * 2 ^ e else now * 2 ^ (- e) < v
      | S754_infinity s => s = false
      | S754_nan => False
      end
  | _ => False
  end.

(** The token [e] is the one [/debug/token] looks at: the static token when
    there is one, else the token of the cache file. *)
Definition presented (env : option string) (c : cache_file) (e : string) : Prop :=
  e <> "" /\
  match env with
  | Some s => if String.eqb s "" then Api.token_field c = JStr e else s = e
  | None => Api.token_field c = JStr e
  end.

(** A body in which the first extractor finds no sailing: a dict with
    neither [data] nor [sailingprice], as an error object is. *)
Definition no_sailings (raw : json) : Prop :=
  exists kv,
    raw = JDict kv /\ assoc "data" kv = None /\ assoc "sailingprice" kv = None.

(** A body that is no answer at all: not a dict, or a dict whose [data] is
    not a dict. *)
Definition not_an_answer (raw : json) : Prop :=
  is_dict raw = false \/
  exists kv v, raw = JDict kv /\ assoc "data" kv = Some v /\ is_dict v = false.

(** [amt] is the amount of a total of the tariff [tarifa] that the entry
    [s] lists. *)
Definition lists_total (s : json) (tarifa : string) (amt : json) : Prop :=
  exists ts t tipo,
    tariff_totals s = Ok ts /\ In t ts /\ tariff_type t = Ok tipo /\
    eq_str tipo tarifa = true /\ tariff_amount t = Ok amt.

(** An amount from which a total is made: not empty, not the sentinel, and
    read by [float], which gives [x]. *)
Definition readable (amt : json) (x : float) : Prop :=
  truthy amt = true /\ str_upper_is_NA amt = false /\ float_of amt = Ok x.

(** The key [k] of a dict stands for the code [c]: it is that code, or the
    key equal to it that the dict had before. *)
Definition same_key (k c : json) : Prop := k = c \/ key_eqb k c = true.

(** Every key of the dict is true and carries the hundredth of a readable
    total of the tariff, listed by an entry with that code. *)
Definition amounts_listed (ss : list json) (tarifa : string) (out : fare_map) : Prop :=
  forall k t, In (k, t) out ->
    truthy k = true /\
    exists s code amt x,
      In s ss /\ entry_code s = Ok code /\ same_key k code /\
      lists_total s tarifa amt /\ readable amt x /\
      total_of t = Some (x / 100)%float.

(** The amount an entry lists for a tariff, given its totals as pairs of a
    tariff type and an amount: the amount of the last total of that tariff,
    nothing when the entry has no total of it. *)
Fixpoint listed (tipo : string) (l : list (string * json)) : option json :=
  match l with
  | [] => None
  | (t, amt) :: r =>
      match listed tipo r with
      | Some later => Some later
      | None => if String.eqb t tipo then Some amt else None
      end
  end.

(** What a row of [fetch_day_full] is to show for that tariff: nothing when
    no total is listed, else the listed amount as money. *)
Definition shown (tipo : string) (l : list (string * json)) : option float :=
  match listed tipo l with
  | Some amt => _to_money amt
  | None => None
  end.

(** The row that stands for an entry with the code, the times, the ship
    and the totals given, and that is available. *)
Definition row_of (e : json * json * json * json * list (string * json)) : full_item :=
  let '(code, hs, ha, nm, l) := e in
  {| sailingCode := code; dep := hs; arr := ha; ship := nm; available := true;
     turista := shown "PROGRAMADA" l;
     business := shown "FLEXIBLE" l;
     diff := match shown "PROGRAMADA" l, shown "FLEXIBLE" l with
             | Some p, Some f => Some (f - p)%float
             | _, _ => None
             end |}.

(** The merged table.  [first_true l] is the value of the chain
    [l1 or l2 or ... or ln]: the first true value, the last one if none is. *)
Fixpoint first_true (l : list json) : json :=
  match l with
  | [] => JNull
  | [x] => x
  | x :: r => if truthy x then x else first_true r
  end.

(** The four per-class dicts that the aggregated query merges, given what
    the four calls returned: the economy dict is empty unless its status is
    200. *)
Definition extracted (call_t call_b call_p call_e : result (Z * json))
    (mapa_t mapa_b mapa_p mapa_e : fare_map) : Prop :=
  exists st_t raw_t st_b raw_b st_p raw_p st_e raw_e,
    call_t = Ok (st_t, raw_t) /\ call_b = Ok (st_b, raw_b) /\
    call_p = Ok (st_p, raw_p) /\ call_e = Ok (st_e, raw_e) /\
    _totales_programada_por_sailing raw_t = Ok mapa_t /\
    _totales_programada_por_sailing raw_b = Ok mapa_b /\
    _totales_programada_por_sailing raw_p = Ok mapa_p /\
    (if st_e =? 200 then ClientV2._totales_por_tarifa raw_e "ECONOMICA" else Ok [])
      = Ok mapa_e.

(** The precedence the code applies to the row of [code]: the vessel name
    over the four classes, the two times over tourist and economy only. *)
Definition row_by_precedence (mapa_t mapa_b mapa_p mapa_e : fare_map)
    (row : ClientV2.web_row) : Prop :=
  let code := ClientV2.codigo row in
  let t := ClientV2.get4 mapa_t code in
  let b := ClientV2.get4 mapa_b code in
  let p := ClientV2.get4 mapa_p code in
  let e := ClientV2.get4 mapa_e code in
  ClientV2.barco row = first_true [barco_of t; barco_of b; barco_of p; barco_of e] /\
  ClientV2.hora_salida row = first_true [salida_of t; salida_of e] /\
  ClientV2.hora_llegada row = first_true [llegada_of t; llegada_of e].

(** The precedence the specification words: every field over the four
    classes. *)
Definition row_by_worded_precedence (mapa_t mapa_b mapa_p mapa_e : fare_map)
    (row : ClientV2.web_row) : Prop :=
  let code := ClientV2.codigo row in
  let t := ClientV2.get4 mapa_t code in
  let b := ClientV2.get4 mapa_b code in
  let p := ClientV2.get4 mapa_p code in
  let e := ClientV2.get4 mapa_e code in
  ClientV2.barco row = first_true [barco_of t; barco_of b; barco_of p; barco_of e] /\
  ClientV2.hora_salida row
    = first_true [salida_of t; salida_of b; salida_of p; salida_of e] /\
  ClientV2.hora_llegada row
    = first_true [llegada_of t; llegada_of b; llegada_of p; llegada_of e].

(** An amount from which no total is made: empty (absent, null, zero, the
    empty string), the sentinel N/A, or a value that [float] rejects.  The
    first extractor skips only a [ValueError], the second any exception. *)
Definition unreadable (amt : json) : Prop :=
  truthy amt = false \/ str_upper_is_NA amt = true \/ float_of amt = Raise ValueError.

Definition unreadable_at_all (amt : json) : Prop :=
  truthy amt = false \/ str_upper_is_NA amt = true \/ exists e, float_of amt = Raise e.

(** How a time field is shown: a string of four characters gets a colon
    in the middle, whatever the characters are; a string of another length
    becomes [empty]. *)
Inductive Reformatted (empty : json) : string -> json -> Prop :=
| Reformatted_four (a b c d : ascii) :
    Reformatted empty
      (String a (String b (String c (String d EmptyString))))
      (JStr (String a (String b (String ":" (String c (String d EmptyString))))))
| Reformatted_other (s : string) :
    len s <> 4%nat -> Reformatted empty s empty.

(** A calendar date in the three forms the client accepts: YYYY-MM-DD,
    DD/MM/YYYY and YYMMDD, every field zero-padded. *)
Definition digit_char (n : nat) : ascii := ascii_of_nat (48 + n).

Definition two_digits (n : nat) : string :=
  String (digit_char (n / 10)) (String (digit_char (n mod 10)) EmptyString).

Definition four_digits (n : nat) : string :=
  two_digits (n / 100) ++ two_digits (n mod 100).

Definition iso_form (y m d : nat) : string :=
  four_digits y ++ "-" ++ two_digits m ++ "-" ++ two_digits d.

Definition dmy_form (y m d : nat) : string :=
  two_digits d ++ "/" ++ two_digits m ++ "/" ++ four_digits y.

Definition short_form (y m d : nat) : string :=
  two_digits (y mod 100) ++ two_digits m ++ two_digits d.

End Notions.

(* ================================================================== *)
(** * Upstream responses *)
(* ================================================================== *)

(** Builders of the upstream JSON, with the field names the extractors
    read: the properties and the examples are stated on them. *)

Module Sample.
Import Client.

(** One element of [c_TCT_TariffChargesTotals]. *)
Definition tariff_total (tipo : string) (amount : json) : json :=
  JDict [("c_QOR_QuotationBasisResponse",
          JDict [("m_TARF_TariffCodeTypeDescription",
                  JDict [("c_U282_TariffType", JStr tipo)])]);
         ("c_QLP_ChargesTotal",
          JDict [("m_CHTO_ChargeTotals",
                  JDict [("m_U618_TotalAmount", amount)])])].

(** A list of them, from pairs of a tariff type and an amount. *)
Definition tariff_totals_of (l : list (string * json)) : list json :=
  map (fun ta => tariff_total (fst ta) (snd ta)) l.

(** One element of [sailingprice]. *)
Definition sailing (code dep_time arr_time ship_name : json) (totals : list json) : json :=
  JDict [("c_RDR_RouteDateTimeResponse",
          JDict [("m_ROUT_TravelRoute",
                  JDict [("c_C276_SailingCode", code);
                         ("c_C081_IsAvailable", JBool true)]);
                 ("m_DPDT_DepartureDateAndTime",
                  JDict [("m_U248_StandardDepartureTime", dep_time)]);
                 ("c_ARDT_ArrivalDateAndTime",
                  JDict [("c_U239_NominalArrivalTime", arr_time)]);
                 ("c_SHNM_ShipName",
                  JDict [("m_SHNM_ShipName", ship_name)])]);
         ("c_TCT_TariffChargesTotals", JList totals)].

(** The body of a day's response. *)
Definition response (sailings : list json) : json :=
  JDict [("sailingprice", JList sailings)].

(** The entry with the code, the times, the ship and the totals given. *)
Definition entry_of (e : json * json * json * json * list (string * json)) : json :=
  let '(code, hs, ha, nm, l) := e in sailing code hs ha nm (tariff_totals_of l).

(** A day with three sailings: one priced in both tariffs, one whose
    PROGRAMADA total is the sentinel, one with a FLEXIBLE total only. *)
Definition sample_day : json :=
  response
    [sailing (JStr "BQ101") (JStr "0830") (JStr "0945") (JStr "Francisco")
       [tariff_total "PROGRAMADA" (JStr "8623440");
        tariff_total "FLEXIBLE" (JStr "9523440")];
     sailing (JStr "BQ205") (JStr "1230") (JStr "1345") (JStr "Silvia Ana")
       [tariff_total "PROGRAMADA" (JStr "N/A")];
     sailing (JStr "BQ309") (JStr "1900") (JStr "2015") (JStr "Atlantic III")
       [tariff_total "FLEXIBLE" (JStr "7000000")]].

(** The answers to the tourist and to the business query of one day: the
    second sailing has a tourist total that is not applicable, so only the
    business query prices it. *)
Definition tourist_day : json :=
  response
    [sailing (JStr "BQ101") (JStr "0830") (JStr "0945") (JStr "Francisco")
       [tariff_total "PROGRAMADA" (JStr "100000")];
     sailing (JStr "BQ205") (JStr "0845") (JStr "1000") (JStr "Silvia Ana")
       [tariff_total "PROGRAMADA" (JStr "N/A")]].

Definition business_day : json :=
  response
    [sailing (JStr "BQ101") (JStr "0830") (JStr "0945") (JStr "Francisco")
       [tariff_total "PROGRAMADA" (JStr "150000")];
     sailing (JStr "BQ205") (JStr "0845") (JStr "1000") (JStr "Silvia Ana")
       [tariff_total "PROGRAMADA" (JStr "180000")]].

(** The merged table of that day when the first-class and the economy
    query find nothing. *)
Definition row_101 : ClientV2.web_row :=
  {| ClientV2.hora_salida := JStr "08:30"; ClientV2.hora_llegada := JStr "09:45";
     ClientV2.barco := JStr "Francisco"; ClientV2.codigo := JStr "BQ101";
     ClientV2.turista := Some "ARS 1.000,00";
     ClientV2.business := Some "ARS 1.500,00";
     ClientV2.diferencia := Some "ARS 500,00";
     ClientV2.economica := None; ClientV2.primera := None |}.

Definition row_205 : ClientV2.web_row :=
  {| ClientV2.hora_salida := JNull; ClientV2.hora_llegada := JNull;
     ClientV2.barco := JStr "Silvia Ana"; ClientV2.codigo := JStr "BQ205";
     ClientV2.turista := None;
     ClientV2.business := Some "ARS 1.800,00";
     ClientV2.diferencia := None;
     ClientV2.economica := None; ClientV2.primera := None |}.

Definition tourist_map : fare_map :=
  [(JStr "BQ101", (Some 1000%float, JStr "08:30", JStr "09:45", JStr "Francisco"))].

Definition business_map : fare_map :=
  [(JStr "BQ101", (Some 1500%float, JStr "08:30", JStr "09:45", JStr "Francisco"));
   (JStr "BQ205", (Some 1800%float, JStr "08:45", JStr "10:00", JStr "Silvia Ana"))].

(** A day without sailings, and the body of a failed call. *)
Definition empty_day : json := response [].

Definition unavailable : json := JDict [("error", JStr "Service Unavailable")].

End Sample.

(* ================================================================== *)
(** * Capturing the credential in the browser *)
(* ================================================================== *)

(** [_obtain_token_via_playwright] registers a handler, [on_request], that
    the page calls for every request it sends, and falls back on a regular
    expression over the markup.  The browser is what it shows to the
    method: the requests in the order they are sent and the markup at the
    end; a navigation that raises is not modelled. *)

Module Capture.
Import Client.

(** [a in s] for two strings. *)
Fixpoint is_in (a s : string) : bool :=
  match s with
  | EmptyString => String.prefix a s
  | String _ s' => String.prefix a s || is_in a s'
  end.

(** A request as the handler reads it: [req.url], [req.post_data]. *)
Record request : Type := {
  url : string;
  post_data : option string
}.

(** What the page did during each wait of the method, and [page.content()]
    at the end. *)
Record page : Type := {
  first_pass : list request;
  forced : list request;
  reloaded : list request;
  content : result string
}.

(** The regular expression ["token"\s*:\s*"([A-Za-z0-9-_\.]+)"]. *)

Definition dq : ascii := "034"%char.

(** The class [[A-Za-z0-9-_\.]]. *)
Definition token_char (c : ascii) : bool :=
  let n := N_of_ascii c in
  ((65 <=? n) && (n <=? 90) || (97 <=? n) && (n <=? 122) || (48 <=? n) && (n <=? 57)
   || (n =? 45) || (n =? 95) || (n =? 46))%N.

(** The longest prefix of [s] whose characters satisfy [p], and the rest. *)
Fixpoint span (p : ascii -> bool) (s : string) : string * string :=
  match s with
  | String c s' =>
      if p c then let '(a, b) := span p s' in (String c a, b) else (EmptyString, s)
  | EmptyString => (EmptyString, EmptyString)
  end.

(** [s] without its prefix [a], when it has it. *)
Fixpoint without_prefix (a s : string) : option string :=
  match a, s with
  | EmptyString, _ => Some s
  | String c a', String d s' => if Ascii.eqb c d then without_prefix a' s' else None
  | String _ _, EmptyString => None
  end.

(** The match of the expression at the head of [s]: group 1. *)
Definition match_token (s : string) : option string :=
  match without_prefix (String dq ("token" ++ String dq "")) s with
  | Some r1 =>
      match lstrip_by isspace r1 with
      | String ":" r2 =>
          match lstrip_by isspace r2 with
          | String c r3 =>
              if Ascii.eqb c dq then
                match span token_char r3 with
                | (String x run, String d _) =>
                    if Ascii.eqb d dq then Some (String x run) else None
                | _ => None
                end
              else None
          | EmptyString => None
          end
      | _ => None
      end
  | None => None
  end.

(** [re.search(...)]: the leftmost match. *)
Fixpoint search_token (html : string) : option string :=
  match html with
  | EmptyString => match_token html
  | String _ html' =>
      match match_token html with
      | Some t => Some t
      | None => search_token html'
      end
  end.

(** The fallback on the markup, in its [try]: the holder after it. *)
Definition from_markup (holder : json) (p : page) : json :=
  match content p with
  | Ok html =>
      match search_token html with
      | Some t => JStr t
      | None => holder
      end
  | Raise _ => holder
  end.

Section Handlers.

(** [json.loads] *)
Variable loads : string -> result json.

(** The handler of the Argentine client, on [token_holder["tok"]]: the
    first credential seen stays. *)
Definition on_request (holder : json) (req : request) : json :=
  if is_in "/api/products" (url req) || is_in "/api/priceAvailability" (url req) then
    match
      (let body := match post_data req with Some b => b | None => "" end in
       if negb (String.eqb body "") then
         j <- loads body ;;
         tok <- get j "token" JNull ;;
         Ok (if truthy tok && negb (truthy holder) then tok else holder)
       else Ok holder)
    with
    | Ok h => h
    | Raise _ => holder
    end
  else holder.

(** [BuquebusClient._obtain_token_via_playwright]; [now] is [_now_ts()]. *)
Definition _obtain_token_via_playwright (now : Z) (p : page) : json * json :=
  let h1 := fold_left on_request (first_pass p) JNull in
  let h2 := if negb (truthy h1) then fold_left on_request (forced p) h1 else h1 in
  let h3 := if negb (truthy h2) then fold_left on_request (reloaded p) h2 else h2 in
  let h4 := if negb (truthy h3) then from_markup h3 p else h3 in
  if truthy h4 then (h4, JInt (now + 10 * 60 * 60)) else (JNull, JNull).

End Handlers.

End Capture.

Module CaptureUYU.
Import Client.
Import Capture.

Section Handlers.

Variable loads : string -> result json.

(** The handler of the Uruguayan client: every credential seen replaces
    the one held. *)
Definition on_request (holder : json) (req : request) : json :=
  match
    (if is_in "/api/" (url req)
        && match post_data req with Some b => negb (String.eqb b "") | None => false end
     then
       j <- loads (match post_data req with Some b => b | None => "" end) ;;
       tok <- get j "token" JNull ;;
       Ok (if truthy tok then tok else holder)
     else Ok holder)
  with
  | Ok h => h
  | Raise _ => holder
  end.

(** [BuquebusClientUYU._obtain_token_via_playwright]: the call is always
    forced, there is no reload. *)
Definition _obtain_token_via_playwright (now : Z) (p : page) : json * json :=
  let h1 := fold_left on_request (first_pass p ++ forced p)%list JNull in
  let h2 := if negb (truthy h1) then from_markup h1 p else h1 in
  if truthy h2 then (h2, JInt (now + 36000)) else (JNull, JNull).

End Handlers.

End CaptureUYU.


(* ================================================================== *)
(** * The methods that ask for the credential and call upstream *)
(* ================================================================== *)

(** The methods below read the environment and the clock, read and write
    the cache file, launch browser sessions and post to the upstream
    service.  A call is a function from the state before it to its outcome
    and the state after it; the state keeps the cache file, the number of
    browser sessions launched and the payloads posted, in order.  Writing
    the log file is left out. *)

Module Session.
Import Client.

(** What a call finds around it: the variable BQB_STATIC_TOKEN, the clock
    [_now_ts()] (it stands still during the call), what the [k]-th browser
    session captures, whether the cache file can be written, and what the
    upstream service does with the [n]-th payload posted to it. *)
Record env : Type := {
  static_token : option string;
  now : Z;
  browser : nat -> option json;
  write_ok : bool;
  upstream : nat -> json -> http_outcome
}.

Record state : Type := {
  token_file : cache_file;
  sessions : nat;
  posts : list json
}.

Definition M (A : Type) : Type := state -> result A * state.

Definition ret {A : Type} (a : A) : M A := fun st => (Ok a, st).

Definition lift {A : Type} (c : result A) : M A := fun st => (c, st).

Definition mbind {A B : Type} (c : M A) (k : A -> M B) : M B :=
  fun st =>
    match c st with
    | (Ok a, st') => k a st'
    | (Raise e, st') => (Raise e, st')
    end.

Notation "x <-- c ;; k" := (mbind c (fun x => k))
  (at level 61, c at next level, right associativity).
Notation "' pat <-- c ;; k" := (mbind c (fun x => match x with pat => k end))
  (at level 61, pat pattern, c at next level, right associativity).

(** A [for] loop that threads the items built so far. *)
Fixpoint mfold {A S : Type} (f : S -> A -> M S) (l : list A) (s : S) : M S :=
  match l with
  | [] => ret s
  | x :: r => s' <-- f s x ;; mfold f r s'
  end.

(** One more browser session, and a new content of the cache file. *)
Definition launched (st : state) : state :=
  {| token_file := token_file st; sessions := S (sessions st); posts := posts st |}.

Definition with_token_file (st : state) (c : cache_file) : state :=
  {| token_file := c; sessions := sessions st; posts := posts st |}.

Definition posted (st : state) (payload : json) : state :=
  {| token_file := token_file st; sessions := sessions st;
     posts := (posts st ++ [payload])%list |}.

(** What [_obtain_token_via_playwright] returns in the [k]-th session:
    the token that the browser captures with its expiry, or
    [(None, None)]. *)
Definition _obtain_token_via_playwright (E : env) (k : nat) : json * json :=
  match browser E k with
  | Some tok => if truthy tok then (tok, JInt (now E + 10 * 60 * 60)) else (JNull, JNull)
  | None => (JNull, JNull)
  end.

(** The text of the [RuntimeError] of [_get_valid_token]; its accented
    letter is U+00E1. *)
Definition no_token (tail : string) : string :=
  "No se pudo obtener token autom" ++ String "225"%char ("ticamente" ++ tail).

(** [BuquebusClient._get_valid_token], one caller at a time: the
    environment, then the cache, then the browser and the save. *)
Definition _get_valid_token (E : env) : M json :=
  fun st =>
    let env_tok := match static_token E with Some e => e | None => "" end in
    if negb (String.eqb env_tok "") then (Ok (JStr (strip env_tok)), st)
    else
      match Client._get_cached_token (token_file st) (now E) with
      | Some tok => (Ok tok, st)
      | None =>
          let '(tok, exp) := _obtain_token_via_playwright E (sessions st) in
          if negb (truthy tok) then (Raise (RuntimeError (no_token ".")), launched st)
          else
            (Ok tok,
             with_token_file (launched st)
               (_save_token (write_ok E) (token_file st) tok exp))
      end.

(** [BuquebusClient._call_price_availability] on the [n]-th post. *)
Definition _call_price_availability (E : env) (payload : json) : M (Z * json) :=
  fun st =>
    (Client._call_price_availability (upstream E (List.length (posts st))) payload,
     posted st payload).

(** ** The payloads *)

(** The dict that [_payload_day] returns, given the token. *)
Definition payload_day (token : json) (origen destino yy mm dd seat_code : string) : json :=
  JDict
    [("token", token);
     ("request",
      JDict
        [("m_AGT_AgencyIdentity",
          JDict
            [("m_AGAC_AgentsAccountNumber",
              JDict [("m_AGAC_AgentAccountNumber", JStr "7250")]);
             ("c_CURR_CurrencyForTransaction",
              JDict [("m_6345_CurrencyCoded", JStr "ARS");
                     ("c_U428_DecimalPrecision", JStr "2")]);
             ("c_CMPNY_Company",
              JDict [("m_C045_TradingUnitName", JStr "PAX");
                     ("m_C046_CompanyName", JStr "BUQUEBUS");
                     ("m_C047_GeographycalLocationName", JStr "South America");
                     ("m_C048_DivisionName", JStr "BQB")]);
             ("c_SCHN_SalesChannel", JDict [("m_C056_SalesChannel", JStr "WEB")])]);
         ("m_RDQ_RouteDateTimeRequest",
          JList
            [JDict
               [("index", JStr "0");
                ("m_LEGJ_LegOrSectorOfJourney",
                 JDict [("m_LEGJ_LegOrSectorOfJourney", JStr "1")]);
                ("m_ROUT_TravelRoute",
                 JDict [("m_U271_ServiceAgreementDeparturePort", JStr origen);
                        ("m_U272_ServiceAgreementDestinationPort", JStr destino);
                        ("c_C276_SailingCode", JStr "");
                        ("c_C257_applyReturnFare", JBool false);
                        ("c_399_SearchVesselTransfer", JStr "false");
                        ("c_400_vesselTransferTime", JInt 0)]);
                ("m_DPDT_DepartureDateTime",
                 JDict [("m_U247_StandardDepartureDate", JStr (yy ++ mm ++ dd));
                        ("m_U248_StandardDepartureTime", JStr "0000")]);
                ("c_DPDT_DepartureDateTimeTo",
                 JDict [("m_U247_StandardDepartureDate", JStr (yy ++ mm ++ dd));
                        ("m_U248_StandardDepartureTime", JStr "2359")])]]);
         ("c_PAQ_PassengerDetailRequest",
          JList
            [JDict
               [("index", JStr "0");
                ("m_LEGJ_LegOrSectorOfJourney",
                 JDict [("m_LEGJ_LegOrSectorOfJourney", JStr "1")]);
                ("m_PAXS_PassengerSet",
                 JList [JDict [("passengerIndex", JStr "0");
                               ("m_U257_PassengerTypeCode", JStr "ADL");
                               ("m_U258_NumberOfPassengers", JInt 1)]])]]);
         ("c_ACQ_AccomodationDetailsRequest",
          JList
            [JDict
               [("m_LEGJ_LegOrSectorOfJourney",
                 JDict [("m_LEGJ_LegOrSectorOfJourney", JStr "1")]);
                ("m_ACPL_AccomodationPlaces",
                 JDict [("m_U228_QuantityOfUnits", JInt 1);
                        ("m_U229_ModeOfOccupancy", JStr "C")]);
                ("m_ACDT_AccomodationDetails",
                 JDict [("m_U220_ServiceAgreementDefinedAccomodationCode", JStr seat_code);
                        ("i_U221_AccomodationType", JStr "CHAIR")]);
                ("m_PAXT_PassengerType",
                 JList [JDict [("m_U257_PassengerTypeCode", JStr "ADL");
                               ("m_U258_NumberOfPassengers", JInt 1)]])]]);
         ("c_VEQ_VehicleRequest", JList []);
         ("c_MTT_MultipleTariffTypeRequest",
          JList
            [JDict
               [("m_LEGJ_LegOrSectorOfJourney",
                 JDict [("m_LEGJ_LegOrSectorOfJourney", JStr "1")]);
                ("m_TARF_TariffCodeTypeDescription",
                 JList [JDict [("c_U282_TariffType", JStr "PROGRAMADA");
                               ("c_C113_PriceDetailRequested", JStr "true")];
                        JDict [("c_U282_TariffType", JStr "FLEXIBLE");
                               ("c_C113_PriceDetailRequested", JStr "true")]])]])])].

(** [BuquebusClient._payload_day] *)
Definition _payload_day (E : env) (origen destino yy mm dd seat_code : string) : M json :=
  token <-- _get_valid_token E ;;
  ret (payload_day token origen destino yy mm dd seat_code).

(** The dict that [_payload_single_sailing_by_seat] returns; the sailing
    code is the value read in the day's answer. *)
Definition payload_single_sailing_by_seat (token : json) (origen destino yymmdd : string)
    (sailing_code : json) (seat_code : string) : json :=
  JDict
    [("token", token);
     ("request",
      JDict
        [("m_AGT_AgencyIdentity",
          JDict
            [("m_AGAC_AgentsAccountNumber",
              JDict [("m_AGAC_AgentAccountNumber", JStr "7250")]);
             ("c_CURR_CurrencyForTransaction",
              JDict [("m_6345_CurrencyCoded", JStr "ARS");
                     ("c_U428_DecimalPrecision", JStr "2")]);
             ("c_CMPNY_Company",
              JDict [("m_C045_TradingUnitName", JStr "PAX");
                     ("m_C046_CompanyName", JStr "BUQUEBUS");
                     ("m_C047_GeographycalLocationName", JStr "South America");
                     ("m_C048_DivisionName", JStr "BQB")]);
             ("c_SCHN_SalesChannel", JDict [("m_C056_SalesChannel", JStr "WEB")])]);
         ("m_RDQ_RouteDateTimeRequest",
          JList
            [JDict
               [("index", JStr "0");
                ("m_LEGJ_LegOrSectorOfJourney",
                 JDict [("m_LEGJ_LegOrSectorOfJourney", JStr "1")]);
                ("m_ROUT_TravelRoute",
                 JDict [("m_U271_ServiceAgreementDeparturePort", JStr origen);
                        ("m_U272_ServiceAgreementDestinationPort", JStr destino);
                        ("c_C276_SailingCode", sailing_code);
                        ("c_C257_applyReturnFare", JBool false);
                        ("c_399_SearchVesselTransfer", JStr "false");
                        ("c_400_vesselTransferTime", JInt 0)]);
                ("m_DPDT_DepartureDateTime",
                 JDict [("m_U247_StandardDepartureDate", JStr yymmdd);
                        ("m_U248_StandardDepartureTime", JStr "0000")]);
                ("c_DPDT_DepartureDateTimeTo",
                 JDict [("m_U247_StandardDepartureDate", JStr yymmdd);
                        ("m_U248_StandardDepartureTime", JStr "2359")])]]);
         ("c_PAQ_PassengerDetailRequest",
          JList
            [JDict
               [("index", JStr "0");
                ("m_LEGJ_LegOrSectorOfJourney",
                 JDict [("m_LEGJ_LegOrSectorOfJourney", JStr "1")]);
                ("m_PAXS_PassengerSet",
                 JList [JDict [("passengerIndex", JStr "0");
                               ("m_U257_PassengerTypeCode", JStr "ADL");
                               ("m_U258_NumberOfPassengers", JInt 1)]])]]);
         ("c_ACQ_AccomodationDetailsRequest",
          JList
            [JDict
               [("m_LEGJ_LegOrSectorOfJourney",
                 JDict [("m_LEGJ_LegOrSectorOfJourney", JStr "1")]);
                ("m_ACPL_AccomodationPlaces",
                 JDict [("m_U228_QuantityOfUnits", JInt 1);
                        ("m_U229_ModeOfOccupancy", JStr "C")]);
                ("m_ACDT_AccomodationDetails",
                 JDict [("m_U220_ServiceAgreementDefinedAccomodationCode", JStr seat_code);
                        ("i_U221_AccomodationType", JStr "CHAIR")]);
                ("m_PAXT_PassengerType",
                 JList [JDict [("m_U257_PassengerTypeCode", JStr "ADL");
                               ("m_U258_NumberOfPassengers", JInt 1)]])]]);
         ("c_VEQ_VehicleRequest", JList []);
         ("c_MTT_MultipleTariffTypeRequest",
          JList
            [JDict
               [("m_LEGJ_LegOrSectorOfJourney",
                 JDict [("m_LEGJ_LegOrSectorOfJourney", JStr "1")]);
                ("m_TARF_TariffCodeTypeDescription",
                 JList [JDict [("c_U282_TariffType", JStr "PROGRAMADA");
                               ("c_C113_PriceDetailRequested", JStr "true")];
                        JDict [("c_U282_TariffType", JStr "FLEXIBLE");
                               ("c_C113_PriceDetailRequested", JStr "true")]])]])])].

(** [BuquebusClient._payload_single_sailing_by_seat] *)
Definition _payload_single_sailing_by_seat (E : env) (origen destino yymmdd : string)
    (sailing_code : json) (seat_code : string) : M json :=
  token <-- _get_valid_token E ;;
  ret (payload_single_sailing_by_seat token origen destino yymmdd sailing_code seat_code).

(** The dict that [_post_day_pricing] posts. *)
Definition payload_day_pricing (token : json) (origen destino yymmdd accomodation_code : string)
  : json :=
  JDict
    [("token", token);
     ("request",
      JDict
        [("m_AGT_AgencyIdentity",
          JDict
            [("m_AGAC_AgentsAccountNumber",
              JDict [("m_AGAC_AgentAccountNumber", JStr "7250")]);
             ("c_CURR_CurrencyForTransaction",
              JDict [("m_6345_CurrencyCoded", JStr "ARS");
                     ("c_U428_DecimalPrecision", JStr "2")]);
             ("c_CMPNY_Company",
              JDict [("m_C045_TradingUnitName", JStr "PAX");
                     ("m_C046_CompanyName", JStr "BUQUEBUS");
                     ("m_C047_GeographycalLocationName", JStr "South America");
                     ("m_C048_DivisionName", JStr "BQB")]);
             ("c_SCHN_SalesChannel", JDict [("m_C056_SalesChannel", JStr "WEB")])]);
         ("m_RDQ_RouteDateTimeRequest",
          JList
            [JDict
               [("index", JStr "0");
                ("m_LEGJ_LegOrSectorOfJourney",
                 JDict [("m_LEGJ_LegOrSectorOfJourney", JStr "1")]);
                ("m_ROUT_TravelRoute",
                 JDict [("m_U271_ServiceAgreementDeparturePort", JStr origen);
                        ("m_U272_ServiceAgreementDestinationPort", JStr destino);
                        ("c_C276_SailingCode", JStr "");
                        ("c_C257_applyReturnFare", JBool false);
                        ("c_399_SearchVesselTransfer", JStr "false");
                        ("c_400_vesselTransferTime", JInt 0)]);
                ("m_DPDT_DepartureDateTime",
                 JDict [("m_U247_StandardDepartureDate", JStr yymmdd);
                        ("m_U248_StandardDepartureTime", JStr "0000")]);
                ("c_DPDT_DepartureDateTimeTo",
                 JDict [("m_U247_StandardDepartureDate", JStr yymmdd);
                        ("m_U248_StandardDepartureTime", JStr "2359")])]]);
         ("c_PAQ_PassengerDetailRequest",
          JList
            [JDict
               [("index", JStr "0");
                ("m_LEGJ_LegOrSectorOfJourney",
                 JDict [("m_LEGJ_LegOrSectorOfJourney", JStr "1")]);
                ("m_PAXS_PassengerSet",
                 JList [JDict [("passengerIndex", JStr "0");
                               ("m_U257_PassengerTypeCode", JStr "ADL");
                               ("m_U258_NumberOfPassengers", JInt 1)]])]]);
         ("c_ACQ_AccomodationDetailsRequest",
          JList
            [JDict
               [("m_LEGJ_LegOrSectorOfJourney",
                 JDict [("m_LEGJ_LegOrSectorOfJourney", JStr "1")]);
                ("m_ACPL_AccomodationPlaces",
                 JDict [("m_U228_QuantityOfUnits", JInt 1);
                        ("m_U229_ModeOfOccupancy", JStr "C")]);
                ("m_ACDT_AccomodationDetails",
                 JDict [("m_U220_ServiceAgreementDefinedAccomodationCode",
                         JStr accomodation_code);
                        ("i_U221_AccomodationType", JStr "CHAIR")]);
                ("m_PAXT_PassengerType",
                 JList [JDict [("m_U257_PassengerTypeCode", JStr "ADL");
                               ("m_U258_NumberOfPassengers", JInt 1)]])]]);
         ("c_VEQ_VehicleRequest", JList []);
         ("c_MTT_MultipleTariffTypeRequest",
          JList
            [JDict
               [("m_LEGJ_LegOrSectorOfJourney",
                 JDict [("m_LEGJ_LegOrSectorOfJourney", JStr "1")]);
                ("m_TARF_TariffCodeTypeDescription",
                 JList [JDict [("c_U282_TariffType", JStr "PROGRAMADA");
                               ("c_C113_PriceDetailRequested", JStr "true")]])]])])].

(** The dict that [_post_day_pricing_vehicle] posts. *)
Definition payload_day_pricing_vehicle (token : json)
    (origen destino yymmdd accomodation_code : string) : json :=
  JDict
    [("token", token);
     ("request",
      JDict
        [("m_AGT_AgencyIdentity",
          JDict
            [("m_AGAC_AgentsAccountNumber",
              JDict [("m_AGAC_AgentAccountNumber", JStr "7250")]);
             ("c_CURR_CurrencyForTransaction",
              JDict [("m_6345_CurrencyCoded", JStr "ARS");
                     ("c_U428_DecimalPrecision", JStr "2")]);
             ("c_CMPNY_Company",
              JDict [("m_C045_TradingUnitName", JStr "PAX");
                     ("m_C046_CompanyName", JStr "BUQUEBUS");
                     ("m_C047_GeographycalLocationName", JStr "South America");
                     ("m_C048_DivisionName", JStr "BQB")]);
             ("c_SCHN_SalesChannel", JDict [("m_C056_SalesChannel", JStr "WEB")])]);
         ("m_RDQ_RouteDateTimeRequest",
          JList
            [JDict
               [("index", JStr "0");
                ("m_LEGJ_LegOrSectorOfJourney",
                 JDict [("m_LEGJ_LegOrSectorOfJourney", JStr "1")]);
                ("m_ROUT_TravelRoute",
                 JDict [("m_U271_ServiceAgreementDeparturePort", JStr origen);
                        ("m_U272_ServiceAgreementDestinationPort", JStr destino);
                        ("c_C276_SailingCode", JStr "");
                        ("c_C257_applyReturnFare", JBool false);
                        ("c_399_SearchVesselTransfer", JStr "false");
                        ("c_400_vesselTransferTime", JInt 0)]);
                ("m_DPDT_DepartureDateTime",
                 JDict [("m_U247_StandardDepartureDate", JStr yymmdd);
                        ("m_U248_StandardDepartureTime", JStr "0000")]);
                ("c_DPDT_DepartureDateTimeTo",
                 JDict [("m_U247_StandardDepartureDate", JStr yymmdd);
                        ("m_U248_StandardDepartureTime", JStr "2359")])]]);
         ("c_PAQ_PassengerDetailRequest",
          JList
            [JDict
               [("index", JStr "0");
                ("m_LEGJ_LegOrSectorOfJourney",
                 JDict [("m_LEGJ_LegOrSectorOfJourney", JStr "1")]);
                ("m_PAXS_PassengerSet",
                 JList [JDict [("passengerIndex", JStr "0");
                               ("m_U257_PassengerTypeCode", JStr "ADL");
                               ("m_U258_NumberOfPassengers", JInt 1)]])]]);
         ("c_ACQ_AccomodationDetailsRequest",
          JList
            [JDict
               [("m_LEGJ_LegOrSectorOfJourney",
                 JDict [("m_LEGJ_LegOrSectorOfJourney", JStr "1")]);
                ("m_ACPL_AccomodationPlaces",
                 JDict [("m_U228_QuantityOfUnits", JInt 1);
                        ("m_U229_ModeOfOccupancy", JStr "C")]);
                ("m_ACDT_AccomodationDetails",
                 JDict [("m_U220_ServiceAgreementDefinedAccomodationCode",
                         JStr accomodation_code);
                        ("i_U221_AccomodationType", JStr "CHAIR")]);
                ("m_PAXT_PassengerType",
                 JList [JDict [("m_U257_PassengerTypeCode", JStr "ADL");
                               ("m_U258_NumberOfPassengers", JInt 1)]])]]);
         ("c_VEQ_VehicleRequest",
          JList
            [JDict
               [("index", JStr "0");
                ("m_LEGJ_LegOrSectorOfJourney",
                 JDict [("m_LEGJ_LegOrSectorOfJourney", JStr "1")]);
                ("m_VEQS_VehicleSet",
                 JList [JDict [("vehicleIndex", JStr "0");
                               ("m_U259_VehicleTypeCode", JStr "CAR");
                               ("m_U260_NumberOfVehicles", JInt 1)]])]]);
         ("c_MTT_MultipleTariffTypeRequest",
          JList
            [JDict
               [("m_LEGJ_LegOrSectorOfJourney",
                 JDict [("m_LEGJ_LegOrSectorOfJourney", JStr "1")]);
                ("m_TARF_TariffCodeTypeDescription",
                 JList [JDict [("c_U282_TariffType", JStr "PROGRAMADA");
                               ("c_C113_PriceDetailRequested", JStr "true")]])]])])].

(** ** The queries *)

(** [BuquebusClient.fetch_price] *)
Definition fetch_price (E : env) (origen destino fecha : string) : M (Z * json) :=
  '(yy, mm, dd) <-- lift (_normalize_date_to_yymmdd fecha) ;;
  payload <-- _payload_day E origen destino yy mm dd "BSEAT" ;;
  _call_price_availability E payload.

(** [BuquebusClient.fetch_day_full], on the outcome of its [fetch_price]. *)
Definition fetch_day_full (E : env) (origen destino fecha : string)
  : M (Z * payload full_item) :=
  fun st =>
    let '(r, st') := fetch_price E origen destino fecha st in
    (Client.fetch_day_full r, st').

(** [BuquebusClient.fetch_day_raw]: the whole body is in a [try]. *)
Definition fetch_day_raw (E : env) (origen destino fecha : string) : M (Z * json) :=
  fun st =>
    match fetch_price E origen destino fecha st with
    | (Ok (status, data), st') =>
        if negb (status =? 200) then (Ok (status, JDict [("error", data)]), st')
        else (Ok (status, data), st')
    | (Raise e, st') => (Ok (500, JDict [("error", JStr (str_of_exn e))]), st')
    end.

(** [BuquebusClient._post_day_pricing] *)
Definition _post_day_pricing (E : env) (origen destino fecha accomodation_code : string)
  : M (Z * json) :=
  '(yy, mm, dd) <-- lift (_normalize_date_to_yymmdd fecha) ;;
  let yymmdd := yy ++ mm ++ dd in
  token <-- _get_valid_token E ;;
  _call_price_availability E
    (payload_day_pricing token origen destino yymmdd accomodation_code).

(** [BuquebusClient._post_day_pricing_vehicle] *)
Definition _post_day_pricing_vehicle (E : env)
    (origen destino fecha accomodation_code : string) : M (Z * json) :=
  '(yy, mm, dd) <-- lift (_normalize_date_to_yymmdd fecha) ;;
  let yymmdd := yy ++ mm ++ dd in
  token <-- _get_valid_token E ;;
  _call_price_availability E
    (payload_day_pricing_vehicle token origen destino yymmdd accomodation_code).

(** ** [fetch_day_web_prices] and [fetch_day_web_prices_with_vehicle] *)

(** A row of the table of V1; [vehiculo] tells whether the row has the key
    of that name, whose value is [True]. *)
Record web_row : Type := {
  hora_salida : json;
  hora_llegada : json;
  barco : json;
  codigo : json;
  turista : option string;
  business : option string;
  vehiculo : bool;
  diferencia : option string
}.

(** The local [fmt]: it has no test for [None], its callers have. *)
Definition fmt (v : float) : string :=
  replace "X" "." (replace "." "," (replace "," "X" ("ARS " ++ format_comma_2f v))).

(** [fmt(v) if v else None] *)
Definition fmt_if (v : option float) : option string :=
  match v with
  | Some x => if float_truthy x then Some (fmt x) else None
  | None => None
  end.

(** [m.get(code, (None, "", "", None))] *)
Definition get4 (m : fare_map) (code : json) : tuple4 :=
  match lookup m code with
  | Some t => t
  | None => (None, JStr "", JStr "", JNull)
  end.

(** The body of the loop over the codes. *)
Definition merge_row (with_vehicle : bool) (mapa_t mapa_b : fare_map) (code : json)
  : web_row :=
  let '(tur, hs, ha, ship) := get4 mapa_t code in
  let '(bus, _, _, ship_b) := get4 mapa_b code in
  let barco := py_or ship ship_b in
  let diff := ClientV2.web_diff bus tur in
  {| hora_salida := hs;
     hora_llegada := ha;
     barco := barco;
     codigo := code;
     turista := fmt_if tur;
     business := fmt_if bus;
     vehiculo := with_vehicle;
     diferencia := fmt_if diff |}.

(** The loop over [sorted(set(mapa_t.keys()) | set(mapa_b.keys()))]. *)
Definition merge (with_vehicle : bool) (mapa_t mapa_b : fare_map) : result (list web_row) :=
  codes <- sort_by (fun k => k) (ClientV2.union_keys [mapa_t; mapa_b]) ;;
  Ok (map (merge_row with_vehicle mapa_t mapa_b) codes).

(** The two methods differ in the call they make and in the key
    [vehiculo]. *)
Definition web_prices (with_vehicle : bool) (call : string -> M (Z * json))
  : M (Z * payload web_row) :=
  '(status_t, raw_t) <-- call "TSEAT" ;;
  if negb (status_t =? 200) then ret (status_t, Upstream raw_t)
  else
    mapa_t <-- lift (_totales_programada_por_sailing raw_t) ;;
    '(status_b, raw_b) <-- call "BSEAT" ;;
    if negb (status_b =? 200) then ret (status_b, Upstream raw_b)
    else
      mapa_b <-- lift (_totales_programada_por_sailing raw_b) ;;
      results <-- lift (merge with_vehicle mapa_t mapa_b) ;;
      ret (200, Rows results).

(** [BuquebusClient.fetch_day_web_prices] *)
Definition fetch_day_web_prices (E : env) (origen destino fecha : string)
  : M (Z * payload web_row) :=
  web_prices false (_post_day_pricing E origen destino fecha).

(** [BuquebusClient.fetch_day_web_prices_with_vehicle] *)
Definition fetch_day_web_prices_with_vehicle (E : env) (origen destino fecha : string)
  : M (Z * payload web_row) :=
  web_prices true (_post_day_pricing_vehicle E origen destino fecha).

(** ** [fetch_day_by_seat] *)

Record seat_item : Type := {
  sailingCode : json;
  dep : json;
  arr : json;
  ship : json;
  available : bool;
  adlGross : option float;
  totalProgramada : option float;
  totalFlexible : option float
}.

(** [v[0]] inside a [try] that catches every exception: [None] when it
    raises. *)
Definition first_item (v : json) : option json :=
  match v with
  | JList (x :: _) => Some x
  | JStr (String c _) => Some (JStr (String c EmptyString))
  | _ => None
  end.

(** The body of the [try] for one element of [productPrice]: [None] when
    it raises, else the value of [adl_val]. *)
Definition adl_try (pp : json) : option (option float) :=
  match get pp "c_PAR_PassengerDetailsResponse" (JList []) with
  | Ok l =>
      match first_item l with
      | Some par =>
          match get par "m_PAXS_PassengerSet" (JList []) with
          | Ok l' =>
              match first_item l' with
              | Some pax =>
                  match get pax "c_U260_ChargePerPerson" JNull with
                  | Ok adl_amt => Some (_to_money adl_amt)
                  | Raise _ => None
                  end
              | None => None
              end
          | Raise _ => None
          end
      | None => None
      end
  | Raise _ => None
  end.

(** The loop over [productPrice]: the first amount that converts ends
    it. *)
Fixpoint adl_gross (pps : list json) : option float :=
  match pps with
  | [] => None
  | pp :: r =>
      match adl_try pp with
      | Some (Some adl_val) => Some adl_val
      | _ => adl_gross r
      end
  end.

(** What is read in the answer to the query of one sailing. *)
Definition seat_prices (st2 : Z) (resp : json)
  : result (option float * option float * option float) :=
  if (st2 =? 200) && is_dict resp then
    ts <- tariff_totals resp ;;
    '(prog_total, flex_total) <- full_totals ts None None ;;
    pp <- get resp "productPrice" (JList []) ;;
    pps <- iter pp ;;
    Ok (adl_gross pps, prog_total, flex_total)
  else Ok (None, None, None).

(** The body of the loop over [sailingprice]. *)
Definition seat_step (E : env) (origen destino yymmdd seat_code : string)
    (items : list seat_item) (s : json) : M (list seat_item) :=
  b <-- lift (read_blocks s) ;;
  code <-- lift (get (travel b) "c_C276_SailingCode" JNull) ;;
  if negb (truthy code) then ret items
  else
    payload <-- _payload_single_sailing_by_seat E origen destino yymmdd code seat_code ;;
    '(st2, resp) <-- _call_price_availability E payload ;;
    '(adl, prog_total, flex_total) <-- lift (seat_prices st2 resp) ;;
    d <-- lift (get (depblk b) "m_U248_StandardDepartureTime" JNull) ;;
    a <-- lift (get (arrblk b) "c_U239_NominalArrivalTime" JNull) ;;
    nm <-- lift (get (shipblk b) "m_SHNM_ShipName" JNull) ;;
    av <-- lift (get (travel b) "c_C081_IsAvailable" JNull) ;;
    ret (items ++ [{| sailingCode := code; dep := d; arr := a; ship := nm;
                      available := truthy av; adlGross := adl;
                      totalProgramada := prog_total;
                      totalFlexible := flex_total |}])%list.

(** [BuquebusClient.fetch_day_by_seat] *)
Definition fetch_day_by_seat (E : env) (origen destino fecha seat_code : string)
  : M (Z * payload seat_item) :=
  '(status, base) <-- fetch_price E origen destino fecha ;;
  if negb (status =? 200) then ret (status, Upstream base)
  else
    '(yy, mm, dd) <-- lift (_normalize_date_to_yymmdd fecha) ;;
    let yymmdd := yy ++ mm ++ dd in
    sp <-- lift (get base "sailingprice" (JList [])) ;;
    ss <-- lift (iter sp) ;;
    items <-- mfold (seat_step E origen destino yymmdd seat_code) ss [] ;;
    ret (200, Rows items).

End Session.

(** ** [_post_day_pricing_economica] of [buquebus_clientV2.py] *)

Module SessionV2.
Import Client.
Import Session.

(** [d[k] = v] on a dict: the value of an existing key is replaced where
    it stands, a new key goes to the end. *)
Fixpoint dict_set (k : string) (v : json) (kv : list (string * json))
  : list (string * json) :=
  match kv with
  | [] => [(k, v)]
  | (k', v') :: r => if String.eqb k k' then (k', v) :: r else (k', v') :: dict_set k v r
  end.

(** [payload["request"]["c_MTT_MultipleTariffTypeRequest"][0]
      ["m_TARF_TariffCodeTypeDescription"] = types]: [None] when one of the
    three subscripts raises ([KeyError], [IndexError] or [TypeError]). *)
Definition set_tariff_types (payload : json) (types : json) : option json :=
  match payload with
  | JDict top =>
      match assoc "request" top with
      | Some (JDict req) =>
          match assoc "c_MTT_MultipleTariffTypeRequest" req with
          | Some (JList (JDict mtt0 :: rest)) =>
              let mtt0' := JDict (dict_set "m_TARF_TariffCodeTypeDescription" types mtt0) in
              let req' := JDict (dict_set "c_MTT_MultipleTariffTypeRequest"
                                   (JList (mtt0' :: rest)) req) in
              Some (JDict (dict_set "request" req' top))
          | _ => None
          end
      | _ => None
      end
  | _ => None
  end.

(** [BuquebusClientV2._call_price_availability] on the [n]-th post. *)
Definition _call_price_availability (E : env) (payload : json) : M (Z * json) :=
  fun st =>
    (ClientV2._call_price_availability (upstream E (List.length (posts st))) payload,
     posted st payload).

(** [BuquebusClientV2._post_day_pricing_economica].  The assignment cannot
    raise on the dict that [_payload_day] has just built; the last case
    is not reached. *)
Definition _post_day_pricing_economica (E : env)
    (origen destino fecha accomodation_code : string) : M (Z * json) :=
  '(yy, mm, dd) <-- lift (_normalize_date_to_yymmdd fecha) ;;
  payload <-- _payload_day E origen destino yy mm dd accomodation_code ;;
  match
    set_tariff_types payload
      (JList [JDict [("c_U282_TariffType", JStr "ECONOMICA");
                     ("c_C113_PriceDetailRequested", JStr "true")]])
  with
  | Some payload' => _call_price_availability E payload'
  | None => lift (Raise TypeError)
  end.

End SessionV2.

(** ** The Uruguayan client *)

Module SessionUYU.
Import Client.
Import Session.

(** What the override of [_obtain_token_via_playwright] returns in the
    [k]-th session. *)
Definition _obtain_token_via_playwright (E : env) (k : nat) : json * json :=
  match browser E k with
  | Some tok => if truthy tok then (tok, JInt (now E + 36000)) else (JNull, JNull)
  | None => (JNull, JNull)
  end.

(** [BuquebusClientUYU._get_valid_token], one caller at a time: the cache,
    then under the lock the cache again, the browser and the save.  The
    environment variable is not read. *)
Definition _get_valid_token (E : env) : M json :=
  fun st =>
    match ClientUYU._get_cached_token (token_file st) (now E) with
    | Some tok => (Ok tok, st)
    | None =>
        match ClientUYU._get_cached_token (token_file st) (now E) with
        | Some tok => (Ok tok, st)
        | None =>
            let '(tok, exp) := _obtain_token_via_playwright E (sessions st) in
            if negb (truthy tok) then
              (Raise (RuntimeError (no_token " para /uy.")), launched st)
            else
              (Ok tok,
               with_token_file (launched st)
                 (_save_token (write_ok E) (token_file st) tok exp))
        end
    end.

(** [BuquebusClientUYU._call_price_availability] on the [n]-th post. *)
Definition _call_price_availability (E : env) (payload : json) : M (Z * json) :=
  fun st =>
    (ClientUYU._call_price_availability (upstream E (List.length (posts st))) payload,
     posted st payload).

(** The dict that [_payload] returns, given the token. *)
Definition payload_uy (token : json) (origen destino yymmdd code : string) : json :=
  JDict
    [("token", token);
     ("request",
      JDict
        [("m_AGT_AgencyIdentity",
          JDict
            [("m_AGAC_AgentsAccountNumber",
              JDict [("m_AGAC_AgentAccountNumber", JStr "7252")]);
             ("c_CURR_CurrencyForTransaction",
              JDict [("m_6345_CurrencyCoded", JStr "UYU");
                     ("c_U428_DecimalPrecision", JStr "2")]);
             ("c_CMPNY_Company",
              JDict [("m_C045_TradingUnitName", JStr "PAX");
                     ("m_C046_CompanyName", JStr "BUQUEBUS");
                     ("m_C047_GeographycalLocationName", JStr "South America");
                     ("m_C048_DivisionName", JStr "BQB")]);
             ("c_SCHN_SalesChannel", JDict [("m_C056_SalesChannel", JStr "WEB")])]);
         ("m_RDQ_RouteDateTimeRequest",
          JList
            [JDict
               [("index", JStr "0");
                ("m_LEGJ_LegOrSectorOfJourney",
                 JDict [("m_LEGJ_LegOrSectorOfJourney", JStr "1")]);
                ("m_ROUT_TravelRoute",
                 JDict [("m_U271_ServiceAgreementDeparturePort", JStr origen);
                        ("m_U272_ServiceAgreementDestinationPort", JStr destino)]);
                ("m_DPDT_DepartureDateTime",
                 JDict [("m_U247_StandardDepartureDate", JStr yymmdd);
                        ("m_U248_StandardDepartureTime", JStr "0000")]);
                ("c_DPDT_DepartureDateTimeTo",
                 JDict [("m_U247_StandardDepartureDate", JStr yymmdd);
                        ("m_U248_StandardDepartureTime", JStr "2359")])]]);
         ("c_PAQ_PassengerDetailRequest",
          JList
            [JDict
               [("index", JStr "0");
                ("m_LEGJ_LegOrSectorOfJourney",
                 JDict [("m_LEGJ_LegOrSectorOfJourney", JStr "1")]);
                ("m_PAXS_PassengerSet",
                 JList [JDict [("passengerIndex", JStr "0");
                               ("m_U257_PassengerTypeCode", JStr "ADL");
                               ("m_U258_NumberOfPassengers", JInt 1)]])]]);
         ("c_ACQ_AccomodationDetailsRequest",
          JList
            [JDict
               [("m_LEGJ_LegOrSectorOfJourney",
                 JDict [("m_LEGJ_LegOrSectorOfJourney", JStr "1")]);
                ("m_ACPL_AccomodationPlaces",
                 JDict [("m_U228_QuantityOfUnits", JInt 1)]);
                ("m_ACDT_AccomodationDetails",
                 JDict [("m_U220_ServiceAgreementDefinedAccomodationCode", JStr code);
                        ("i_U221_AccomodationType", JStr "CHAIR")]);
                ("c_IncludeDiscounts", JBool true)]]);
         ("c_VEQ_VehicleRequest", JList []);
         ("c_MTT_MultipleTariffTypeRequest",
          JList
            [JDict
               [("m_LEGJ_LegOrSectorOfJourney",
                 JDict [("m_LEGJ_LegOrSectorOfJourney", JStr "1")]);
                ("m_TARF_TariffCodeTypeDescription",
                 JList [JDict [("c_U282_TariffType", JStr "PROGRAMADA");
                               ("c_C113_PriceDetailRequested", JStr "true")]])]])])].

(** [BuquebusClientUYU._payload] *)
Definition _payload (E : env) (origen destino fecha code : string) : M json :=
  '(yy, mm, dd) <-- lift (_normalize_date_to_yymmdd fecha) ;;
  let yymmdd := yy ++ mm ++ dd in
  token <-- _get_valid_token E ;;
  ret (payload_uy token origen destino yymmdd code).

End SessionUYU.

(* ================================================================== *)
(** * Price details: [_sum_price_details], [fetch_day_full_preciso] *)
(* ================================================================== *)

Module Details.
Import Client.

(** The loop of [_sum_price_details]: an amount that does not convert, and
    a zero, add [0]. *)
Fixpoint sum_details (ps : list json) (total : float) : result float :=
  match ps with
  | [] => Ok total
  | p :: r =>
      amt <- get p "m_C088_UnitGrossAmount" JNull ;;
      let add :=
        match _to_money amt with
        | Some val => if float_truthy val then val else zero
        | None => zero
        end in
      sum_details r (total + add)%float
  end.

(** [_sum_price_details] *)
Definition _sum_price_details (price_details : json) : result float :=
  ps <- iter (py_or price_details (JList [])) ;;
  sum_details ps zero.

(** [if val: total += _to_money(val)]: adding [None] to a float raises
    [TypeError]. *)
Definition add_money (total : float) (val : json) : result float :=
  if truthy val then
    match _to_money val with
    | Some x => Ok (total + x)%float
    | None => Raise TypeError
    end
  else Ok total.

(** [for pd in x.get("c_PRIC_PriceDetails", [])]: the unit gross amounts. *)
Definition add_unit_gross (total : float) (pd : json) : result float :=
  val <- get pd "m_C088_UnitGrossAmount" JNull ;;
  add_money total val.

Definition add_price_details (total : float) (x : json) : result float :=
  l <- get x "c_PRIC_PriceDetails" (JList []) ;;
  pds <- iter l ;;
  foldM add_unit_gross pds total.

(** The body of [for par in t.get("c_PAR_PassengerDetailsResponse", [])]. *)
Definition add_passengers (total : float) (par : json) : result float :=
  l <- get par "m_PAXS_PassengerSet" (JList []) ;;
  pss <- iter l ;;
  foldM add_price_details pss total.

(** The body of [for acr in t.get("c_ACR_AccomodationDetailsResponse", [])]. *)
Definition add_accomodation (total : float) (acr : json) : result float :=
  acpl <- get acr "m_ACPL_AccomodationPlaces" (JDict []) ;;
  val <- get acpl "c_U231_ChargePerUnit" JNull ;;
  total' <- add_money total val ;;
  add_price_details total' acpl.

Record tarifa_row : Type := {
  tipoTarifa : json;
  turista : float;
  business : float;
  diff : option float
}.

(** The body of [for t in s.get("productPrice", [])]. *)
Definition tarifa_of (t : json) : result tarifa_row :=
  tipo_tarifa <- get t "c_U282_TariffType" JNull ;;
  pars <- (l <- get t "c_PAR_PassengerDetailsResponse" (JList []) ;; iter l) ;;
  turista_total <- foldM add_passengers pars zero ;;
  acrs <- (l <- get t "c_ACR_AccomodationDetailsResponse" (JList []) ;; iter l) ;;
  business_total <- foldM add_accomodation acrs zero ;;
  let diff :=
    if float_truthy turista_total && float_truthy business_total
    then Some (business_total - turista_total)%float else None in
  Ok {| tipoTarifa := tipo_tarifa;
        turista := round2 (turista_total / 100)%float;
        business := round2 (business_total / 100)%float;
        diff := match diff with
                | Some x => if float_truthy x then Some (round2 (x / 100)%float) else None
                | None => None
                end |}.

Record preciso_item : Type := {
  sailingCode : json;
  dep : json;
  arr : json;
  ship : json;
  available : bool;
  tarifas : list tarifa_row
}.

(** The body of the loop over [sailingprice]. *)
Definition preciso_item_of (s : json) : result preciso_item :=
  b <- read_blocks s ;;
  ts <- (l <- get s "productPrice" (JList []) ;; iter l) ;;
  rows <- mapM tarifa_of ts ;;
  code <- get (travel b) "c_C276_SailingCode" JNull ;;
  d <- get (depblk b) "m_U248_StandardDepartureTime" JNull ;;
  a <- get (arrblk b) "c_U239_NominalArrivalTime" JNull ;;
  nm <- get (shipblk b) "m_SHNM_ShipName" JNull ;;
  av <- get (travel b) "c_C081_IsAvailable" JNull ;;
  Ok {| sailingCode := code; dep := d; arr := a; ship := nm;
        available := truthy av; tarifas := rows |}.

(** [BuquebusClient.fetch_day_full_preciso]; [fetch_price] is the outcome
    of [self.fetch_price(origen, destino, fecha)]. *)
Definition fetch_day_full_preciso (fetch_price : result (Z * json))
  : result (Z * payload preciso_item) :=
  '(status, data) <- fetch_price ;;
  if negb (status =? 200) then Ok (status, Upstream data)
  else
    sp <- get data "sailingprice" (JList []) ;;
    ss <- iter sp ;;
    out <- mapM preciso_item_of ss ;;
    Ok (200, Rows out).

End Details.

(* ================================================================== *)
(** * [fetch_day_classes] *)
(* ================================================================== *)

(** [fetch_day_classes] subscripts what it reads ([par[0]], [paxset[0]]),
    and a subscript on a dict raises [KeyError], which is not among the
    exceptions of [Py]: the outcomes of this module have it next to
    them. *)

Module Classes.
Import Client.

Inductive raised : Type :=
| Exn (e : exn)
| KeyError.

Inductive outcome (A : Type) : Type :=
| Returns (a : A)
| Raises (r : raised).

Arguments Returns {A} a.
Arguments Raises {A} r.

Definition of_result {A : Type} (c : result A) : outcome A :=
  match c with
  | Ok a => Returns a
  | Raise e => Raises (Exn e)
  end.

Definition obind {A B : Type} (c : outcome A) (k : A -> outcome B) : outcome B :=
  match c with
  | Returns a => k a
  | Raises r => Raises r
  end.

Notation "x <~ c ;; k" := (obind c (fun x => k))
  (at level 61, c at next level, right associativity).

Fixpoint ofold {A S : Type} (f : S -> A -> outcome S) (l : list A) (s : S) : outcome S :=
  match l with
  | [] => Returns s
  | x :: r => s' <~ f s x ;; ofold f r s'
  end.

Fixpoint omap {A B : Type} (f : A -> outcome B) (l : list A) : outcome (list B) :=
  match l with
  | [] => Returns []
  | x :: r => y <~ f x ;; ys <~ omap f r ;; Returns (y :: ys)
  end.

(** [v[0]]: the keys of a dict that comes from JSON are strings. *)
Definition item0 (v : json) : outcome json :=
  match v with
  | JList (x :: _) => Returns x
  | JList [] => Raises (Exn IndexError)
  | JStr (String c _) => Returns (JStr (String c EmptyString))
  | JStr EmptyString => Raises (Exn IndexError)
  | JDict _ => Raises KeyError
  | _ => Raises (Exn TypeError)
  end.

(** [total += x] for a float [x]: the total is the int [0] it starts with
    or a float. *)
Definition add_float (total : json) (x : float) : json :=
  match total with
  | JFloat t => JFloat (t + x)
  | _ => JFloat (zero + x)
  end.

(** The price of the passenger: the price details of the first passenger
    set of the first response. *)
Definition base_of (pp : json) : outcome json :=
  par <~ of_result (get pp "c_PAR_PassengerDetailsResponse" (JList [])) ;;
  if truthy par then
    par0 <~ item0 par ;;
    paxset <~ of_result (get par0 "m_PAXS_PassengerSet" (JList [])) ;;
    if truthy paxset then
      pax0 <~ item0 paxset ;;
      pd <~ of_result (get pax0 "c_PRIC_PriceDetails" JNull) ;;
      s <~ of_result (Details._sum_price_details pd) ;;
      Returns (add_float (JInt 0) s)
    else Returns (JInt 0)
  else Returns (JInt 0).

(** The body of [for acc in acr]. *)
Definition add_accomodation (business_total : json) (acc : json) : outcome json :=
  details <~ of_result (get acc "m_ACPL_AccomodationPlaces" (JDict [])) ;;
  pd <~ of_result (get details "c_PRIC_PriceDetails" JNull) ;;
  s <~ of_result (Details._sum_price_details pd) ;;
  Returns (add_float business_total s).

(** [(business_total - base_total) if business_total and base_total else
    None]: a total that is true is a float. *)
Definition diff_of (business_total base_total : json) : option float :=
  if truthy business_total && truthy base_total then
    match business_total, base_total with
    | JFloat b, JFloat t => Some (b - t)%float
    | _, _ => None
    end
  else None.

Record tarifa_row : Type := {
  tipoTarifa : json;
  turista : json;
  business : json;
  diff : option float
}.

(** The body of [for pp in s.get("productPrice", [])]. *)
Definition tarifa_of (pp : json) : outcome tarifa_row :=
  tipo_tarifa <~ of_result (get pp "c_U282_TariffType" JNull) ;;
  base_total <~ base_of pp ;;
  acr <~ of_result (get pp "c_ACR_AccomodationDetailsResponse" (JList [])) ;;
  business_total <~
    (if truthy acr then
       accs <~ of_result (iter acr) ;;
       ofold add_accomodation accs base_total
     else Returns base_total) ;;
  Returns {| tipoTarifa := tipo_tarifa;
             turista := base_total;
             business := business_total;
             diff := diff_of business_total base_total |}.

Record class_item : Type := {
  sailingCode : json;
  dep : json;
  arr : json;
  ship : json;
  available : bool;
  tarifas : list tarifa_row
}.

(** The body of the loop over [sailingprice]. *)
Definition class_item_of (s : json) : outcome class_item :=
  b <~ of_result (read_blocks s) ;;
  pps <~ of_result (l <- get s "productPrice" (JList []) ;; iter l) ;;
  rows <~ omap tarifa_of pps ;;
  code <~ of_result (get (travel b) "c_C276_SailingCode" JNull) ;;
  d <~ of_result (get (depblk b) "m_U248_StandardDepartureTime" JNull) ;;
  a <~ of_result (get (arrblk b) "c_U239_NominalArrivalTime" JNull) ;;
  nm <~ of_result (get (shipblk b) "m_SHNM_ShipName" JNull) ;;
  av <~ of_result (get (travel b) "c_C081_IsAvailable" JNull) ;;
  Returns {| sailingCode := code; dep := d; arr := a; ship := nm;
             available := truthy av; tarifas := rows |}.

(** [BuquebusClient.fetch_day_classes]; [fetch_price] is the outcome of
    [self.fetch_price(origen, destino, fecha)]. *)
Definition fetch_day_classes (fetch_price : result (Z * json))
  : outcome (Z * payload class_item) :=
  sd <~ of_result fetch_price ;;
  let '(status, data) := sd in
  if negb (status =? 200) then Returns (status, Upstream data)
  else
    ss <~ of_result (sp <- get data "sailingprice" (JList []) ;; iter sp) ;;
    out <~ omap class_item_of ss ;;
    Returns (200, Rows out).

End Classes.

(* ================================================================== *)
(** * More notions, and surroundings for the examples *)
(* ================================================================== *)

Module Terms.
Import Client Notions Sample.

(** ** Dates *)

(** How many times [c] occurs in [s]. *)
Fixpoint occurrences (c : ascii) (s : string) : nat :=
  match s with
  | EmptyString => 0
  | String d s' => ((if Ascii.eqb d c then 1 else 0) + occurrences c s')%nat
  end.

(** The separators of the form the normalization takes [s] for: slashes
    when there is one, hyphens otherwise. *)
Definition separators (s : string) : nat :=
  if contains "/" s then occurrences "/" s else occurrences "-" s.

(** A day or a month below ten, written without its zero. *)
Definition one_digit (n : nat) : string := String (digit_char n) "".

(** [q] does the same on the three forms of the date [d/m/y]. *)
Definition same_on_every_form {A : Type} (q : string -> Session.M A) (y m d : nat)
    (st : Session.state) : Prop :=
  q (iso_form y m d) st = q (short_form y m d) st /\
  q (dmy_form y m d) st = q (short_form y m d) st.

(** ** Order *)

(** [a] may stand before [b] in a list sorted by [key]: [key b < key a] is
    false. *)
Definition in_order {A : Type} (key : A -> json) (a b : A) : Prop :=
  lt (key b) (key a) = Ok false.

(** The departure a row of the merged table is sorted by: its time, or
    99:99 without one. *)
Definition departure (row : ClientV2.web_row) : string :=
  match ClientV2.hora_salida row with
  | JStr s => if String.eqb s "" then "99:99" else s
  | _ => "99:99"
  end.

Definition before (a b : ClientV2.web_row) : Prop :=
  String.leb (departure a) (departure b) = true.

(** ** The dicts of the extractors *)

Definition str_or_null (v : json) : Prop := v = JNull \/ exists s, v = JStr s.

Definition times_are_strings (m : fare_map) : Prop :=
  forall k t, In (k, t) m -> str_or_null (salida_of t) /\ str_or_null (llegada_of t).

Definition priced_map (m : fare_map) : Prop :=
  forall k t, In (k, t) m -> (exists x, total_of t = Some x) /\ truthy k = true.

(** An entry with one total, a string for an amount, and times of four
    characters. *)
Definition plain_entry (s : json) : Prop :=
  exists code hs ha nm tipo amount,
    s = sailing code (JStr hs) (JStr ha) nm [tariff_total tipo (JStr amount)] /\
    len hs = 4%nat /\ len ha = 4%nat.

(** ** The browser *)


(** A request with a body. *)
Definition api_request (url body : string) : Capture.request :=
  {| Capture.url := url; Capture.post_data := Some body |}.

(** A decoder for the bodies of the examples. *)
Definition sample_loads (body : string) : result json :=
  if String.eqb body "first" then Ok (JDict [("token", JStr "eyJ.first")])
  else if String.eqb body "second" then Ok (JDict [("token", JStr "eyJ.second")])
  else if String.eqb body "none" then Ok (JDict [("productType", JStr "PASSENGER")])
  else Raise (JSONDecodeError "Expecting value").

(** ** Surroundings *)

(** No static token: the variable is unset or empty. *)
Definition no_static_token (E : Session.env) : Prop :=
  Session.static_token E = None \/ Session.static_token E = Some "".

(** The same surroundings at another time, and with another value of the
    variable. *)
Definition at_time (E : Session.env) (t : Z) : Session.env :=
  {| Session.static_token := Session.static_token E;
     Session.now := t;
     Session.browser := Session.browser E;
     Session.write_ok := Session.write_ok E;
     Session.upstream := Session.upstream E |}.

Definition with_static (E : Session.env) (static : option string) : Session.env :=
  {| Session.static_token := static;
     Session.now := Session.now E;
     Session.browser := Session.browser E;
     Session.write_ok := Session.write_ok E;
     Session.upstream := Session.upstream E |}.

(** Surroundings for the examples: a browser that captures [eyJ.first], a
    cache file that can be written, an upstream service that answers every
    post with [answer]. *)
Definition sample_env (static : option string) (answer : http_outcome) : Session.env :=
  {| Session.static_token := static;
     Session.now := 1700000000;
     Session.browser := fun _ => Some (JStr "eyJ.first");
     Session.write_ok := true;
     Session.upstream := fun _ _ => answer |}.

(** No cache file, no session launched, nothing posted. *)
Definition at_start : Session.state :=
  {| Session.token_file := NoFile; Session.sessions := 0; Session.posts := [] |}.

(** ** Payloads *)

(** [payload["request"][k] = v]: [None] when a subscript raises. *)
Definition set_request_field (k : string) (v : json) (payload : json) : option json :=
  match payload with
  | JDict top =>
      match assoc "request" top with
      | Some (JDict req) =>
          Some (JDict (SessionV2.dict_set "request"
                         (JDict (SessionV2.dict_set k v req)) top))
      | _ => None
      end
  | _ => None
  end.

(** A list of tariff types as the payloads ask for them. *)
Definition tariff_types (names : list string) : json :=
  JList (map (fun n => JDict [("c_U282_TariffType", JStr n);
                              ("c_C113_PriceDetailRequested", JStr "true")]) names).

(** The vehicle request of [_post_day_pricing_vehicle]. *)
Definition one_car : json :=
  JList
    [JDict
       [("index", JStr "0");
        ("m_LEGJ_LegOrSectorOfJourney",
         JDict [("m_LEGJ_LegOrSectorOfJourney", JStr "1")]);
        ("m_VEQS_VehicleSet",
         JList [JDict [("vehicleIndex", JStr "0");
                       ("m_U259_VehicleTypeCode", JStr "CAR");
                       ("m_U260_NumberOfVehicles", JInt 1)]])]].

(** ** The queries of V1 *)

(** What a query of V1 does when the date is well formed and the token is
    at hand without a browser: [p_t] is posted; a tourist answer that failed
    or cannot be read ends the query there; else [p_b] is posted, and the
    rows are merged when that answer is good. *)
Definition tourist_then_business (E : Session.env) (st : Session.state)
    (q : Session.M (Z * payload Session.web_row)) (wv : bool) (p_t p_b : json) : Prop :=
  let n := List.length (Session.posts st) in
  forall st_t raw_t,
    Client._call_price_availability (Session.upstream E n) p_t = Ok (st_t, raw_t) ->
    (st_t <> 200 -> q st = (Ok (st_t, Upstream raw_t), Session.posted st p_t)) /\
    (forall e, st_t = 200 -> _totales_programada_por_sailing raw_t = Raise e ->
       q st = (Raise e, Session.posted st p_t)) /\
    (forall mapa_t, st_t = 200 -> _totales_programada_por_sailing raw_t = Ok mapa_t ->
       snd (q st) = Session.posted (Session.posted st p_t) p_b /\
       forall st_b raw_b,
         Client._call_price_availability (Session.upstream E (S n)) p_b
         = Ok (st_b, raw_b) ->
         (st_b <> 200 -> fst (q st) = Ok (st_b, Upstream raw_b)) /\
         (forall mapa_b rows, st_b = 200 ->
            _totales_programada_por_sailing raw_b = Ok mapa_b ->
            Session.merge wv mapa_t mapa_b = Ok rows ->
            fst (q st) = Ok (200, Rows rows))).

(** ** [fetch_day_by_seat] *)

(** [p] is the payload of the query of the sailing of [row], for some
    token. *)
Definition single_query (origen destino yymmdd seat : string) (p : json)
    (row : Session.seat_item) : Prop :=
  exists tok,
    p = Session.payload_single_sailing_by_seat tok origen destino yymmdd
          (Session.sailingCode row) seat.

(** The answer to the query of one sailing. *)
Definition seat_answer (programada charge_per_person : json) : json :=
  JDict [("c_TCT_TariffChargesTotals", JList [tariff_total "PROGRAMADA" programada]);
         ("productPrice",
          JList [JDict [("c_PAR_PassengerDetailsResponse",
                         JList [JDict [("m_PAXS_PassengerSet",
                                        JList [JDict [("c_U260_ChargePerPerson",
                                                       charge_per_person)]])]])]])].

(** A static token and an upstream service that answers the first post
    with [day] and every other one with [single]. *)
Definition by_seat_env (day single : json) : Session.env :=
  {| Session.static_token := Some "eyJ.static";
     Session.now := 1700000000;
     Session.browser := fun _ => None;
     Session.write_ok := true;
     Session.upstream := fun n _ =>
       Responds 200 (JsonBody (match n with O => day | S _ => single end)) |}.

(** A day with two entries, the second without a sailing code, and the
    item of the first. *)
Definition two_entries : json :=
  response
    [sailing (JStr "BQ101") (JStr "0830") (JStr "0945") (JStr "Francisco") [];
     sailing JNull (JStr "1230") (JStr "1345") (JStr "Silvia Ana") []].

Definition item_101 : Session.seat_item :=
  {| Session.sailingCode := JStr "BQ101"; Session.dep := JStr "0830";
     Session.arr := JStr "0945"; Session.ship := JStr "Francisco";
     Session.available := true; Session.adlGross := Some 900%float;
     Session.totalProgramada := Some 1000%float; Session.totalFlexible := None |}.

(** ** Price details *)

(** One element of [c_PRIC_PriceDetails]. *)
Definition price_detail (amount : json) : json :=
  JDict [("m_C088_UnitGrossAmount", amount)].

(** One element of [productPrice] with one passenger set. *)
Definition product_price (tipo : string) (details : list json) : json :=
  JDict [("c_U282_TariffType", JStr tipo);
         ("c_PAR_PassengerDetailsResponse",
          JList [JDict [("m_PAXS_PassengerSet",
                         JList [JDict [("c_PRIC_PriceDetails", JList details)]])]])].

(** One element of [sailingprice] with its [productPrice]. *)
Definition sailing_with_products (code dep_time arr_time ship_name : json)
    (products : list json) : json :=
  JDict [("c_RDR_RouteDateTimeResponse",
          JDict [("m_ROUT_TravelRoute",
                  JDict [("c_C276_SailingCode", code);
                         ("c_C081_IsAvailable", JBool true)]);
                 ("m_DPDT_DepartureDateAndTime",
                  JDict [("m_U248_StandardDepartureTime", dep_time)]);
                 ("c_ARDT_ArrivalDateAndTime",
                  JDict [("c_U239_NominalArrivalTime", arr_time)]);
                 ("c_SHNM_ShipName",
                  JDict [("m_SHNM_ShipName", ship_name)])]);
         ("productPrice", JList products)].

(** An element of [productPrice] with more passenger sets and responses:
    [details] are the price details of the first set of the first
    response. *)
Definition product_price_of (tipo : string) (details : json) (sets responses : list json)
  : json :=
  JDict [("c_U282_TariffType", JStr tipo);
         ("c_PAR_PassengerDetailsResponse",
          JList (JDict [("m_PAXS_PassengerSet",
                         JList (JDict [("c_PRIC_PriceDetails", details)] :: sets))]
                 :: responses))].

(** The row of [fetch_day_classes] for a passenger price of [s] and no
    accommodation. *)
Definition class_row (tipo : string) (s : float) : Classes.tarifa_row :=
  {| Classes.tipoTarifa := JStr tipo;
     Classes.turista := JFloat (zero + s);
     Classes.business := JFloat (zero + s);
     Classes.diff := if float_truthy (zero + s)
                     then Some ((zero + s) - (zero + s))%float else None |}.

(** An amount that [_sum_price_details] counts as nothing. *)
Definition counts_as_nothing (amount : json) : Prop :=
  _to_money amount = None \/ _to_money amount = Some zero.

(** ** Concurrent callers *)

(** A caller of the Argentine method that has not launched its session. *)
Definition before_launch (p : Threads.pc) : bool :=
  match p with
  | Threads.Start | Threads.Launch => true
  | _ => false
  end.

Definition sessions_bounded (n : nat) (st : Threads.system) : Prop :=
  (Threads.launches (fst st) + Threads.count before_launch (snd st) <= n)%nat.

End Terms.

(* ================================================================== *)
(** * Properties *)
(* ================================================================== *)

Import Client Notions Sample.

(** ** Reading a computation that returned *)

Lemma bind_ok {A B : Type} (c : result A) (k : A -> result B) (b : B) :
  bind c k = Ok b -> exists a, c = Ok a /\ k a = Ok b.
Proof.
  destruct c as [a|e]; simpl; intros H; [eauto | discriminate].
Qed.

(** Splits a hypothesis [x <- c ;; k = Ok b]. *)
Ltac inv_bind H :=
  let a := fresh "a" in
  let E := fresh "E" in
  apply bind_ok in H; destruct H as (a & E & H).

(** ** Money conversion *)

Lemma has_lstrip_by (p q : ascii -> bool) (s : string) :
  (forall c, q c = true -> p c = false) ->
  has q s = true -> has q (lstrip_by p s) = true.
Proof.
  intros Hpq. induction s as [|c s IH]; simpl; intros H; [discriminate|].
  destruct (p c) eqn:Hp.
  - apply IH. destruct (q c) eqn:Hq; [|exact H].
    rewrite (Hpq c Hq) in Hp. discriminate.
  - simpl. exact H.
Qed.

Lemma has_rstrip_by (p q : ascii -> bool) (s : string) :
  (forall c, q c = true -> p c = false) ->
  has q s = true -> has q (rstrip_by p s) = true.
Proof.
  intros Hpq. induction s as [|c s IH]; simpl; intros H; [discriminate|].
  destruct (q c) eqn:Hq.
  - destruct (rstrip_by p s); simpl.
    + rewrite (Hpq c Hq). simpl. rewrite Hq. reflexivity.
    + rewrite Hq. reflexivity.
  - simpl in H. specialize (IH H).
    destruct (rstrip_by p s); simpl in *; [discriminate|].
    rewrite IH. apply orb_true_r.
Qed.

Lemma foreign_not_space (c : ascii) : foreign c = true -> isspace_num c = false.
Proof.
  unfold foreign. destruct (isspace_num c); [|reflexivity].
  rewrite orb_true_r. simpl. discriminate.
Qed.

Lemma int_digits_foreign (s : string) :
  has foreign s = true -> forall acc b, int_digits s acc b = None.
Proof.
  induction s as [|c s IH]; simpl; intros H acc b; [discriminate|].
  destruct (foreign c) eqn:Hf.
  - unfold foreign in Hf. apply negb_true_iff in Hf.
    repeat (apply orb_false_iff in Hf; destruct Hf as [Hf ?]).
    rewrite Hf. replace (Ascii.eqb c "_") with false by (symmetry; assumption).
    reflexivity.
  - simpl in H. destruct (isdigit c); [apply IH; exact H|].
    destruct (Ascii.eqb c "_" && b); [apply IH; exact H | reflexivity].
Qed.

Lemma foreign_non_numeric (s : string) : has foreign s = true -> non_numeric s.
Proof.
  intros H. unfold non_numeric, int_literal, strip_num.
  assert (Hs : has foreign (rstrip_by isspace_num (lstrip_by isspace_num s)) = true).
  { apply has_rstrip_by; [exact foreign_not_space|].
    apply has_lstrip_by; [exact foreign_not_space|exact H]. }
  destruct (rstrip_by isspace_num (lstrip_by isspace_num s)) as [|c r].
  - discriminate.
  - simpl in Hs. destruct (foreign c) eqn:Hf.
    + assert (Hc : c <> "+"%char /\ c <> "-"%char).
      { split; intros ->; discriminate. }
      destruct Hc as [Hp Hm].
      assert (E : int_digits (String c r) 0 false = None).
      { apply int_digits_foreign. simpl. rewrite Hf. reflexivity. }
      destruct c as [[] [] [] [] [] [] [] []]; try exact E; congruence.
    + simpl in Hs.
      assert (E : int_digits (String c r) 0 false = None).
      { apply int_digits_foreign. simpl. rewrite Hs. apply orb_true_r. }
      assert (E' : int_digits r 0 false = None) by (apply int_digits_foreign; exact Hs).
      destruct c as [[] [] [] [] [] [] [] []]; try exact E; rewrite E'; reflexivity.
Qed.

Lemma to_money_of_rejected (s : string) :
  non_numeric s -> _to_money (JStr s) = None.
Proof.
  intros H. unfold _to_money, to_money_try; simpl.
  destruct (String.eqb (upper (strip s)) "N/A"); [reflexivity|].
  unfold int_of_string. rewrite H. reflexivity.
Qed.

(** The conversion written out inside [_totales_programada_por_sailing]
    treats the sentinel and what [float] rejects alike: no total. *)
Lemma inline_total_of_rejected (s : string) :
  upper s = "N/A" \/ float_literal s = None ->
  total_programada (tariff_totals_of [("PROGRAMADA", JStr s)]) None = Ok None.
Proof.
  intros H. unfold tariff_totals_of.
  cbn -[truthy str_upper_is_NA float_of total_programada].
  cbn -[truthy str_upper_is_NA float_of].
  destruct (truthy (JStr s) && negb (str_upper_is_NA (JStr s))) eqn:E; [|reflexivity].
  apply andb_true_iff in E as [_ E]. apply negb_true_iff in E. simpl in E.
  destruct H as [H|H].
  - rewrite H in E. discriminate E.
  - simpl. unfold float_of_string. rewrite H. reflexivity.
Qed.

(** C8.  [_to_money] turns the integer-cents string 8623440 into the float
    86234.40, and returns [None] for the sentinel N/A (any case, white space
    around) and for every string that is not an integer numeral, among them
    every string with a character that no numeral has; an exception raised
    inside it never leaves it.  The conversion written out in
    [_totales_programada_por_sailing] agrees: 86234.40 for 8623440, no total
    for the sentinel and for what [float] rejects. *)
Theorem to_money_conversion :
  _to_money (JStr "8623440") = Some 86234.4%float /\
  (forall s, sentinel s = true -> _to_money (JStr s) = None) /\
  (forall s, non_numeric s -> _to_money (JStr s) = None) /\
  (forall s, has foreign s = true -> _to_money (JStr s) = None) /\
  (forall v e, to_money_try v = Raise e -> _to_money v = None) /\
  total_programada (tariff_totals_of [("PROGRAMADA", JStr "8623440")]) None
    = Ok (Some 86234.4%float) /\
  (forall s, upper s = "N/A" \/ float_literal s = None ->
     total_programada (tariff_totals_of [("PROGRAMADA", JStr s)]) None = Ok None).
Proof.
  split; [vm_compute; reflexivity|].
  split.
  { intros s H. unfold _to_money, to_money_try; simpl.
    unfold sentinel in H. rewrite H. reflexivity. }
  split; [exact to_money_of_rejected|].
  split.
  { intros s H. apply to_money_of_rejected, foreign_non_numeric, H. }
  split.
  { intros v e H. unfold _to_money. rewrite H. reflexivity. }
  split; [vm_compute; reflexivity | exact inline_total_of_rejected].
Qed.

Lemma to_money_conversion_witness :
  _to_money (JStr " n/a ") = None /\
  _to_money (JStr "12 50") = None /\
  _to_money (JStr "ARS 100") = None /\
  _to_money (JBool true) = None /\
  total_programada (tariff_totals_of [("PROGRAMADA", JStr "n/a")]) None = Ok None.
Proof.
  destruct to_money_conversion as (_ & Hna & Hrej & Hfor & Hexn & _ & Hin).
  split; [apply Hna; reflexivity|].
  split; [apply Hrej; reflexivity|].
  split; [apply Hfor; reflexivity|].
  split; [apply (Hexn _ ValueError); reflexivity|].
  apply Hin. left. reflexivity.
Defined.

(** ** Date normalization *)

Lemma digit_facts (c : ascii) :
  isdigit c = true ->
  isspace c = false /\
  Ascii.eqb c "/" = false /\ Ascii.eqb "/" c = false /\
  Ascii.eqb c "-" = false /\ Ascii.eqb "-" c = false /\
  Ascii.eqb c "+" = false.
Proof.
  destruct c as [[] [] [] [] [] [] [] []]; intro H; try discriminate H;
    repeat split; reflexivity.
Qed.

(** Brings the facts about every character known to be a digit. *)
Ltac digit_hyps :=
  repeat match goal with
  | H : isdigit ?c = true |- _ =>
      let F := fresh in
      pose proof (digit_facts c H) as F;
      destruct F as (? & ? & ? & ? & ? & ?);
      revert H
  end; intros.

(** Evaluates the comparisons of two character literals. *)
Ltac closed_eqb :=
  repeat match goal with
  | |- context [Ascii.eqb (Ascii ?a ?b ?c ?d ?e ?f ?g ?h)
                          (Ascii ?a' ?b' ?c' ?d' ?e' ?f' ?g' ?h')] =>
      let t := constr:(Ascii.eqb (Ascii a b c d e f g h)
                                 (Ascii a' b' c' d' e' f' g' h')) in
      let v := eval vm_compute in t in
      change t with v
  end.

(** Runs the string functions on a string whose characters are literals or
    digits. *)
Ltac run_on_digits :=
  digit_hyps;
  repeat (cbn -[Ascii.eqb isspace isdigit]; closed_eqb;
          repeat match goal with E : _ = _ :> bool |- _ => rewrite E end).

Section DigitStrings.
Variables y1 y2 y3 y4 m1 m2 d1 d2 : ascii.
Hypothesis Hy1 : isdigit y1 = true.
Hypothesis Hy2 : isdigit y2 = true.
Hypothesis Hy3 : isdigit y3 = true.
Hypothesis Hy4 : isdigit y4 = true.
Hypothesis Hm1 : isdigit m1 = true.
Hypothesis Hm2 : isdigit m2 = true.
Hypothesis Hd1 : isdigit d1 = true.
Hypothesis Hd2 : isdigit d2 = true.

Let yy := String y3 (String y4 "").
Let mm := String m1 (String m2 "").
Let dd := String d1 (String d2 "").

Lemma normalize_iso :
  _normalize_date_to_yymmdd
    (String y1 (String y2 (String y3 (String y4 (String "-"
      (String m1 (String m2 (String "-" (String d1 (String d2 ""))))))))))
  = Ok (yy, mm, dd).
Proof.
  unfold yy, mm, dd, _normalize_date_to_yymmdd, strip.
  clear yy mm dd. run_on_digits. reflexivity.
Qed.

Lemma normalize_dmy :
  _normalize_date_to_yymmdd
    (String d1 (String d2 (String "/" (String m1 (String m2 (String "/"
      (String y1 (String y2 (String y3 (String y4 ""))))))))))
  = Ok (yy, mm, dd).
Proof.
  unfold yy, mm, dd, _normalize_date_to_yymmdd, strip.
  clear yy mm dd. run_on_digits. reflexivity.
Qed.

Lemma normalize_short :
  _normalize_date_to_yymmdd
    (String y3 (String y4 (String m1 (String m2 (String d1 (String d2 ""))))))
  = Ok (yy, mm, dd).
Proof.
  unfold yy, mm, dd, _normalize_date_to_yymmdd, strip.
  clear yy mm dd Hy1 Hy2. run_on_digits. reflexivity.
Qed.

End DigitStrings.

Lemma digit_char_isdigit (n : nat) : (n < 10)%nat -> isdigit (digit_char n) = true.
Proof.
  intros H. do 10 (destruct n as [|n]; [reflexivity|]). lia.
Qed.

Lemma two_digits_digits (n : nat) :
  (n < 100)%nat ->
  isdigit (digit_char (n / 10)) = true /\ isdigit (digit_char (n mod 10)) = true.
Proof.
  intros H. split; apply digit_char_isdigit.
  - apply Nat.Div0.div_lt_upper_bound. lia.
  - apply Nat.mod_upper_bound. lia.
Qed.

(** A string of six digits comes back as its three pairs. *)
Lemma normalize_six_digits (s : string) :
  fullmatch_6_digits s = true ->
  exists yy mm dd,
    _normalize_date_to_yymmdd s = Ok (yy, mm, dd) /\ yy ++ mm ++ dd = s.
Proof.
  unfold fullmatch_6_digits. intros H. apply andb_true_iff in H as [Hl Hd].
  apply Nat.eqb_eq in Hl.
  do 6 (destruct s as [|? s]; [discriminate Hl|]).
  destruct s; [|discriminate Hl].
  simpl in Hd.
  repeat (apply andb_true_iff in Hd as [? Hd]).
  eexists _, _, _. split; [apply normalize_short; assumption|reflexivity].
Qed.

(** C6.  Date normalization returns, for every date with a year below 10000
    and two-digit month and day (every calendar date is one), the same
    triple (YY, MM, DD) whether the date is written YYYY-MM-DD, DD/MM/YYYY or
    YYMMDD; the triple is the last two digits of the year, the month and the
    day, and joined it is the YYMMDD form itself.  Every string of six
    digits comes back unchanged, cut into its three pairs. *)
Theorem normalize_date_same_triple (y m d : nat) :
  (y < 100 * 100)%nat -> (m < 100)%nat -> (d < 100)%nat ->
  let triple := (two_digits (y mod 100), two_digits m, two_digits d) in
  _normalize_date_to_yymmdd (iso_form y m d) = Ok triple /\
  _normalize_date_to_yymmdd (dmy_form y m d) = Ok triple /\
  _normalize_date_to_yymmdd (short_form y m d) = Ok triple /\
  two_digits (y mod 100) ++ two_digits m ++ two_digits d = short_form y m d /\
  (forall s, fullmatch_6_digits s = true ->
     exists yy mm dd,
       _normalize_date_to_yymmdd s = Ok (yy, mm, dd) /\ yy ++ mm ++ dd = s).
Proof.
  intros Hy Hm Hd triple. subst triple.
  assert (Hc : (y / 100 < 100)%nat) by (apply Nat.Div0.div_lt_upper_bound; lia).
  assert (Hr : (y mod 100 < 100)%nat) by (apply Nat.mod_upper_bound; lia).
  destruct (two_digits_digits _ Hc) as [Hy1 Hy2].
  destruct (two_digits_digits _ Hr) as [Hy3 Hy4].
  destruct (two_digits_digits _ Hm) as [Hm1 Hm2].
  destruct (two_digits_digits _ Hd) as [Hd1 Hd2].
  unfold iso_form, dmy_form, short_form, four_digits, two_digits.
  cbn [String.append].
  split; [apply normalize_iso; assumption|].
  split; [apply normalize_dmy; assumption|].
  split; [apply normalize_short; assumption|].
  split; [reflexivity|exact normalize_six_digits].
Qed.

Lemma normalize_date_same_triple_witness :
  _normalize_date_to_yymmdd "2025-03-14" = Ok ("25", "03", "14") /\
  _normalize_date_to_yymmdd "14/03/2025" = Ok ("25", "03", "14") /\
  _normalize_date_to_yymmdd "250314" = Ok ("25", "03", "14") /\
  "25" ++ "03" ++ "14" = "250314".
Proof.
  destruct (normalize_date_same_triple 2025 3 14) as (H1 & H2 & H3 & H4 & _);
    [lia | lia | lia |].
  exact (conj H1 (conj H2 (conj H3 H4))).
Defined.

(** ** Credential validity *)

Lemma gt_ints (n now : Z) : gt (JInt n) (JInt now) = Ok (now <? n).
Proof.
  unfold gt, lt; simpl.
  rewrite !Z.mul_1_r. unfold Z.ltb. destruct (now ?= n); reflexivity.
Qed.

Lemma cached_token_returned (data : json) (now : Z) (tok : json) :
  Client._get_cached_token (Content data) now = Some tok ->
  exists exp n,
    get data "token" JNull = Ok tok /\ truthy tok = true /\
    get data "exp" JNull = Ok exp /\ truthy exp = true /\
    int_of exp = Ok n /\ now < n.
Proof.
  unfold Client._get_cached_token; simpl.
  destruct (get data "token" JNull) as [t|] eqn:Ht; simpl; [|discriminate].
  destruct (get data "exp" JNull) as [x|] eqn:Hx; simpl; [|discriminate].
  destruct (truthy t) eqn:Tt; simpl; [|discriminate].
  destruct (truthy x) eqn:Tx; simpl; [|discriminate].
  destruct (int_of x) as [n|] eqn:Hn; simpl; [|discriminate].
  destruct (n >? now) eqn:Hgt; simpl; [|discriminate].
  intros [= <-]. exists x, n. repeat split; try assumption; try reflexivity.
  apply Z.gtb_lt in Hgt. exact Hgt.
Qed.

Lemma uyu_cached_token_returned (data : json) (now : Z) (tok : json) :
  ClientUYU._get_cached_token (Content data) now = Some tok ->
  exists exp,
    get data "token" JNull = Ok tok /\ truthy tok = true /\
    get data "exp" (JInt 0) = Ok exp /\ gt exp (JInt now) = Ok true.
Proof.
  unfold ClientUYU._get_cached_token; cbn -[gt get truthy].
  destruct (get data "token" JNull) as [t|] eqn:Ht; cbn -[gt get truthy];
    [|discriminate].
  destruct (truthy t) eqn:Tt; cbn -[gt get truthy]; [|discriminate].
  destruct (get data "exp" (JInt 0)) as [x|] eqn:Hx; cbn -[gt get truthy];
    [|discriminate].
  destruct (gt x (JInt now)) as [b|] eqn:Hgt; cbn -[gt get truthy]; [|discriminate].
  destruct b; cbn -[gt get truthy]; [|discriminate].
  intros [= <-]. exists x. repeat split; assumption || reflexivity.
Qed.

(** The validity that [/debug/token] reports is [valid_exp] of the expiry
    claim it found in the token. *)
Lemma debug_token_reports (env : option string) (c : cache_file)
    (b64json : string -> result json) (now : Z)
    (masked : string) (valid : bool) (exp : json) :
  Api.debug_token env c b64json now = Ok (Api.HasToken masked valid exp) ->
  Api.valid_exp exp now = Ok valid.
Proof.
  unfold Api.debug_token.
  destruct (negb (truthy _)); [discriminate|].
  destruct (match env with
            | Some e => if negb (String.eqb e "") then JStr e else Api.token_field c
            | None => Api.token_field c
            end) as [| | | |t| |]; try discriminate.
  intros H. do 2 inv_bind H. injection H as _ <- <-. exact E0.
Qed.

(** The comparison of the Uruguayan reader is true exactly for a number
    later than the clock. *)
Lemma gt_later_than (exp : json) (now : Z) :
  gt exp (JInt now) = Ok true <-> later_than exp now.
Proof.
  assert (I : forall b : bool, @Ok bool b = Ok true <-> b = true).
  { intros b. split; [intros [= ->] | intros ->]; reflexivity. }
  assert (C : forall a b : Z,
             match a ?= b with Lt => true | _ => false end = true <-> a < b).
  { intros a b. rewrite <- Z.compare_lt_iff. destruct (a ?= b); split; congruence. }
  unfold gt, lt. destruct exp as [|b|n|f|s| |]; cbn -[Z.mul Z.pow Z.min];
    try (split; [discriminate | intros []]).
  - change (2 ^ (- Z.min 0 0)) with 1. rewrite I, C, !Z.mul_1_r. reflexivity.
  - change (2 ^ (- Z.min 0 0)) with 1. rewrite I, C, !Z.mul_1_r. reflexivity.
  - destruct (Prim2SF f) as [sg|sg| |sg m e]; cbn -[Z.mul Z.pow Z.min].
    + change (2 ^ (- Z.min 0 0)) with 1. rewrite I, C, !Z.mul_1_r. reflexivity.
    + rewrite I. destruct sg; split; congruence.
    + rewrite I. split; [discriminate | intros []].
    + rewrite I, C. destruct (0 <=? e) eqn:Ee.
      * apply Z.leb_le in Ee. rewrite Z.min_l by exact Ee.
        change (2 ^ (- 0)) with 1. rewrite Z.sub_0_r, Z.mul_1_r. reflexivity.
      * apply Z.leb_gt in Ee. rewrite Z.min_r by lia.
        rewrite Z.sub_diag. change (2 ^ 0) with 1. rewrite Z.mul_1_r. reflexivity.
Qed.

(** What [/debug/token] answers for the token it looks at, by what it finds
    of an expiry claim. *)
Lemma debug_token_presented (env : option string) (c : cache_file)
    (b64json : string -> result json) (now : Z) (e : string) :
  presented env c e ->
  Api.debug_token env c b64json now
  = (let payload :=
       match
         match nth_error (split "." e) 1 with
         | Some p1 => b64json (p1 ++ "===")
         | None => Raise IndexError
         end
       with
       | Ok j => j
       | Raise _ => JDict []
       end in
     exp <- get payload "exp" JNull ;;
     valid <- Api.valid_exp exp now ;;
     Ok (Api.HasToken (Api.mask e) valid exp)).
Proof.
  intros [Hne He]. unfold Api.debug_token.
  assert (Ht : match env with
               | Some s => if negb (String.eqb s "") then JStr s else Api.token_field c
               | None => Api.token_field c
               end = JStr e).
  { destruct env as [s|]; [|exact He].
    destruct (String.eqb s ""); [exact He | subst s; reflexivity]. }
  rewrite Ht. cbn [truthy].
  replace (String.eqb e "") with false by (symmetry; apply String.eqb_neq, Hne).
  reflexivity.
Qed.

(** C3, as the code has it.  [_get_cached_token] returns a cached
    credential only with an expiry strictly later than the clock: the
    Argentine reader takes [int(exp)], the Uruguayan one compares the value
    itself.  So a credential that has expired, be it by one second, is never
    returned, whatever the file holds; one whose expiry is unset is not
    returned either: null and absent for the Argentine reader, null for the
    Uruguayan one, which takes an absent expiry for the time 0 and so misses
    from the epoch on.  A file that is absent or cannot be read gives
    nothing.  Only [/debug/token], which reads the expiry claim inside the
    token it looks at, answers that a token without such a claim (or one that
    cannot be decoded) is valid, and that one whose claim is not later than
    the clock is not. *)
Theorem credential_validity (data : json) (now : Z) :
  (forall tok, Client._get_cached_token (Content data) now = Some tok ->
     exists exp n, get data "exp" JNull = Ok exp /\ exp <> JNull /\
                   int_of exp = Ok n /\ now < n) /\
  (forall tok, ClientUYU._get_cached_token (Content data) now = Some tok ->
     exists exp, get data "exp" (JInt 0) = Ok exp /\ later_than exp now) /\
  (forall exp n, get data "exp" JNull = Ok exp -> int_of exp = Ok n -> n <= now ->
     Client._get_cached_token (Content data) now = None) /\
  (forall exp, get data "exp" (JInt 0) = Ok exp -> ~ later_than exp now ->
     ClientUYU._get_cached_token (Content data) now = None) /\
  (forall n, get data "exp" (JInt 0) = Ok (JInt n) -> n <= now ->
     ClientUYU._get_cached_token (Content data) now = None) /\
  (get data "exp" JNull = Ok JNull ->
     Client._get_cached_token (Content data) now = None) /\
  (get data "exp" (JInt 0) = Ok JNull ->
     ClientUYU._get_cached_token (Content data) now = None) /\
  (forall kv, data = JDict kv -> assoc "exp" kv = None -> 0 <= now ->
     ClientUYU._get_cached_token (Content data) now = None) /\
  (forall c, (forall d, c <> Content d) ->
     Client._get_cached_token c now = None /\
     ClientUYU._get_cached_token c now = None) /\
  (forall env c b64json masked valid exp,
     Api.debug_token env c b64json now = Ok (Api.HasToken masked valid exp) ->
     (exp = JNull -> valid = true) /\
     (forall n, exp <> JNull -> int_of exp = Ok n -> (valid = true <-> now < n))) /\
  (forall env c b64json e, presented env c e ->
     (nth_error (split "." e) 1 = None ->
      Api.debug_token env c b64json now = Ok (Api.HasToken (Api.mask e) true JNull)) /\
     (forall p1 err, nth_error (split "." e) 1 = Some p1 ->
        b64json (p1 ++ "===") = Raise err ->
        Api.debug_token env c b64json now = Ok (Api.HasToken (Api.mask e) true JNull)) /\
     (forall p1 payload, nth_error (split "." e) 1 = Some p1 ->
        b64json (p1 ++ "===") = Ok payload ->
        (get payload "exp" JNull = Ok JNull ->
         Api.debug_token env c b64json now
         = Ok (Api.HasToken (Api.mask e) true JNull)) /\
        (forall exp n, get payload "exp" JNull = Ok exp -> exp <> JNull ->
           int_of exp = Ok n ->
           (n <= now ->
            Api.debug_token env c b64json now
            = Ok (Api.HasToken (Api.mask e) false exp)) /\
           (now < n ->
            Api.debug_token env c b64json now
            = Ok (Api.HasToken (Api.mask e) true exp))))).
Proof.
  assert (Huy : forall exp, get data "exp" (JInt 0) = Ok exp -> ~ later_than exp now ->
                  ClientUYU._get_cached_token (Content data) now = None).
  { intros exp Hx Hn.
    destruct (ClientUYU._get_cached_token (Content data) now) as [tok|] eqn:E;
      [|reflexivity].
    apply uyu_cached_token_returned in E as (x & _ & _ & Hx' & Hgt).
    rewrite Hx in Hx'. injection Hx' as <-.
    apply gt_later_than in Hgt. contradiction. }
  split.
  { intros tok E.
    apply cached_token_returned in E as (x & k & _ & _ & Hx & Tx & Hk & Hlt).
    exists x, k. repeat split; try assumption. intros ->. discriminate Tx. }
  split.
  { intros tok E.
    apply uyu_cached_token_returned in E as (x & _ & _ & Hx & Hgt).
    exists x. split; [exact Hx | apply gt_later_than, Hgt]. }
  split.
  { intros exp n Hx Hn Hle.
    destruct (Client._get_cached_token (Content data) now) as [tok|] eqn:E;
      [|reflexivity].
    apply cached_token_returned in E as (x & k & _ & _ & Hx' & _ & Hk & Hlt).
    rewrite Hx in Hx'. injection Hx' as <-. rewrite Hn in Hk. injection Hk as <-. lia. }
  split; [exact Huy|].
  split.
  { intros n Hx Hle. apply (Huy _ Hx). simpl. lia. }
  split.
  { intros Hx.
    destruct (Client._get_cached_token (Content data) now) as [tok|] eqn:E;
      [|reflexivity].
    apply cached_token_returned in E as (x & k & _ & _ & Hx' & Tx & _).
    rewrite Hx in Hx'. injection Hx' as <-. discriminate Tx. }
  split.
  { intros Hx. apply (Huy _ Hx). simpl. auto. }
  split.
  { intros kv -> Hk Hnow. apply (Huy (JInt 0)); [|simpl; lia].
    simpl. rewrite Hk. reflexivity. }
  split.
  { intros c Hc. destruct c as [|e|d]; [split; reflexivity | split; reflexivity|].
    destruct (Hc d eq_refl). }
  split.
  { intros env c b64json masked valid exp H.
    apply debug_token_reports in H. unfold Api.valid_exp in H. split.
    - intros ->. simpl in H. injection H as <-. reflexivity.
    - intros n Hne Hn. destruct exp; try (destruct (Hne eq_refl));
        cbn [is_none] in H; rewrite Hn in H; cbn [bind] in H;
        injection H as <-; rewrite Z.gtb_ltb; apply Z.ltb_lt. }
  intros env c b64json e He.
  rewrite (debug_token_presented env c b64json now e He).
  split; [intros ->; reflexivity|].
  split; [intros p1 err -> ->; reflexivity|].
  intros p1 payload -> ->. cbv zeta. split.
  { intros ->. reflexivity. }
  intros exp n Hx Hne Hn. rewrite Hx. cbn [bind]. unfold Api.valid_exp.
  replace (is_none exp) with false by (destruct exp; try reflexivity; destruct (Hne eq_refl)).
  rewrite Hn. cbn [bind]. rewrite Z.gtb_ltb. split; intros H.
  - replace (now <? n) with false by (symmetry; apply Z.ltb_ge; exact H). reflexivity.
  - replace (now <? n) with true by (symmetry; apply Z.ltb_lt; exact H). reflexivity.
Qed.

Lemma credential_validity_witness :
  Client._get_cached_token
    (Content (JDict [("token", JStr "eyJ.abc"); ("exp", JInt 1699999999)]))
    1700000000 = None /\
  ClientUYU._get_cached_token
    (Content (JDict [("token", JStr "eyJ.abc"); ("exp", JInt 1699999999)]))
    1700000000 = None /\
  Api.debug_token (Some "eyJ.e30.sig") NoFile (fun _ => Ok (JDict [])) 1700000000
  = Ok (Api.HasToken "masked" true JNull) /\
  Api.debug_token (Some "eyJ.eyJleHAiOjE2OTk5OTk5OTl9.sig") NoFile
    (fun _ => Ok (JDict [("exp", JInt 1699999999)])) 1700000000
  = Ok (Api.HasToken (Api.mask "eyJ.eyJleHAiOjE2OTk5OTk5OTl9.sig") false
          (JInt 1699999999)).
Proof.
  destruct (credential_validity
              (JDict [("token", JStr "eyJ.abc"); ("exp", JInt 1699999999)])
              1700000000) as (_ & _ & H3 & _ & H5 & _ & _ & _ & _ & _ & H11).
  split; [|split; [|split]].
  - apply (H3 (JInt 1699999999) 1699999999); [reflexivity | reflexivity | lia].
  - apply (H5 1699999999); [reflexivity | lia].
  - destruct (H11 (Some "eyJ.e30.sig") NoFile (fun _ => Ok (JDict [])) "eyJ.e30.sig")
      as (_ & _ & H); [split; [discriminate | reflexivity]|].
    destruct (H "e30" (JDict []) eq_refl eq_refl) as [H' _]. apply H'. reflexivity.
  - destruct (H11 (Some "eyJ.eyJleHAiOjE2OTk5OTk5OTl9.sig") NoFile
                (fun _ => Ok (JDict [("exp", JInt 1699999999)]))
                "eyJ.eyJleHAiOjE2OTk5OTk5OTl9.sig") as (_ & _ & H);
      [split; [discriminate | reflexivity]|].
    destruct (H "eyJleHAiOjE2OTk5OTk5OTl9" (JDict [("exp", JInt 1699999999)])
                eq_refl eq_refl) as [_ H'].
    destruct (H' (JInt 1699999999) 1699999999) as [H'' _];
      [reflexivity | discriminate | reflexivity|].
    apply H''. lia.
Defined.

(** C3 as the specification words it fails on the cache: a stored
    credential with a null or a missing expiry is a cache miss for both
    clients, at any time. *)
Lemma unset_expiry_is_a_cache_miss :
  Client._get_cached_token
    (Content (JDict [("token", JStr "eyJ.abc"); ("exp", JNull)])) 1700000000 = None /\
  Client._get_cached_token
    (Content (JDict [("token", JStr "eyJ.abc")])) 1700000000 = None /\
  ClientUYU._get_cached_token
    (Content (JDict [("token", JStr "eyJ.abc"); ("exp", JNull)])) 1700000000 = None /\
  ClientUYU._get_cached_token
    (Content (JDict [("token", JStr "eyJ.abc")])) 1700000000 = None.
Proof.
  repeat split; reflexivity.
Qed.

(** ** The upstream call *)

(** The Argentine clients (V1 and V2) always return a pair: what the
    transport or the JSON decoder raises becomes status 500. *)
Lemma call_price_availability_returns {P : Type} (send : P -> http_outcome)
    (payload : P) :
  (exists st j, Client._call_price_availability send payload = Ok (st, j)) /\
  (exists st j, ClientV2._call_price_availability send payload = Ok (st, j)) /\
  (forall e, send payload = Fails e ->
     Client._call_price_availability send payload = Ok (500, JStr (str_of_exn e)) /\
     ClientV2._call_price_availability send payload = Ok (500, JStr (str_of_exn e))) /\
  (forall st msg, send payload = Responds st (OtherBody msg) ->
     Client._call_price_availability send payload = Ok (500, JStr msg) /\
     ClientV2._call_price_availability send payload = Ok (500, JStr msg)).
Proof.
  unfold Client._call_price_availability, ClientV2._call_price_availability.
  destruct (send payload) as [e|st [|j|msg]]; simpl;
    repeat split; eauto; intros; try discriminate.
  - injection H as <-. reflexivity.
  - injection H as <-. reflexivity.
  - injection H as <- <-. reflexivity.
  - injection H as <- <-. reflexivity.
Qed.

(** The Uruguayan override lets both failures through. *)
Lemma uyu_call_price_availability_raises {P : Type} (send : P -> http_outcome)
    (payload : P) :
  (forall e, send payload = Fails e ->
     ClientUYU._call_price_availability send payload = Raise e) /\
  (forall st msg, send payload = Responds st (OtherBody msg) ->
     ClientUYU._call_price_availability send payload = Raise (JSONDecodeError msg)).
Proof.
  unfold ClientUYU._call_price_availability.
  split; intros; rewrite H; reflexivity.
Qed.

(** C5 at the failing input: a connection error and a body that is not
    JSON.  The Uruguayan call raises where the two Argentine ones return
    status 500. *)
Theorem uyu_call_raises_past_its_boundary :
  let refused := fun _ : json => Fails (RequestException "Connection refused") in
  let gateway := fun _ : json => Responds 502 (OtherBody "Expecting value") in
  ClientUYU._call_price_availability refused (JDict [])
    = Raise (RequestException "Connection refused") /\
  ClientUYU._call_price_availability gateway (JDict [])
    = Raise (JSONDecodeError "Expecting value") /\
  Client._call_price_availability refused (JDict [])
    = Ok (500, JStr "Connection refused") /\
  ClientV2._call_price_availability refused (JDict [])
    = Ok (500, JStr "Connection refused") /\
  Client._call_price_availability gateway (JDict [])
    = Ok (500, JStr "Expecting value") /\
  ClientV2._call_price_availability gateway (JDict [])
    = Ok (500, JStr "Expecting value").
Proof.
  repeat split; reflexivity.
Qed.

(** ** Time fields *)

Lemma hhmm_or_reformatted (empty : json) (s : string) :
  exists t, hhmm_or empty (JStr s) = Ok t /\ Reformatted empty s t.
Proof.
  unfold hhmm_or. destruct (len s =? 4)%nat eqn:E.
  - apply Nat.eqb_eq in E.
    do 4 (destruct s as [|? s]; [discriminate E|]).
    destruct s; [|discriminate E].
    eexists. split; [reflexivity|]. simpl. constructor.
  - apply Nat.eqb_neq in E. eexists. split; [reflexivity|].
    constructor. exact E.
Qed.


Lemma truthy_code (code : string) : code <> "" -> truthy (JStr code) = true.
Proof.
  intros H. simpl. apply negb_true_iff, String.eqb_neq, H.
Qed.

(** Runs an extractor on a response built with [Sample]. *)
Ltac run_extractor :=
  cbn -[hhmm_or float_of truthy str_upper_is_NA PrimFloat.div].

Lemma programada_single (code hs ha : string) (nm amount : json) (x : float) :
  code <> "" -> truthy amount = true -> str_upper_is_NA amount = false ->
  float_of amount = Ok x ->
  exists t1 t2,
    _totales_programada_por_sailing
      (response [sailing (JStr code) (JStr hs) (JStr ha) nm
                   [tariff_total "PROGRAMADA" amount]])
    = Ok [(JStr code, (Some (x / 100)%float, t1, t2, nm))] /\
    Reformatted (JStr "") hs t1 /\ Reformatted (JStr "") ha t2.
Proof.
  intros Hc Ht Hna Hf.
  destruct (hhmm_or_reformatted (JStr "") hs) as (t1 & E1 & R1).
  destruct (hhmm_or_reformatted (JStr "") ha) as (t2 & E2 & R2).
  exists t1, t2. split; [|split; assumption].
  unfold _totales_programada_por_sailing, response, sailing, tariff_total.
  run_extractor. rewrite Ht, Hna, Hf.
  run_extractor. rewrite (truthy_code code Hc).
  run_extractor. rewrite E1, E2. reflexivity.
Qed.





(** ** The omission rule of the extractors *)

Lemma foldM_invariant {A S : Type} (f : S -> A -> result S) (I : S -> Prop)
    (l : list A) :
  (forall s x s', In x l -> I s -> f s x = Ok s' -> I s') ->
  forall s s', I s -> foldM f l s = Ok s' -> I s'.
Proof.
  induction l as [|x l IH]; simpl; intros Hstep s s' Hs H.
  - injection H as <-. exact Hs.
  - inv_bind H. apply (IH (fun s x s' Hx => Hstep s x s' (or_intror Hx)) a s');
      [|exact H].
    apply (Hstep s x a); auto.
Qed.

Lemma In_set_item (m : fare_map) (c : json) (v : tuple4) (k : json) (t : tuple4) :
  In (k, t) (set_item m c v) ->
  In (k, t) m \/ (t = v /\ (k = c \/ exists t0, In (k, t0) m)).
Proof.
  induction m as [|[k' v'] m IH]; simpl.
  - intros [[= <- <-]|[]]. right. auto.
  - destruct (key_eqb k' c).
    + intros [[= <- <-]|H]; [|auto]. right. split; [reflexivity|]. right. eauto.
    + intros [H|H]; [auto|]. destruct (IH H) as [H'|(-> & [->|(t0 & H')])]; eauto 7.
Qed.

Lemma store_entry_inv (empty : json) (out : fare_map) (b : blocks) (code : json)
    (total : option float) (out' : fare_map) :
  store_entry empty out b code total = Ok out' ->
  exists t1 t2 nm, out' = set_item out code (total, t1, t2, nm).
Proof.
  unfold store_entry. intros H. do 5 inv_bind H.
  unfold store in H. destruct (hashable code); [|discriminate].
  injection H as <-. eauto.
Qed.

Lemma programada_step_effect (out : fare_map) (s : json) (out' : fare_map) :
  programada_step out s = Ok out' -> step_effect entry_programada out s out'.
Proof.
  unfold programada_step, step_effect, entry_code, entry_programada.
  intros H. do 4 inv_bind H.
  rewrite E, E1. simpl. rewrite E0, E2. exists a0, a2. do 2 (split; [reflexivity|]).
  destruct a2 as [x|].
  - destruct (truthy a0); simpl in H.
    + right. split; [reflexivity|]. apply store_entry_inv in H. exact H.
    + left. injection H as <-. auto.
  - rewrite andb_false_r in H. injection H as <-. reflexivity.
Qed.

Lemma tarifa_step_effect (tarifa : string) (out : fare_map) (s : json)
    (out' : fare_map) :
  ClientV2.tarifa_step tarifa out s = Ok out' ->
  step_effect (entry_tarifa tarifa) out s out'.
Proof.
  unfold ClientV2.tarifa_step, step_effect, entry_code, entry_tarifa.
  intros H. do 4 inv_bind H.
  rewrite E, E1. simpl. rewrite E0, E2. exists a0, a2. do 2 (split; [reflexivity|]).
  destruct a2 as [x|].
  - destruct (truthy a0); simpl in H.
    + right. split; [reflexivity|]. apply store_entry_inv in H. exact H.
    + left. injection H as <-. auto.
  - rewrite andb_false_r in H. injection H as <-. reflexivity.
Qed.

Lemma step_effect_all_priced (ss : list json) (total : json -> result (option float))
    (out : fare_map) (s : json) (out' : fare_map) :
  In s ss -> all_priced ss total out -> step_effect total out s out' ->
  all_priced ss total out'.
Proof.
  intros Hs Hout (code & tot & Hc & Ht & H).
  destruct tot as [x|]; [|subst; exact Hout].
  destruct H as [[_ ->]|(Htr & t1 & t2 & nm & ->)]; [exact Hout|].
  intros k t Hin. apply In_set_item in Hin.
  destruct Hin as [Hin|(-> & [->|(t0 & Hin)])].
  - exact (Hout k t Hin).
  - split; [simpl; eauto|]. split; [exact Htr|]. exists s, x. auto.
  - destruct (Hout k t0 Hin) as (_ & Hk & Hp). split; [simpl; eauto|]. auto.
Qed.

Lemma programada_all_priced (raw : json) (out : fare_map) :
  _totales_programada_por_sailing raw = Ok out ->
  exists ss, programada_entries raw = Ok ss /\ all_priced ss entry_programada out.
Proof.
  unfold _totales_programada_por_sailing, programada_entries. intros H.
  do 3 inv_bind H. rewrite E. simpl. rewrite E0. simpl. rewrite E1.
  exists a1. split; [reflexivity|].
  apply (foldM_invariant programada_step (all_priced a1 entry_programada) a1)
    with (s := []) (s' := out); [| intros k t [] | exact H].
  intros s x s' Hx Hs Hstep.
  apply (step_effect_all_priced a1 entry_programada s x s' Hx Hs).
  apply programada_step_effect, Hstep.
Qed.

Lemma tarifa_all_priced (raw : json) (tarifa : string) (out : fare_map) :
  ClientV2._totales_por_tarifa raw tarifa = Ok out ->
  exists ss, tarifa_entries raw = Ok ss /\ all_priced ss (entry_tarifa tarifa) out.
Proof.
  unfold ClientV2._totales_por_tarifa, tarifa_entries. intros H.
  destruct (negb (is_dict raw)).
  { injection H as <-. exists []. split; [reflexivity | intros k t []]. }
  do 3 inv_bind H. rewrite E. simpl. rewrite E0. simpl. rewrite E1.
  exists a1. split; [reflexivity|].
  apply (foldM_invariant (ClientV2.tarifa_step tarifa)
           (all_priced a1 (entry_tarifa tarifa)) a1)
    with (s := []) (s' := out); [| intros k t [] | exact H].
  intros s x s' Hx Hs Hstep.
  apply (step_effect_all_priced a1 (entry_tarifa tarifa) s x s' Hx Hs).
  apply tarifa_step_effect, Hstep.
Qed.

Lemma step_effect_unpriced (total : json -> result (option float)) (out : fare_map)
    (s : json) (out' : fare_map) :
  step_effect total out s out' -> total s = Ok None -> out' = out.
Proof.
  intros (code & tot & _ & Ht & H) Hnone. rewrite Hnone in Ht.
  injection Ht as <-. exact H.
Qed.

Lemma total_programada_unreadable (l : list (string * json)) :
  Forall (fun ta => fst ta <> "PROGRAMADA" \/ unreadable (snd ta)) l ->
  total_programada (tariff_totals_of l) None = Ok None.
Proof.
  induction 1 as [|[tipo amt] l Hx _ IH]; [reflexivity|].
  unfold tariff_totals_of. cbn -[truthy str_upper_is_NA float_of].
  fold (tariff_totals_of l). simpl in Hx.
  destruct (String.eqb tipo "PROGRAMADA") eqn:Et; [|exact IH].
  apply String.eqb_eq in Et. destruct Hx as [Hx|Hx]; [contradiction|].
  destruct (truthy amt && negb (str_upper_is_NA amt)) eqn:Ec; [|exact IH].
  apply andb_true_iff in Ec as [Ht Hna]. apply negb_true_iff in Hna.
  destruct Hx as [Hx|[Hx|Hx]]; try congruence.
  rewrite Hx. exact IH.
Qed.

Lemma total_tarifa_unreadable (tarifa : string) (l : list (string * json)) :
  Forall (fun ta => fst ta <> tarifa \/ unreadable_at_all (snd ta)) l ->
  ClientV2.total_tarifa tarifa (tariff_totals_of l) None = Ok None.
Proof.
  induction 1 as [|[tipo amt] l Hx _ IH]; [reflexivity|].
  unfold tariff_totals_of. cbn -[truthy str_upper_is_NA float_of].
  fold (tariff_totals_of l). simpl in Hx.
  destruct (String.eqb tipo tarifa) eqn:Et; [|exact IH].
  apply String.eqb_eq in Et. destruct Hx as [Hx|Hx]; [contradiction|].
  destruct (truthy amt && negb (str_upper_is_NA amt)) eqn:Ec; [|reflexivity].
  apply andb_true_iff in Ec as [Ht Hna]. apply negb_true_iff in Hna.
  destruct Hx as [Hx|[Hx|[e Hx]]]; try congruence.
  rewrite Hx. reflexivity.
Qed.

(** A total that an inner loop ends with comes from a total of the
    requested tariff that the entry lists and that [float] reads. *)
Lemma total_programada_listed (ts : list json) (init : option float) (y : float) :
  total_programada ts init = Ok (Some y) ->
  init = Some y \/
  exists t tipo amt x,
    In t ts /\ tariff_type t = Ok tipo /\ eq_str tipo "PROGRAMADA" = true /\
    tariff_amount t = Ok amt /\ readable amt x /\ y = (x / 100)%float.
Proof.
  revert init. induction ts as [|t r IH]; intros init H.
  - injection H as ->. auto.
  - cbn [total_programada] in H. inv_bind H.
    assert (Hrec : forall i, total_programada r i = Ok (Some y) ->
              i = Some y \/
              exists t0 tipo amt x,
                In t0 (t :: r) /\ tariff_type t0 = Ok tipo /\
                eq_str tipo "PROGRAMADA" = true /\ tariff_amount t0 = Ok amt /\
                readable amt x /\ y = (x / 100)%float).
    { intros i Hi. destruct (IH i Hi) as [->|(t0 & tipo & amt & x & Hin & Hr)]; [auto|].
      right. exists t0, tipo, amt, x. split; [right; exact Hin | exact Hr]. }
    destruct (eq_str a "PROGRAMADA") eqn:Et; [|exact (Hrec init H)].
    inv_bind H.
    destruct (truthy a0 && negb (str_upper_is_NA a0)) eqn:Ec; [|exact (Hrec init H)].
    apply andb_true_iff in Ec as [Ht Hna]. apply negb_true_iff in Hna.
    destruct (float_of a0) as [x|e] eqn:Ef.
    + injection H as <-. right. exists t, a, a0, x.
      repeat split; try assumption. left. reflexivity.
    + destruct (is_ValueError e); [|discriminate H].
      destruct (Hrec None H) as [Hn|Hx]; [discriminate Hn | right; exact Hx].
Qed.

Lemma total_tarifa_listed (tarifa : string) (ts : list json) (init : option float)
    (y : float) :
  ClientV2.total_tarifa tarifa ts init = Ok (Some y) ->
  init = Some y \/
  exists t tipo amt x,
    In t ts /\ tariff_type t = Ok tipo /\ eq_str tipo tarifa = true /\
    tariff_amount t = Ok amt /\ readable amt x /\ y = (x / 100)%float.
Proof.
  revert init. induction ts as [|t r IH]; intros init H.
  - injection H as ->. auto.
  - cbn [ClientV2.total_tarifa] in H. inv_bind H.
    destruct (eq_str a tarifa) eqn:Et.
    + inv_bind H.
      destruct (truthy a0 && negb (str_upper_is_NA a0)) eqn:Ec;
        [|injection H as ->; auto].
      apply andb_true_iff in Ec as [Ht Hna]. apply negb_true_iff in Hna.
      destruct (float_of a0) as [x|e] eqn:Ef; [|discriminate H].
      injection H as <-. right. exists t, a, a0, x.
      repeat split; try assumption. left. reflexivity.
    + destruct (IH init H) as [->|(t0 & tipo & amt & x & Hin & Hr)]; [auto|].
      right. exists t0, tipo, amt, x. split; [right; exact Hin | exact Hr].
Qed.

Lemma entry_programada_listed (s : json) (y : float) :
  entry_programada s = Ok (Some y) ->
  exists amt x, lists_total s "PROGRAMADA" amt /\ readable amt x /\ y = (x / 100)%float.
Proof.
  unfold entry_programada. intros H. inv_bind H.
  apply total_programada_listed in H
    as [H|(t & tipo & amt & x & Hin & Ht & He & Ha & Hr & ->)]; [discriminate H|].
  exists amt, x. split; [|auto]. exists a, t, tipo. auto.
Qed.

Lemma entry_tarifa_listed (tarifa : string) (s : json) (y : float) :
  entry_tarifa tarifa s = Ok (Some y) ->
  exists amt x, lists_total s tarifa amt /\ readable amt x /\ y = (x / 100)%float.
Proof.
  unfold entry_tarifa. intros H. inv_bind H.
  apply total_tarifa_listed in H
    as [H|(t & tipo & amt & x & Hin & Ht & He & Ha & Hr & ->)]; [discriminate H|].
  exists amt, x. split; [|auto]. exists a, t, tipo. auto.
Qed.

(** A store keeps the bindings of the other keys, and binds the value to
    the key given or to the key of the dict that is equal to it. *)
Lemma In_set_item_key (m : fare_map) (c : json) (v : tuple4) (k : json) (t : tuple4) :
  In (k, t) (set_item m c v) ->
  In (k, t) m \/
  (t = v /\ (k = c \/ (key_eqb k c = true /\ exists t0, In (k, t0) m))).
Proof.
  induction m as [|[k' v'] m IH]; simpl.
  - intros [[= <- <-]|[]]. auto.
  - destruct (key_eqb k' c) eqn:E.
    + intros [[= <- <-]|H]; [|auto]. right. split; [reflexivity|]. right. eauto.
    + intros [H|H]; [auto|].
      destruct (IH H) as [H'|(-> & [->|(Hk & t0 & H')])]; eauto 8.
Qed.

Lemma step_effect_amounts_listed (ss : list json) (tarifa : string)
    (total : json -> result (option float)) (out : fare_map) (s : json)
    (out' : fare_map) :
  (forall y, total s = Ok (Some y) ->
     exists amt x, lists_total s tarifa amt /\ readable amt x /\ y = (x / 100)%float) ->
  In s ss -> amounts_listed ss tarifa out -> step_effect total out s out' ->
  amounts_listed ss tarifa out'.
Proof.
  intros Htot Hs Hout (code & tot & Hc & Ht & H).
  destruct tot as [y|]; [|subst; exact Hout].
  destruct H as [[_ ->]|(Htr & t1 & t2 & nm & ->)]; [exact Hout|].
  destruct (Htot y Ht) as (amt & x & Hl & Hr & ->).
  intros k t Hin. apply In_set_item_key in Hin as [Hin|[-> Hk]].
  - exact (Hout k t Hin).
  - split.
    + destruct Hk as [->|(_ & t0 & Hin)]; [exact Htr|].
      apply (Hout k t0 Hin).
    + exists s, code, amt, x. split; [exact Hs|]. split; [exact Hc|].
      split; [destruct Hk as [->|(Hk & _)]; [left; reflexivity | right; exact Hk]|].
      split; [exact Hl|]. split; [exact Hr | reflexivity].
Qed.

Lemma programada_amounts_listed (raw : json) (out : fare_map) :
  _totales_programada_por_sailing raw = Ok out ->
  exists ss, programada_entries raw = Ok ss /\ amounts_listed ss "PROGRAMADA" out.
Proof.
  unfold _totales_programada_por_sailing, programada_entries. intros H.
  do 3 inv_bind H. rewrite E. simpl. rewrite E0. simpl. rewrite E1.
  exists a1. split; [reflexivity|].
  apply (foldM_invariant programada_step (amounts_listed a1 "PROGRAMADA") a1)
    with (s := []) (s' := out); [| intros k t [] | exact H].
  intros s x s' Hx Hs Hstep.
  apply (step_effect_amounts_listed a1 "PROGRAMADA" entry_programada s x s');
    [apply entry_programada_listed | exact Hx | exact Hs|].
  apply programada_step_effect, Hstep.
Qed.

Lemma tarifa_amounts_listed (raw : json) (tarifa : string) (out : fare_map) :
  ClientV2._totales_por_tarifa raw tarifa = Ok out ->
  exists ss, tarifa_entries raw = Ok ss /\ amounts_listed ss tarifa out.
Proof.
  unfold ClientV2._totales_por_tarifa, tarifa_entries. intros H.
  destruct (negb (is_dict raw)).
  { injection H as <-. exists []. split; [reflexivity | intros k t []]. }
  do 3 inv_bind H. rewrite E. simpl. rewrite E0. simpl. rewrite E1.
  exists a1. split; [reflexivity|].
  apply (foldM_invariant (ClientV2.tarifa_step tarifa) (amounts_listed a1 tarifa) a1)
    with (s := []) (s' := out); [| intros k t [] | exact H].
  intros s x s' Hx Hs Hstep.
  apply (step_effect_amounts_listed a1 tarifa (entry_tarifa tarifa) s x s');
    [apply entry_tarifa_listed | exact Hx | exact Hs|].
  apply tarifa_step_effect, Hstep.
Qed.

(** An entry with a code and one total that [float] reads is kept by the
    second extractor, whatever the tariff asked for. *)
Lemma tarifa_single_of (tarifa code hs ha : string) (nm amount : json) (x : float) :
  code <> "" -> readable amount x ->
  exists t1 t2,
    ClientV2._totales_por_tarifa
      (response [sailing (JStr code) (JStr hs) (JStr ha) nm
                   [tariff_total tarifa amount]]) tarifa
    = Ok [(JStr code, (Some (x / 100)%float, t1, t2, nm))].
Proof.
  intros Hc (Ht & Hna & Hf).
  destruct (hhmm_or_reformatted JNull hs) as (t1 & E1 & _).
  destruct (hhmm_or_reformatted JNull ha) as (t2 & E2 & _).
  exists t1, t2.
  unfold ClientV2._totales_por_tarifa, response, sailing, tariff_total.
  run_extractor. rewrite String.eqb_refl. run_extractor. rewrite Ht, Hna, Hf.
  run_extractor. rewrite (truthy_code code Hc).
  run_extractor. rewrite E1, E2. reflexivity.
Qed.

(** C7, as the code has it.  In the dict either extractor returns, every
    key is true and is mapped to an amount that is present (never [None]):
    the hundredth of what [float] reads in a total of the requested tariff
    that an entry with that code lists.  An entry without such a total
    leaves the dict as it was; in particular an entry all of whose totals
    are of another tariff, empty, the sentinel N/A or rejected by [float]
    is read and adds nothing.  What counts as a number is what [float]
    accepts: an entry whose total [float] reads is kept, also when the
    total is a spelling of NaN or of an infinity, with that amount. *)
Theorem extractors_omit_unpriced_sailings (raw : json) (tarifa : string) :
  (forall out, _totales_programada_por_sailing raw = Ok out ->
     exists ss, programada_entries raw = Ok ss /\
       forall k t, In (k, t) out ->
         truthy k = true /\
         exists s code amt x,
           In s ss /\ entry_code s = Ok code /\ same_key k code /\
           lists_total s "PROGRAMADA" amt /\ readable amt x /\
           total_of t = Some (x / 100)%float) /\
  (forall out, ClientV2._totales_por_tarifa raw tarifa = Ok out ->
     exists ss, tarifa_entries raw = Ok ss /\
       forall k t, In (k, t) out ->
         truthy k = true /\
         exists s code amt x,
           In s ss /\ entry_code s = Ok code /\ same_key k code /\
           lists_total s tarifa amt /\ readable amt x /\
           total_of t = Some (x / 100)%float) /\
  (forall out s out', programada_step out s = Ok out' ->
     entry_programada s = Ok None -> out' = out) /\
  (forall out s out', ClientV2.tarifa_step tarifa out s = Ok out' ->
     entry_tarifa tarifa s = Ok None -> out' = out) /\
  (forall out code hs ha nm l,
     Forall (fun ta => fst ta <> "PROGRAMADA" \/ unreadable (snd ta)) l ->
     programada_step out (sailing code hs ha nm (tariff_totals_of l)) = Ok out) /\
  (forall out code hs ha nm l,
     Forall (fun ta => fst ta <> tarifa \/ unreadable_at_all (snd ta)) l ->
     ClientV2.tarifa_step tarifa out (sailing code hs ha nm (tariff_totals_of l))
     = Ok out) /\
  (forall code hs ha nm amount x, code <> "" -> readable amount x ->
     (exists t1 t2,
        _totales_programada_por_sailing
          (response [sailing (JStr code) (JStr hs) (JStr ha) nm
                       [tariff_total "PROGRAMADA" amount]])
        = Ok [(JStr code, (Some (x / 100)%float, t1, t2, nm))]) /\
     (exists t1 t2,
        ClientV2._totales_por_tarifa
          (response [sailing (JStr code) (JStr hs) (JStr ha) nm
                       [tariff_total tarifa amount]]) tarifa
        = Ok [(JStr code, (Some (x / 100)%float, t1, t2, nm))])) /\
  readable (JStr "nan") nan /\ readable (JStr "inf") infinity /\
  readable (JStr "-Infinity") neg_infinity /\
  (nan / 100 = nan)%float /\ (infinity / 100 = infinity)%float.
Proof.
  split; [exact (programada_amounts_listed raw)|].
  split; [exact (tarifa_amounts_listed raw tarifa)|].
  split.
  { intros out s out' H Hnone.
    exact (step_effect_unpriced _ _ _ _ (programada_step_effect _ _ _ H) Hnone). }
  split.
  { intros out s out' H Hnone.
    exact (step_effect_unpriced _ _ _ _ (tarifa_step_effect _ _ _ _ H) Hnone). }
  split.
  { intros out code hs ha nm l Hl.
    unfold programada_step, sailing, read_blocks, tariff_totals.
    cbn -[truthy total_programada tariff_totals_of].
    rewrite (total_programada_unreadable l Hl). cbn -[truthy].
    rewrite andb_false_r. reflexivity. }
  split.
  { intros out code hs ha nm l Hl.
    unfold ClientV2.tarifa_step, sailing, read_blocks, tariff_totals.
    cbn -[truthy ClientV2.total_tarifa tariff_totals_of].
    rewrite (total_tarifa_unreadable tarifa l Hl). cbn -[truthy].
    rewrite andb_false_r. reflexivity. }
  split.
  { intros code hs ha nm amount x Hc Hr. split.
    - destruct Hr as (Ht & Hna & Hf).
      destruct (programada_single code hs ha nm amount x Hc Ht Hna Hf)
        as (t1 & t2 & H & _). eauto.
    - apply tarifa_single_of; assumption. }
  repeat split; vm_compute; reflexivity.
Qed.

Lemma extractors_omit_unpriced_sailings_witness :
  (exists t1 t2,
     _totales_programada_por_sailing
       (response [sailing (JStr "BQ101") (JStr "0830") (JStr "0945") (JStr "Francisco")
                    [tariff_total "PROGRAMADA" (JStr "8623440")]])
     = Ok [(JStr "BQ101", (Some (8623440 / 100)%float, t1, t2, JStr "Francisco"))]) /\
  programada_step []
    (sailing (JStr "BQ205") (JStr "1230") (JStr "1345") (JStr "Silvia Ana")
       (tariff_totals_of [("PROGRAMADA", JStr "N/A"); ("PROGRAMADA", JStr "12,50");
                          ("FLEXIBLE", JStr "7000000")]))
  = Ok [].
Proof.
  destruct (extractors_omit_unpriced_sailings sample_day "ECONOMICA")
    as (_ & _ & _ & _ & H5 & _ & H7 & _).
  split.
  - apply (H7 "BQ101" "0830" "0945" (JStr "Francisco") (JStr "8623440") 8623440%float);
      [discriminate|].
    repeat split; vm_compute; reflexivity.
  - apply H5.
    apply Forall_cons; [right; right; left; reflexivity|].
    apply Forall_cons; [right; right; right; reflexivity|].
    apply Forall_cons; [left; discriminate|].
    apply Forall_nil.
Defined.

(** C7 as the specification words it fails: a total spelled [nan] is no
    number, and yet both extractors keep the sailing, with an amount that is
    not a number (it is not even equal to itself) and that the merged table
    shows; a total spelled [-Infinity] is kept with an infinite amount. *)
Lemma nan_total_is_kept :
  _totales_programada_por_sailing
    (response [sailing (JStr "BQ101") (JStr "0830") (JStr "0945") (JStr "Francisco")
                 [tariff_total "PROGRAMADA" (JStr "nan")]])
  = Ok [(JStr "BQ101", (Some nan, JStr "08:30", JStr "09:45", JStr "Francisco"))] /\
  ClientV2._totales_por_tarifa
    (response [sailing (JStr "BQ101") (JStr "0830") (JStr "0945") (JStr "Francisco")
                 [tariff_total "ECONOMICA" (JStr "nan")]]) "ECONOMICA"
  = Ok [(JStr "BQ101", (Some nan, JStr "08:30", JStr "09:45", JStr "Francisco"))] /\
  ClientV2._totales_por_tarifa
    (response [sailing (JStr "BQ101") (JStr "0830") (JStr "0945") (JStr "Francisco")
                 [tariff_total "ECONOMICA" (JStr "-Infinity")]]) "ECONOMICA"
  = Ok [(JStr "BQ101",
         (Some neg_infinity, JStr "08:30", JStr "09:45", JStr "Francisco"))] /\
  PrimFloat.eqb nan nan = false /\
  ClientV2.fmt "ARS" (Some nan) = Some "ARS nan".
Proof.
  repeat split; vm_compute; reflexivity.
Qed.

(** ** [fetch_day_full] *)

Lemma mapM_Forall2 {A B : Type} (f : A -> result B) (l : list A) (out : list B) :
  mapM f l = Ok out -> Forall2 (fun x y => f x = Ok y) l out.
Proof.
  revert out. induction l as [|x l IH]; simpl; intros out H.
  - injection H as <-. constructor.
  - do 2 inv_bind H. injection H as <-. constructor; auto.
Qed.

Lemma mapM_succeeds {A B : Type} (f : A -> result B) (l : list A) :
  Forall (fun x => succeeds (f x)) l -> succeeds (mapM f l).
Proof.
  induction 1 as [|x l [y Hy] _ [ys Hys]]; simpl.
  - exists []. reflexivity.
  - rewrite Hy, Hys. exists (y :: ys). reflexivity.
Qed.

Lemma full_diff_none (p f : option float) :
  full_diff p f = None <-> p = None \/ f = None.
Proof.
  destruct p, f; simpl; split; intros H; auto; try discriminate;
    destruct H; discriminate.
Qed.

Lemma full_item_row (s : json) (item : full_item) :
  full_item_of s = Ok item -> row_for s item.
Proof.
  unfold full_item_of, row_for, entry_totals, entry_code. intros H.
  do 3 inv_bind H. destruct a1 as [p f]. do 5 inv_bind H.
  injection H as <-. cbn [sailingCode turista business diff]. exists p, f.
  rewrite E0, E. cbn [bind]. rewrite E1, E2.
  repeat split; try reflexivity; apply full_diff_none.
Qed.

(** The inner loop of [fetch_day_full] finds, for each of the two
    tariffs, the last total that the entry lists. *)
Lemma full_totals_listed (l : list (string * json)) (p f : option float) :
  full_totals (tariff_totals_of l) p f
  = Ok (match listed "PROGRAMADA" l with Some amt => _to_money amt | None => p end,
        match listed "FLEXIBLE" l with Some amt => _to_money amt | None => f end).
Proof.
  revert p f. induction l as [|[tipo amt] l IH]; intros p f; [reflexivity|].
  unfold tariff_totals_of. cbn -[_to_money]. fold (tariff_totals_of l).
  destruct (String.eqb tipo "PROGRAMADA") eqn:Ep.
  - apply String.eqb_eq in Ep. subst tipo. rewrite IH.
    change ("PROGRAMADA" =? "FLEXIBLE")%string with false.
    destruct (listed "PROGRAMADA" l), (listed "FLEXIBLE" l); reflexivity.
  - destruct (String.eqb tipo "FLEXIBLE"); rewrite IH;
      destruct (listed "PROGRAMADA" l), (listed "FLEXIBLE" l); reflexivity.
Qed.

Lemma full_item_of_entry (e : json * json * json * json * list (string * json)) :
  full_item_of (entry_of e) = Ok (row_of e).
Proof.
  destruct e as [[[[code hs] ha] nm] l].
  unfold full_item_of, entry_of, row_of, shown, sailing, tariff_totals, read_blocks.
  cbn -[full_totals truthy full_diff tariff_totals_of _to_money].
  rewrite full_totals_listed. reflexivity.
Qed.

Lemma mapM_map {A B C : Type} (f : B -> result C) (g : A -> B) (h : A -> C)
    (l : list A) :
  (forall x, f (g x) = Ok (h x)) -> mapM f (map g l) = Ok (map h l).
Proof.
  intros H. induction l as [|x l IH]; simpl; [reflexivity|].
  rewrite H, IH. reflexivity.
Qed.

Lemma listed_none (tipo : string) (l : list (string * json)) :
  (forall ta, In ta l -> fst ta <> tipo) -> listed tipo l = None.
Proof.
  induction l as [|[t amt] l IH]; intros H; [reflexivity|].
  simpl. rewrite IH by (intros ta Hta; apply H; right; exact Hta).
  destruct (String.eqb t tipo) eqn:E; [|reflexivity].
  apply String.eqb_eq in E. destruct (H (t, amt) (or_introl eq_refl) E).
Qed.

(** C10.  On status 200, [fetch_day_full] returns status 200 with one row
    per entry of [sailingprice], in the order of the entries, and it returns
    as soon as every entry can be read.  For entries given by their code,
    times, ship and totals the rows are these: the row of an entry carries
    its code, and for PROGRAMADA and for FLEXIBLE the amount of the last
    total of that tariff that the entry lists; an entry that lists no total
    of one of them is still there, with that amount [None] and the
    differential [None]. *)
Theorem fetch_day_full_one_row_per_sailing (data : json) (ss : list json) :
  (sp <- get data "sailingprice" (JList []) ;; iter sp) = Ok ss ->
  (forall st out, fetch_day_full (Ok (200, data)) = Ok (st, out) ->
     st = 200 /\
     exists rows, out = Rows rows /\ List.length rows = List.length ss /\
                  Forall2 row_for ss rows) /\
  (Forall (fun s => succeeds (full_item_of s)) ss ->
     exists rows, fetch_day_full (Ok (200, data)) = Ok (200, Rows rows)) /\
  (forall entries, ss = map entry_of entries ->
     fetch_day_full (Ok (200, data)) = Ok (200, Rows (map row_of entries))) /\
  (forall code hs ha nm l,
     sailingCode (row_of (code, hs, ha, nm, l)) = code /\
     ((forall ta, In ta l -> fst ta <> "PROGRAMADA") ->
      turista (row_of (code, hs, ha, nm, l)) = None /\
      diff (row_of (code, hs, ha, nm, l)) = None) /\
     ((forall ta, In ta l -> fst ta <> "FLEXIBLE") ->
      business (row_of (code, hs, ha, nm, l)) = None /\
      diff (row_of (code, hs, ha, nm, l)) = None) /\
     (forall amt r, l = (r ++ [("PROGRAMADA", amt)])%list ->
      turista (row_of (code, hs, ha, nm, l)) = _to_money amt)).
Proof.
  intros Hss. inv_bind Hss. unfold fetch_day_full. simpl. rewrite E. simpl.
  rewrite Hss. simpl. split; [|split; [|split]].
  - intros st out H. inv_bind H. injection H as <- <-. split; [reflexivity|].
    exists a0. split; [reflexivity|]. apply mapM_Forall2 in E0.
    split.
    + symmetry. exact (Forall2_length E0).
    + eapply Forall2_impl; [|exact E0]. intros s item. apply full_item_row.
  - intros Hall. destruct (mapM_succeeds _ _ Hall) as [rows Hrows].
    rewrite Hrows. simpl. eauto.
  - intros entries ->.
    rewrite (mapM_map full_item_of entry_of row_of entries full_item_of_entry).
    reflexivity.
  - intros code hs ha nm l. cbn [row_of sailingCode turista business diff].
    split; [reflexivity|]. unfold shown. split; [|split].
    + intros H. rewrite (listed_none _ _ H). auto.
    + intros H. rewrite (listed_none _ _ H).
      destruct (listed "PROGRAMADA" l) as [amt|]; [destruct (_to_money amt)|]; auto.
    + intros amt r ->.
      assert (H : listed "PROGRAMADA" (r ++ [("PROGRAMADA", amt)]) = Some amt).
      { induction r as [|[t a'] r IH]; [reflexivity|].
        cbn [app listed]. rewrite IH. reflexivity. }
      rewrite H. reflexivity.
Qed.

Lemma fetch_day_full_one_row_per_sailing_witness :
  fetch_day_full (Ok (200, sample_day)) =
  Ok (200, Rows
    [ {| sailingCode := JStr "BQ101"; dep := JStr "0830"; arr := JStr "0945";
         ship := JStr "Francisco"; available := true;
         turista := Some 86234.4%float; business := Some 95234.4%float;
         diff := Some 9000%float |};
      {| sailingCode := JStr "BQ205"; dep := JStr "1230"; arr := JStr "1345";
         ship := JStr "Silvia Ana"; available := true;
         turista := None; business := None; diff := None |};
      {| sailingCode := JStr "BQ309"; dep := JStr "1900"; arr := JStr "2015";
         ship := JStr "Atlantic III"; available := true;
         turista := None; business := Some 70000%float; diff := None |} ]).
Proof.
  destruct (fetch_day_full_one_row_per_sailing sample_day _ eq_refl)
    as (_ & _ & H & _).
  rewrite (H [(JStr "BQ101", JStr "0830", JStr "0945", JStr "Francisco",
               [("PROGRAMADA", JStr "8623440"); ("FLEXIBLE", JStr "9523440")]);
              (JStr "BQ205", JStr "1230", JStr "1345", JStr "Silvia Ana",
               [("PROGRAMADA", JStr "N/A")]);
              (JStr "BQ309", JStr "1900", JStr "2015", JStr "Atlantic III",
               [("FLEXIBLE", JStr "7000000")])] eq_refl).
  vm_compute. reflexivity.
Defined.

(** ** The merged table *)

Lemma insert_sorted_In {A : Type} (key : A -> json) (x : A) (l l' : list A) :
  insert_sorted key x l = Ok l' -> forall y, In y l' <-> y = x \/ In y l.
Proof.
  revert l'. induction l as [|z l IH]; simpl; intros l' H y.
  - injection H as <-. simpl. intuition congruence.
  - inv_bind H. destruct a.
    + inv_bind H. injection H as <-. simpl. rewrite (IH _ E0 y). intuition.
    + injection H as <-. simpl. intuition congruence.
Qed.

Lemma sort_by_In {A : Type} (key : A -> json) (l l' : list A) :
  sort_by key l = Ok l' -> forall y, In y l' <-> In y l.
Proof.
  revert l'. induction l as [|x l IH]; simpl; intros l' H y.
  - injection H as <-. reflexivity.
  - inv_bind H. rewrite (insert_sorted_In key x a l' H y), (IH a E y).
    intuition congruence.
Qed.

(** A row of the merged table is the row built for one of the codes of the
    four dicts, and every code has its row. *)
Lemma merge_rows (currency : string) (mt mb mp me : fare_map)
    (rows : list ClientV2.web_row) :
  ClientV2.merge currency mt mb mp me = Ok rows ->
  forall row, In row rows <->
    exists code, In code (ClientV2.union_keys [mt; mb; mp; me]) /\
                 row = ClientV2.merge_row currency mt mb mp me code.
Proof.
  unfold ClientV2.merge. intros H row. inv_bind H.
  rewrite (sort_by_In _ _ _ H row), in_map_iff.
  split; intros (code & H1 & H2).
  - exists code. split; [apply (sort_by_In _ _ _ E), H2 | symmetry; exact H1].
  - exists code. split; [symmetry; exact H2 | apply (sort_by_In _ _ _ E), H1].
Qed.

Lemma merge_row_codigo (currency : string) (mt mb mp me : fare_map) (code : json) :
  ClientV2.codigo (ClientV2.merge_row currency mt mb mp me code) = code.
Proof.
  unfold ClientV2.merge_row.
  destruct (ClientV2.get4 mt code) as [[[? ?] ?] ?].
  destruct (ClientV2.get4 mb code) as [[[? ?] ?] ?].
  destruct (ClientV2.get4 mp code) as [[[? ?] ?] ?].
  destruct (ClientV2.get4 me code) as [[[? ?] ?] ?].
  reflexivity.
Qed.

Lemma or_chain (a b c d : json) :
  py_or (py_or (py_or a b) c) d = first_true [a; b; c; d].
Proof.
  unfold py_or. simpl.
  destruct (truthy a) eqn:Ha; [rewrite Ha, Ha; reflexivity|].
  destruct (truthy b) eqn:Hb; [rewrite Hb; reflexivity|].
  reflexivity.
Qed.

Lemma merge_row_precedence (currency : string) (mt mb mp me : fare_map) (code : json) :
  row_by_precedence mt mb mp me (ClientV2.merge_row currency mt mb mp me code).
Proof.
  unfold row_by_precedence. rewrite merge_row_codigo.
  unfold ClientV2.merge_row.
  destruct (ClientV2.get4 mt code) as [[[? ?] ?] ?].
  destruct (ClientV2.get4 mb code) as [[[? ?] ?] ?].
  destruct (ClientV2.get4 mp code) as [[[? ?] ?] ?].
  destruct (ClientV2.get4 me code) as [[[? ?] ?] ?].
  cbn [ClientV2.barco ClientV2.hora_salida ClientV2.hora_llegada
       barco_of salida_of llegada_of].
  split; [apply or_chain|]. split; reflexivity.
Qed.

(** What the rows of a successful aggregated query are, for either market. *)
Lemma v2_rows_are_merged (token : result json)
    (call_t call_b call_p call_e : result (Z * json)) (st : Z)
    (rows : list ClientV2.web_row) :
  ClientV2.fetch_day_web_prices_pro token call_t call_b call_p call_e
    = Ok (st, Rows rows) ->
  st = 200 /\
  exists mt mb mp me,
    extracted call_t call_b call_p call_e mt mb mp me /\
    ClientV2.merge "ARS" mt mb mp me = Ok rows.
Proof.
  unfold ClientV2.fetch_day_web_prices_pro, extracted. intros H.
  inv_bind H. inv_bind H. destruct a0 as [st_t raw_t].
  inv_bind H. destruct a0 as [st_b raw_b].
  inv_bind H. destruct a0 as [st_p raw_p].
  inv_bind H. destruct a0 as [st_e raw_e].
  destruct (negb (st_t =? 200)); [discriminate|].
  destruct (negb (st_b =? 200)); [discriminate|].
  destruct (negb (st_p =? 200)); [discriminate|].
  do 5 inv_bind H. injection H as <- <-. split; [reflexivity|].
  exists a0, a1, a2, a3. split; [|assumption].
  exists st_t, raw_t, st_b, raw_b, st_p, raw_p, st_e, raw_e. auto 10.
Qed.

Lemma uyu_rows_are_merged (token : result json)
    (call_t call_b call_p call_e : result (Z * json)) (st : Z)
    (rows : list ClientV2.web_row) :
  ClientUYU.fetch_day_web_prices_pro token call_t call_b call_p call_e
    = Ok (st, Rows rows) ->
  st = 200 /\
  exists mt mb mp me,
    extracted call_t call_b call_p call_e mt mb mp me /\
    ClientV2.merge "UYU" mt mb mp me = Ok rows.
Proof.
  unfold ClientUYU.fetch_day_web_prices_pro, extracted. intros H.
  inv_bind H. inv_bind H. destruct a0 as [st_t raw_t].
  inv_bind H. destruct a0 as [st_b raw_b].
  inv_bind H. destruct a0 as [st_p raw_p].
  inv_bind H. destruct a0 as [st_e raw_e].
  destruct (negb (st_t =? 200)); [discriminate|].
  do 5 inv_bind H. injection H as <- <-. split; [reflexivity|].
  exists a0, a1, a2, a3. split; [|assumption].
  exists st_t, raw_t, st_b, raw_b, st_p, raw_p, st_e, raw_e. auto 10.
Qed.

(** C1, as the code has it.  When the aggregated query of either market
    returns rows, they are built from the four per-class dicts: every
    sailing code of their union has a row, and in every row the vessel name
    is the first true value in the order tourist, business, first, economy,
    while the departure and the arrival time are the tourist value when it
    is true and the economy value otherwise; the times of the business and
    of the first class are not read. *)
Theorem merged_row_precedence (token : result json)
    (call_t call_b call_p call_e : result (Z * json)) (st : Z)
    (rows : list ClientV2.web_row) :
  ClientV2.fetch_day_web_prices_pro token call_t call_b call_p call_e
    = Ok (st, Rows rows) \/
  ClientUYU.fetch_day_web_prices_pro token call_t call_b call_p call_e
    = Ok (st, Rows rows) ->
  exists mt mb mp me,
    extracted call_t call_b call_p call_e mt mb mp me /\
    (forall code, In code (ClientV2.union_keys [mt; mb; mp; me]) ->
       exists row, In row rows /\ ClientV2.codigo row = code) /\
    (forall row, In row rows ->
       In (ClientV2.codigo row) (ClientV2.union_keys [mt; mb; mp; me]) /\
       row_by_precedence mt mb mp me row).
Proof.
  intros H.
  assert (Hm : exists currency mt mb mp me,
             extracted call_t call_b call_p call_e mt mb mp me /\
             ClientV2.merge currency mt mb mp me = Ok rows).
  { destruct H as [H|H].
    - apply v2_rows_are_merged in H as (_ & mt & mb & mp & me & H & Hm). eauto 10.
    - apply uyu_rows_are_merged in H as (_ & mt & mb & mp & me & H & Hm). eauto 10. }
  destruct Hm as (currency & mt & mb & mp & me & Hx & Hm).
  exists mt, mb, mp, me. split; [exact Hx|]. split.
  - intros code Hc. exists (ClientV2.merge_row currency mt mb mp me code).
    split; [apply (merge_rows _ _ _ _ _ _ Hm); eauto | apply merge_row_codigo].
  - intros row Hr. apply (merge_rows _ _ _ _ _ _ Hm) in Hr as (code & Hc & ->).
    rewrite merge_row_codigo. split; [exact Hc | apply merge_row_precedence].
Qed.

Lemma merged_row_precedence_witness :
  exists mt mb mp me,
    extracted (Ok (200, tourist_day)) (Ok (200, business_day))
              (Ok (200, empty_day)) (Ok (200, empty_day)) mt mb mp me /\
    (forall code, In code (ClientV2.union_keys [mt; mb; mp; me]) ->
       exists row, In row [row_101; row_205] /\ ClientV2.codigo row = code) /\
    (forall row, In row [row_101; row_205] ->
       In (ClientV2.codigo row) (ClientV2.union_keys [mt; mb; mp; me]) /\
       row_by_precedence mt mb mp me row).
Proof.
  apply (merged_row_precedence (Ok (JStr "eyJ.abc"))
           (Ok (200, tourist_day)) (Ok (200, business_day))
           (Ok (200, empty_day)) (Ok (200, empty_day)) 200).
  left. vm_compute. reflexivity.
Defined.

(** C1 as the specification words it fails on the times: the sailing BQ205
    has no tourist time and the business time 08:45, and its merged row has
    no departure time. *)
Lemma business_time_is_not_merged :
  ClientV2.fetch_day_web_prices_pro (Ok (JStr "eyJ.abc"))
    (Ok (200, tourist_day)) (Ok (200, business_day))
    (Ok (200, empty_day)) (Ok (200, empty_day))
  = Ok (200, Rows [row_101; row_205]) /\
  _totales_programada_por_sailing tourist_day = Ok tourist_map /\
  _totales_programada_por_sailing business_day = Ok business_map /\
  salida_of (ClientV2.get4 business_map (JStr "BQ205")) = JStr "08:45" /\
  ClientV2.hora_salida row_205 = JNull /\
  ~ row_by_worded_precedence tourist_map business_map [] [] row_205.
Proof.
  split; [vm_compute; reflexivity|].
  split; [vm_compute; reflexivity|].
  split; [vm_compute; reflexivity|].
  split; [vm_compute; reflexivity|].
  split; [reflexivity|].
  intros (_ & H & _). vm_compute in H. discriminate H.
Qed.

(** ** Failed calls in the aggregated query *)

Lemma merge_row_amounts (currency : string) (mt mb mp me : fare_map) (code : json) :
  let row := ClientV2.merge_row currency mt mb mp me code in
  ClientV2.business row = ClientV2.fmt currency (total_of (ClientV2.get4 mb code)) /\
  ClientV2.primera row = ClientV2.fmt currency (total_of (ClientV2.get4 mp code)) /\
  ClientV2.economica row = ClientV2.fmt currency (total_of (ClientV2.get4 me code)).
Proof.
  unfold ClientV2.merge_row.
  destruct (ClientV2.get4 mt code) as [[[? ?] ?] ?].
  destruct (ClientV2.get4 mb code) as [[[? ?] ?] ?].
  destruct (ClientV2.get4 mp code) as [[[? ?] ?] ?].
  destruct (ClientV2.get4 me code) as [[[? ?] ?] ?].
  repeat split.
Qed.

(** The rows merged from dicts of which one is empty lack its amount. *)
Lemma merge_without_a_class (currency : string) (mt mb mp me : fare_map)
    (rows : list ClientV2.web_row) :
  ClientV2.merge currency mt mb mp me = Ok rows ->
  forall row, In row rows ->
    (mb = [] -> ClientV2.business row = None) /\
    (mp = [] -> ClientV2.primera row = None) /\
    (me = [] -> ClientV2.economica row = None).
Proof.
  intros Hm row Hr. apply (merge_rows _ _ _ _ _ _ Hm) in Hr as (code & _ & ->).
  destruct (merge_row_amounts currency mt mb mp me code) as (Hb & Hp & He).
  rewrite Hb, Hp, He. repeat split; intros ->; reflexivity.
Qed.

Lemma not_200 (st : Z) : st <> 200 -> (st =? 200) = false.
Proof.
  intros H. apply Z.eqb_neq, H.
Qed.

(** What the first extractor makes of a body without sailings, and of a
    body that is no answer. *)
Lemma programada_no_sailings (raw : json) :
  no_sailings raw -> _totales_programada_por_sailing raw = Ok [].
Proof.
  intros (kv & -> & Hd & Hs). unfold _totales_programada_por_sailing.
  simpl. rewrite Hd. simpl. rewrite Hs. reflexivity.
Qed.

Lemma programada_not_an_answer (raw : json) :
  not_an_answer raw -> _totales_programada_por_sailing raw = Raise AttributeError.
Proof.
  unfold _totales_programada_por_sailing.
  intros [H | (kv & v & -> & Hd & Hv)].
  - destruct raw; try discriminate H; reflexivity.
  - simpl. rewrite Hd. destruct v; try discriminate Hv; reflexivity.
Qed.

(** C4, as the code has it.  In the Argentine query a status other than
    200 of the tourist, the business or the first-class call, tested in that
    order, ends the query with that status and that body.  In the Uruguayan
    query only the tourist status does; the statuses of the business and of
    the first-class call are not read, so that the query is what it is when
    those calls answer 200 with the same bodies.  Such a body goes through
    the extractor as it is: one that is a dict with neither [data] nor
    [sailingprice] is the same as an empty answer of its class, and no row
    has an amount of that class; one that is not a dict, or whose [data] is
    not a dict, makes the query raise AttributeError once the answers before
    it have been read.  In both queries a status other than 200 of the
    economy call makes the query what it is for an empty economy answer:
    when it returns rows the status is 200 and no row has an economy
    amount. *)
Theorem failed_calls_in_the_aggregated_query (tok : json)
    (st_t st_b st_p st_e : Z) (raw_t raw_b raw_p raw_e : json) :
  let v2 := fun cb cp ce =>
    ClientV2.fetch_day_web_prices_pro (Ok tok) (Ok (st_t, raw_t)) cb cp ce in
  let uy := fun cb cp ce =>
    ClientUYU.fetch_day_web_prices_pro (Ok tok) (Ok (st_t, raw_t)) cb cp ce in
  let cb := Ok (st_b, raw_b) in
  let cp := Ok (st_p, raw_p) in
  let ce := Ok (st_e, raw_e) in
  (st_t <> 200 ->
     v2 cb cp ce = Ok (st_t, Upstream raw_t) /\
     uy cb cp ce = Ok (st_t, Upstream raw_t)) /\
  (st_t = 200 -> st_b <> 200 -> v2 cb cp ce = Ok (st_b, Upstream raw_b)) /\
  (st_t = 200 -> st_b = 200 -> st_p <> 200 ->
     v2 cb cp ce = Ok (st_p, Upstream raw_p)) /\
  (st_e <> 200 ->
     v2 cb cp ce = v2 cb cp (Ok (200, empty_day)) /\
     uy cb cp ce = uy cb cp (Ok (200, empty_day)) /\
     forall st rows,
       v2 cb cp ce = Ok (st, Rows rows) \/ uy cb cp ce = Ok (st, Rows rows) ->
       st = 200 /\ forall row, In row rows -> ClientV2.economica row = None) /\
  uy cb cp ce = uy (Ok (200, raw_b)) (Ok (200, raw_p)) ce /\
  (no_sailings raw_b ->
     uy cb cp ce = uy (Ok (200, empty_day)) cp ce /\
     forall st rows, uy cb cp ce = Ok (st, Rows rows) ->
       st = 200 /\ forall row, In row rows -> ClientV2.business row = None) /\
  (no_sailings raw_p ->
     uy cb cp ce = uy cb (Ok (200, empty_day)) ce /\
     forall st rows, uy cb cp ce = Ok (st, Rows rows) ->
       st = 200 /\ forall row, In row rows -> ClientV2.primera row = None) /\
  (forall mapa_t, st_t = 200 -> _totales_programada_por_sailing raw_t = Ok mapa_t ->
     (not_an_answer raw_b -> uy cb cp ce = Raise AttributeError) /\
     (forall mapa_b, _totales_programada_por_sailing raw_b = Ok mapa_b ->
        not_an_answer raw_p -> uy cb cp ce = Raise AttributeError)) /\
  (forall st rows, uy cb cp ce = Ok (st, Rows rows) ->
     st = 200 /\
     (_totales_programada_por_sailing raw_b = Ok [] ->
        forall row, In row rows -> ClientV2.business row = None) /\
     (_totales_programada_por_sailing raw_p = Ok [] ->
        forall row, In row rows -> ClientV2.primera row = None)).
Proof.
  intros v2 uy cb cp ce. subst v2 uy cb cp ce.
  assert (Hrows : forall st rows,
            ClientUYU.fetch_day_web_prices_pro (Ok tok) (Ok (st_t, raw_t))
              (Ok (st_b, raw_b)) (Ok (st_p, raw_p)) (Ok (st_e, raw_e))
            = Ok (st, Rows rows) ->
            st = 200 /\
            (_totales_programada_por_sailing raw_b = Ok [] ->
               forall row, In row rows -> ClientV2.business row = None) /\
            (_totales_programada_por_sailing raw_p = Ok [] ->
               forall row, In row rows -> ClientV2.primera row = None)).
  { unfold ClientUYU.fetch_day_web_prices_pro. cbn [bind]. intros st rows H.
    destruct (negb (st_t =? 200)); [discriminate|].
    do 5 inv_bind H. injection H as <- <-. split; [reflexivity|].
    split; intros Hnone row Hr.
    - rewrite Hnone in E0. injection E0 as <-.
      apply (merge_without_a_class _ _ _ _ _ _ E3 row Hr). reflexivity.
    - rewrite Hnone in E1. injection E1 as <-.
      apply (merge_without_a_class _ _ _ _ _ _ E3 row Hr). reflexivity. }
  split.
  { unfold ClientV2.fetch_day_web_prices_pro, ClientUYU.fetch_day_web_prices_pro.
    cbn [bind]. intros H; rewrite (not_200 _ H); split; reflexivity. }
  split.
  { unfold ClientV2.fetch_day_web_prices_pro. cbn [bind].
    intros -> H; rewrite (not_200 _ H); reflexivity. }
  split.
  { unfold ClientV2.fetch_day_web_prices_pro. cbn [bind].
    intros -> -> H; rewrite (not_200 _ H); reflexivity. }
  split.
  { unfold ClientV2.fetch_day_web_prices_pro, ClientUYU.fetch_day_web_prices_pro.
    cbn [bind].
    intros He. rewrite (not_200 _ He).
    change (200 =? 200) with true. cbv iota.
    change (ClientV2._totales_por_tarifa empty_day "ECONOMICA") with (@Ok fare_map []).
    split; [reflexivity|]. split; [reflexivity|].
    intros st rows H.
    assert (Hm : st = 200 /\ exists currency mt mb mp,
               ClientV2.merge currency mt mb mp [] = Ok rows).
    { destruct H as [H|H].
      - destruct (negb (st_t =? 200)); [discriminate|].
        destruct (negb (st_b =? 200)); [discriminate|].
        destruct (negb (st_p =? 200)); [discriminate|].
        do 3 inv_bind H. cbn [bind] in H. inv_bind H.
        injection H as <- <-. eauto 10.
      - destruct (negb (st_t =? 200)); [discriminate|].
        do 3 inv_bind H. cbn [bind] in H. inv_bind H.
        injection H as <- <-. eauto 10. }
    destruct Hm as (-> & currency & mt & mb & mp & Hm).
    split; [reflexivity|]. intros row Hr.
    apply (merge_without_a_class _ _ _ _ _ _ Hm row Hr). reflexivity. }
  split; [reflexivity|].
  split.
  { intros Hb. pose proof (programada_no_sailings raw_b Hb) as Eb. split.
    - unfold ClientUYU.fetch_day_web_prices_pro. cbn [bind]. rewrite Eb.
      reflexivity.
    - intros st rows H. destruct (Hrows st rows H) as (Hst & Hbus & _).
      split; [exact Hst | exact (Hbus Eb)]. }
  split.
  { intros Hp. pose proof (programada_no_sailings raw_p Hp) as Ep. split.
    - unfold ClientUYU.fetch_day_web_prices_pro. cbn [bind]. rewrite Ep.
      reflexivity.
    - intros st rows H. destruct (Hrows st rows H) as (Hst & _ & Hpri).
      split; [exact Hst | exact (Hpri Ep)]. }
  split; [|exact Hrows].
  intros mapa_t -> Ht. unfold ClientUYU.fetch_day_web_prices_pro. cbn [bind].
  change (negb (200 =? 200)) with false. cbv iota. rewrite Ht. cbn [bind]. split.
  - intros Hb. rewrite (programada_not_an_answer raw_b Hb). reflexivity.
  - intros mapa_b Eb Hp. rewrite Eb. cbn [bind].
    rewrite (programada_not_an_answer raw_p Hp). reflexivity.
Qed.

Lemma failed_calls_in_the_aggregated_query_witness :
  ClientV2.fetch_day_web_prices_pro (Ok (JStr "eyJ.abc"))
    (Ok (200, tourist_day)) (Ok (200, business_day)) (Ok (200, empty_day))
    (Ok (503, unavailable))
  = ClientV2.fetch_day_web_prices_pro (Ok (JStr "eyJ.abc"))
      (Ok (200, tourist_day)) (Ok (200, business_day)) (Ok (200, empty_day))
      (Ok (200, empty_day)) /\
  ClientUYU.fetch_day_web_prices_pro (Ok (JStr "eyJ.abc"))
    (Ok (200, tourist_day)) (Ok (503, unavailable)) (Ok (200, empty_day))
    (Ok (200, empty_day))
  = ClientUYU.fetch_day_web_prices_pro (Ok (JStr "eyJ.abc"))
      (Ok (200, tourist_day)) (Ok (200, empty_day)) (Ok (200, empty_day))
      (Ok (200, empty_day)) /\
  ClientUYU.fetch_day_web_prices_pro (Ok (JStr "eyJ.abc"))
    (Ok (200, tourist_day)) (Ok (502, JStr "Bad Gateway")) (Ok (200, empty_day))
    (Ok (200, empty_day))
  = Raise AttributeError.
Proof.
  split; [|split].
  - destruct (failed_calls_in_the_aggregated_query (JStr "eyJ.abc")
                200 200 200 503 tourist_day business_day empty_day unavailable)
      as (_ & _ & _ & H & _).
    apply H. discriminate.
  - destruct (failed_calls_in_the_aggregated_query (JStr "eyJ.abc")
                200 503 200 200 tourist_day unavailable empty_day empty_day)
      as (_ & _ & _ & _ & _ & H & _).
    apply H. exists [("error", JStr "Service Unavailable")]. auto.
  - destruct (failed_calls_in_the_aggregated_query (JStr "eyJ.abc")
                200 502 200 200 tourist_day (JStr "Bad Gateway") empty_day empty_day)
      as (_ & _ & _ & _ & _ & _ & _ & H & _).
    destruct (H tourist_map eq_refl) as [H' _]; [vm_compute; reflexivity|].
    apply H'. left. reflexivity.
Defined.

(** C4 as the specification words it fails in both queries.  In the
    Argentine one the business call, or the first-class call, answers 503
    and the whole query returns 503 with that body.  In the Uruguayan one a
    business call that fails with an error object leaves rows without
    business amounts, but one that fails with a body that is no dict makes
    the whole query raise. *)
Lemma business_failure_fails_the_query :
  ClientV2.fetch_day_web_prices_pro (Ok (JStr "eyJ.abc"))
    (Ok (200, tourist_day)) (Ok (503, unavailable)) (Ok (200, empty_day))
    (Ok (200, empty_day))
  = Ok (503, Upstream unavailable) /\
  ClientV2.fetch_day_web_prices_pro (Ok (JStr "eyJ.abc"))
    (Ok (200, tourist_day)) (Ok (200, business_day)) (Ok (503, unavailable))
    (Ok (200, empty_day))
  = Ok (503, Upstream unavailable) /\
  ClientUYU.fetch_day_web_prices_pro (Ok (JStr "eyJ.abc"))
    (Ok (200, tourist_day)) (Ok (503, unavailable)) (Ok (200, empty_day))
    (Ok (200, empty_day))
  = Ok (200, Rows
      [ {| ClientV2.hora_salida := JStr "08:30"; ClientV2.hora_llegada := JStr "09:45";
           ClientV2.barco := JStr "Francisco"; ClientV2.codigo := JStr "BQ101";
           ClientV2.turista := Some "UYU 1.000,00";
           ClientV2.business := None; ClientV2.diferencia := None;
           ClientV2.economica := None; ClientV2.primera := None |} ]) /\
  ClientUYU.fetch_day_web_prices_pro (Ok (JStr "eyJ.abc"))
    (Ok (200, tourist_day)) (Ok (502, JStr "Bad Gateway")) (Ok (200, empty_day))
    (Ok (200, empty_day))
  = Raise AttributeError.
Proof.
  repeat split; vm_compute; reflexivity.
Qed.

(** ** Concurrent callers *)

Import Threads.

(** The Uruguayan method: mutual exclusion. *)

Lemma count_cons (f : pc -> bool) (p : pc) (ps : list pc) :
  count f (p :: ps) = (b2n (f p) + count f ps)%nat.
Proof.
  unfold count. simpl. destruct (f p); reflexivity.
Qed.

Lemma count_set_nth (f : pc -> bool) (ps : list pc) (i : nat) (p p' : pc) :
  nth_error ps i = Some p ->
  (count f (set_nth ps i p') + b2n (f p) = count f ps + b2n (f p'))%nat.
Proof.
  revert i. induction ps as [|q ps IH]; intros [|i] H; try discriminate.
  - injection H as ->. simpl. rewrite !count_cons. lia.
  - simpl in *. rewrite !count_cons. specialize (IH i H). lia.
Qed.

Lemma count_le (ps : list pc) : (count browsing ps <= count critical ps)%nat.
Proof.
  induction ps as [|q ps IH]; [reflexivity|].
  rewrite !count_cons. destruct q; simpl; lia.
Qed.

Lemma count_lt (ps : list pc) (i : nat) (p : pc) :
  nth_error ps i = Some p -> critical p = true -> browsing p = false ->
  (count browsing ps < count critical ps)%nat.
Proof.
  revert i. induction ps as [|q ps IH]; intros [|i] H Hc Hb; try discriminate.
  - injection H as ->. rewrite !count_cons, Hc, Hb. pose proof (count_le ps). simpl. lia.
  - simpl in H. specialize (IH i H Hc Hb). rewrite !count_cons.
    destruct q; simpl; lia.
Qed.

Lemma count_pos (f : pc -> bool) (ps : list pc) (i : nat) (p : pc) :
  nth_error ps i = Some p -> f p = true -> (1 <= count f ps)%nat.
Proof.
  revert i. induction ps as [|q ps IH]; intros [|i] H Hf; try discriminate.
  - injection H as ->. rewrite count_cons, Hf. simpl. lia.
  - simpl in H. specialize (IH i H Hf). rewrite count_cons. lia.
Qed.

Section Uruguay.
Variable now : Z.
Variable browser : nat -> option json.
Variable write_ok : bool.

Lemma fire_exclusive (st : system) (i : nat) :
  exclusive st -> exclusive (fire (step_uy now browser write_ok) st i).
Proof.
  destruct st as [w ps]. unfold fire, exclusive. simpl.
  intros (Hc & Hr & Hp).
  destruct (nth_error ps i) as [p|] eqn:Hi; [|simpl; auto].
  pose proof (count_set_nth critical ps i p) as Cc.
  pose proof (count_set_nth browsing ps i p) as Cb.
  destruct p; simpl.
  - (* Start *)
    destruct (ClientUYU._get_cached_token (cache w) now); simpl;
      [specialize (Cc (Returned j) Hi); specialize (Cb (Returned j) Hi)
      |specialize (Cc WaitLock Hi); specialize (Cb WaitLock Hi)];
      simpl in *; repeat split; try lia.
  - (* WaitLock *)
    destruct (lock_held w) eqn:Hl; simpl; [rewrite Hl; auto|].
    specialize (Cc Recheck Hi); specialize (Cb Recheck Hi).
    simpl in *. repeat split; try lia.
  - (* Recheck *)
    destruct (ClientUYU._get_cached_token (cache w) now); simpl;
      [specialize (Cc (Release (Ok j)) Hi); specialize (Cb (Release (Ok j)) Hi)
      |specialize (Cc Launch Hi); specialize (Cb Launch Hi)];
      simpl in *; repeat split; try lia.
  - (* Launch *)
    specialize (Cc (Browsing (launches w)) Hi); specialize (Cb (Browsing (launches w)) Hi).
    pose proof (count_lt ps i Launch Hi eq_refl eq_refl).
    simpl in *. destruct (lock_held w); repeat split; try lia.
  - (* Browsing *)
    pose proof (count_pos browsing ps i _ Hi eq_refl).
    destruct (captured now browser k) as [[tok exp]|e]; simpl;
      [specialize (Cc (Save tok exp) Hi); specialize (Cb (Save tok exp) Hi)
      |specialize (Cc (Release (Raise e)) Hi); specialize (Cb (Release (Raise e)) Hi)];
      simpl in *; repeat split; try lia.
  - (* Save *)
    specialize (Cc (Release (Ok tok)) Hi); specialize (Cb (Release (Ok tok)) Hi).
    simpl in *. repeat split; try lia.
  - (* Release *)
    pose proof (count_pos critical ps i _ Hi eq_refl).
    destruct r as [tok|e]; simpl;
      [specialize (Cc (Returned tok) Hi); specialize (Cb (Returned tok) Hi)
      |specialize (Cc (Raised e) Hi); specialize (Cb (Raised e) Hi)];
      simpl in *; destruct (lock_held w); repeat split; try lia.
  - simpl. auto.
  - simpl. auto.
Qed.

Lemma run_exclusive (sched : list nat) (st : system) :
  exclusive st -> exclusive (run (step_uy now browser write_ok) sched st).
Proof.
  revert st. induction sched as [|i sched IH]; intros st H; [exact H|].
  simpl. apply IH, fire_exclusive, H.
Qed.

End Uruguay.

Lemma Forall_set_nth {A : Type} (P : A -> Prop) (l : list A) (i : nat) (x : A) :
  Forall P l -> P x -> Forall P (set_nth l i x).
Proof.
  intros H Hx. revert i. induction H as [|y l Hy Hl IH]; intros [|i]; simpl;
    constructor; auto.
Qed.

Lemma count_zero (f : pc -> bool) (ps : list pc) :
  count f ps = 0%nat -> Forall (fun q => f q = false) ps.
Proof.
  induction ps as [|q ps IH]; [constructor|].
  rewrite count_cons. destruct (f q) eqn:Hq; simpl; [discriminate|].
  intros H. constructor; auto.
Qed.

(** When the one caller inside the block moves, the others are outside. *)
Lemma Forall_others (P Q : pc -> Prop) (ps : list pc) (i : nat) (p p' : pc) :
  nth_error ps i = Some p -> critical p = true -> (count critical ps <= 1)%nat ->
  (forall q, critical q = false -> Q q -> P q) ->
  Forall Q ps -> P p' -> Forall P (set_nth ps i p').
Proof.
  intros Hi Hp Hc HQP HQ Hp'. revert i Hi Hc.
  induction HQ as [|q ps Hq HQ IH]; intros [|i] Hi Hc; try discriminate.
  - injection Hi as ->. simpl. constructor; [exact Hp'|].
    rewrite count_cons, Hp in Hc. simpl in Hc.
    assert (H0 : count critical ps = 0%nat) by lia.
    apply count_zero in H0. rewrite Forall_forall in *. auto.
  - simpl in Hi. simpl. rewrite count_cons in Hc.
    pose proof (count_pos critical ps i p Hi Hp).
    destruct (critical q) eqn:Ecq; simpl in Hc; [lia|].
    constructor; [auto|]. apply IH; [exact Hi | lia].
Qed.

Section FirstSession.
Variable now : Z.
Variable browser : nat -> option json.
Variable tok0 : json.
Hypothesis first_session : browser 0%nat = Some tok0.
Hypothesis tok0_true : truthy tok0 = true.

Lemma saved_is_hit (e : Z) :
  (now < e)%Z ->
  ClientUYU._get_cached_token (Content (JDict [("token", tok0); ("exp", JInt e)])) now
  = Some tok0.
Proof.
  intros H. unfold ClientUYU._get_cached_token. cbn -[Py.gt truthy].
  rewrite tok0_true. cbn -[Py.gt truthy]. rewrite gt_ints.
  replace (now <? e)%Z with true; [reflexivity|].
  symmetry. apply Z.ltb_lt. exact H.
Qed.

Lemma captured_first :
  captured now browser 0 = Ok (tok0, JInt (now + 10 * 60 * 60)%Z).
Proof.
  unfold captured. rewrite first_session, tok0_true. reflexivity.
Qed.

Lemma fire_single_flight (st : system) (i : nat) :
  exclusive st -> single_flight now tok0 st ->
  single_flight now tok0 (fire (step_uy now browser true) st i).
Proof.
  destruct st as [w ps]. unfold fire, exclusive, single_flight. simpl.
  intros (Hc & Hr & Hp) H.
  destruct (nth_error ps i) as [p|] eqn:Hi; [|exact H].
  assert (Hle : (count critical ps <= 1)%nat) by (destruct (lock_held w); lia).
  destruct H as [(Hl & Hmiss & Hall)|[(Hl & Hlock & Hmiss & Hall)|(Hl & Hsaved & Hall)]].
  - (* nothing launched *)
    pose proof (proj1 (Forall_forall _ _) Hall p (nth_error_In _ _ Hi)) as Hpc.
    destruct Hpc as [-> | [-> | [-> | ->]]]; simpl.
    + rewrite Hmiss. simpl. left. repeat split; auto.
      apply Forall_set_nth; auto.
    + destruct (lock_held w); simpl; [left; auto|].
      left. repeat split; auto. apply Forall_set_nth; auto.
    + rewrite Hmiss. simpl. left. repeat split; auto.
      apply Forall_set_nth; auto.
    + right. left. rewrite Hl.
      pose proof (count_pos critical ps i Launch Hi eq_refl).
      destruct (lock_held w) eqn:Elock; [|lia].
      repeat split; auto.
      apply (Forall_others _ _ ps i Launch _ Hi eq_refl Hle) with (2 := Hall); auto.
      intros q Hq [-> | [-> | [-> | ->]]]; auto; discriminate.
  - (* the session is open, or closed and its credential not yet saved *)
    pose proof (proj1 (Forall_forall _ _) Hall p (nth_error_In _ _ Hi)) as Hpc.
    destruct Hpc as [-> | [-> | [-> | ->]]]; simpl.
    + rewrite Hmiss. simpl. right. left. repeat split; auto.
      apply Forall_set_nth; auto.
    + rewrite Hlock. simpl. right. left. auto.
    + rewrite captured_first. simpl. right. left. repeat split; auto.
      apply Forall_set_nth; auto.
    + right. right. repeat split; auto.
      apply (Forall_others _ _ ps i _ _ Hi eq_refl Hle) with (2 := Hall); auto.
      intros q Hq [-> | [-> | [-> | ->]]]; auto; discriminate.
  - (* the credential is saved *)
    pose proof (proj1 (Forall_forall _ _) Hall p (nth_error_In _ _ Hi)) as Hpc.
    assert (Hhit : ClientUYU._get_cached_token (cache w) now = Some tok0)
      by (rewrite Hsaved; apply saved_is_hit; lia).
    destruct Hpc as [-> | [-> | [-> | [-> | ->]]]]; simpl.
    + rewrite Hhit. simpl. right. right. repeat split; auto.
      apply Forall_set_nth; auto.
    + destruct (lock_held w); simpl; [right; right; auto|].
      right. right. repeat split; auto. apply Forall_set_nth; auto.
    + rewrite Hhit. simpl. right. right. repeat split; auto.
      apply Forall_set_nth; auto.
    + right. right. repeat split; auto. apply Forall_set_nth; auto.
    + right. right. auto.
Qed.

Lemma run_single_flight (sched : list nat) (st : system) :
  exclusive st -> single_flight now tok0 st ->
  single_flight now tok0 (run (step_uy now browser true) sched st).
Proof.
  revert st. induction sched as [|i sched IH]; intros st He H; [exact H|].
  simpl. apply IH; [apply fire_exclusive, He | apply fire_single_flight; assumption].
Qed.

End FirstSession.

Lemma initial_exclusive (c : cache_file) (n : nat) : exclusive (initial c n).
Proof.
  unfold exclusive, initial. simpl.
  assert (H : forall f, f Start = false -> count f (repeat Start n) = 0%nat).
  { intros f Hf. induction n as [|k IH]; [reflexivity|].
    simpl. rewrite count_cons, Hf, IH. reflexivity. }
  rewrite !H by reflexivity. auto.
Qed.

(** X4. Whatever the browser captures and whether or not the cache can be
    written, the callers of the Uruguayan method never have two sessions
    open at once. *)
Lemma uy_one_session_at_a_time (now : Z) (browser : nat -> option json)
    (write_ok : bool) (c : cache_file) (n : nat) (sched : list nat) :
  let final := run (step_uy now browser write_ok) sched (initial c n) in
  (running (fst final) <= 1)%nat /\ (peak (fst final) <= 1)%nat.
Proof.
  intros final.
  destruct (run_exclusive now browser write_ok sched _ (initial_exclusive c n))
    as (Hc & Hr & Hp).
  fold final in Hc, Hr, Hp. split; [|exact Hp].
  pose proof (count_le (snd final)). destruct (lock_held (fst final)); lia.
Qed.

(** X5. When the first session captures a credential and the cache can be
    written, any number of callers that start without a cached credential
    launch at most one session, whatever the schedule, and whoever has
    returned holds the credential of that session. *)
Lemma uy_single_flight (now : Z) (browser : nat -> option json) (tok0 : json)
    (c : cache_file) (n : nat) (sched : list nat) :
  browser 0%nat = Some tok0 -> truthy tok0 = true ->
  ClientUYU._get_cached_token c now = None ->
  let final := run (step_uy now browser true) sched (initial c n) in
  (launches (fst final) <= 1)%nat /\
  forall i tok, nth_error (snd final) i = Some (Returned tok) -> tok = tok0.
Proof.
  intros Hb Ht Hmiss final.
  assert (H : single_flight now tok0 final).
  { apply (run_single_flight now browser tok0 Hb Ht);
      [apply initial_exclusive|].
    left. simpl. repeat split; auto.
    apply Forall_forall. intros p Hp. apply repeat_spec in Hp. auto. }
  destruct H as [(Hl & _ & Hall)|[(Hl & _ & _ & Hall)|(Hl & _ & Hall)]];
    (split; [lia|]); intros i tok Hi;
    pose proof (proj1 (Forall_forall _ _) Hall _ (nth_error_In _ _ Hi)) as Hp.
  - destruct Hp as [Hp | [Hp | [Hp | Hp]]]; discriminate Hp.
  - destruct Hp as [Hp | [Hp | [Hp | Hp]]]; discriminate Hp.
  - destruct Hp as [Hp | [Hp | [Hp | [Hp | Hp]]]]; try discriminate Hp.
    injection Hp as ->. reflexivity.
Qed.

(** The Uruguayan method: progress. *)

Lemma count_witness (f : pc -> bool) (ps : list pc) :
  (1 <= count f ps)%nat -> exists j q, nth_error ps j = Some q /\ f q = true.
Proof.
  induction ps as [|p ps IH]; [unfold count; simpl; lia|].
  rewrite count_cons. destruct (f p) eqn:Hp.
  - intros _. exists 0%nat, p. auto.
  - simpl. intros H. destruct (IH H) as (j & q & Hj & Hq). exists (S j), q. auto.
Qed.

Lemma total_rank_set_nth (ps : list pc) (i : nat) (p p' : pc) :
  nth_error ps i = Some p ->
  (total_rank (set_nth ps i p') + rank p = total_rank ps + rank p')%nat.
Proof.
  revert i. induction ps as [|q ps IH]; intros [|i] H; try discriminate.
  - injection H as ->. simpl. lia.
  - simpl in *. specialize (IH i H). lia.
Qed.

Section Progress.
Variable now : Z.
Variable browser : nat -> option json.
Variable write_ok : bool.

Lemma step_uy_rank (w w' : world) (p p' : pc) :
  step_uy now browser write_ok w p = Some (w', p') -> (rank p' < rank p)%nat.
Proof.
  destruct p; simpl.
  - destruct (ClientUYU._get_cached_token (cache w) now); intros [= <- <-]; simpl; lia.
  - destruct (lock_held w); [discriminate|]. intros [= <- <-]. simpl. lia.
  - destruct (ClientUYU._get_cached_token (cache w) now); intros [= <- <-]; simpl; lia.
  - intros [= <- <-]. simpl. lia.
  - destruct (captured now browser k) as [[tok exp]|e]; intros [= <- <-]; simpl; lia.
  - intros [= <- <-]. simpl. lia.
  - destruct r; intros [= <- <-]; simpl; lia.
  - discriminate.
  - discriminate.
Qed.

Lemma critical_can_step (w : world) (p : pc) :
  critical p = true -> step_uy now browser write_ok w p <> None.
Proof.
  destruct p; simpl; try discriminate.
  - destruct (ClientUYU._get_cached_token (cache w) now); discriminate.
  - destruct (captured now browser k) as [[tok exp]|e]; discriminate.
  - destruct r; discriminate.
Qed.

(** Every execution takes at most seven steps per caller. *)
Lemma steps_bounded (sched : list nat) (st : system) :
  (steps_taken (step_uy now browser write_ok) sched st
   + total_rank (snd (run (step_uy now browser write_ok) sched st))
   <= total_rank (snd st))%nat.
Proof.
  revert st. induction sched as [|i sched IH]; intros [w ps]; simpl; [lia|].
  specialize (IH (fire (step_uy now browser write_ok) (w, ps) i)).
  unfold fire in *. simpl in *.
  destruct (nth_error ps i) as [p|] eqn:Hi; [|simpl in *; lia].
  destruct (step_uy now browser write_ok w p) as [[w' p']|] eqn:Hs; [|simpl in *; lia].
  simpl in IH. pose proof (step_uy_rank _ _ _ _ Hs).
  pose proof (total_rank_set_nth ps i p p' Hi). unfold run in *. simpl. lia.
Qed.

(** When no caller can take a step, every caller has left the method. *)
Lemma stuck_all_finished (st : system) :
  exclusive st -> stuck (step_uy now browser write_ok) st ->
  Forall (fun p => finished p = true) (snd st).
Proof.
  destruct st as [w ps]. unfold exclusive, stuck. simpl. intros (Hc & _ & _) Hst.
  assert (H0 : count critical ps = 0%nat).
  { destruct (count critical ps) as [|k] eqn:E; [reflexivity|].
    destruct (count_witness critical ps) as (j & q & Hj & Hq); [lia|].
    destruct (critical_can_step w q Hq). exact (Hst j q Hj). }
  rewrite H0 in Hc. destruct (lock_held w) eqn:El; [discriminate|].
  apply Forall_forall. intros p Hp. apply In_nth_error in Hp as [i Hi].
  specialize (Hst i p Hi). destruct p; simpl in *; try reflexivity.
  - destruct (ClientUYU._get_cached_token (cache w) now); discriminate.
  - rewrite El in Hst. discriminate.
  - destruct (ClientUYU._get_cached_token (cache w) now); discriminate.
  - discriminate.
  - destruct (captured now browser k) as [[tok exp]|e]; discriminate.
  - discriminate.
  - destruct r; discriminate.
Qed.

End Progress.

Lemma total_rank_initial (c : cache_file) (n : nat) :
  total_rank (snd (initial c n)) = (7 * n)%nat.
Proof.
  unfold initial, total_rank. cbn [snd].
  induction n as [|k IH]; [reflexivity|].
  cbn [repeat fold_right rank]. rewrite IH. lia.
Qed.

(** X6. Under the conditions of single flight, an execution takes at most
    seven steps per caller, and when it can go no further every caller has
    returned with the credential of the one session. *)
Lemma uy_callers_all_return (now : Z) (browser : nat -> option json) (tok0 : json)
    (c : cache_file) (n : nat) (sched : list nat) :
  browser 0%nat = Some tok0 -> truthy tok0 = true ->
  ClientUYU._get_cached_token c now = None ->
  let final := run (step_uy now browser true) sched (initial c n) in
  (steps_taken (step_uy now browser true) sched (initial c n) <= 7 * n)%nat /\
  (stuck (step_uy now browser true) final ->
   Forall (fun p => p = Returned tok0) (snd final)).
Proof.
  intros Hb Ht Hmiss final. split.
  - pose proof (steps_bounded now browser true sched (initial c n)) as H.
    rewrite total_rank_initial in H. lia.
  - intros Hstuck.
    assert (He : exclusive final) by (apply run_exclusive, initial_exclusive).
    pose proof (stuck_all_finished now browser true final He Hstuck) as Hfin.
    assert (H : single_flight now tok0 final).
    { apply (run_single_flight now browser tok0 Hb Ht);
        [apply initial_exclusive|].
      left. simpl. repeat split; auto.
      apply Forall_forall. intros p Hp. apply repeat_spec in Hp. auto. }
    rewrite Forall_forall in *. intros p Hp. specialize (Hfin p Hp).
    destruct H as [(_ & _ & Hall)|[(_ & _ & _ & Hall)|(_ & _ & Hall)]];
      rewrite Forall_forall in Hall; specialize (Hall p Hp).
    + destruct Hall as [-> | [-> | [-> | ->]]]; discriminate Hfin.
    + destruct Hall as [-> | [-> | [-> | ->]]]; discriminate Hfin.
    + destruct Hall as [-> | [-> | [-> | [-> | ->]]]];
        try discriminate Hfin. reflexivity.
Qed.

(** C2 at the failing input: two callers of the Argentine
    [_get_valid_token], no cached credential, no static token, taking turns.
    Both miss the cache before either saves, so two browser sessions are
    launched and open at once, and the callers leave with different
    credentials.  The Uruguayan method under the same turns launches one
    session and hands its credential to both. *)
Theorem ar_callers_race_to_the_browser :
  let browser := fun k : nat =>
    Some (JStr (if (k =? 0)%nat then "eyJ.first" else "eyJ.second")) in
  let turns := [0; 1; 0; 1; 0; 1; 0; 1; 0; 1; 0; 1; 0; 1; 1; 1; 1]%nat in
  let ar := run (step_ar None 1700000000 browser true) turns (initial NoFile 2) in
  let uy := run (step_uy 1700000000 browser true) turns (initial NoFile 2) in
  launches (fst ar) = 2%nat /\ peak (fst ar) = 2%nat /\
  snd ar = [Returned (JStr "eyJ.first"); Returned (JStr "eyJ.second")] /\
  launches (fst uy) = 1%nat /\ peak (fst uy) = 1%nat /\
  snd uy = [Returned (JStr "eyJ.first"); Returned (JStr "eyJ.first")].
Proof.
  repeat split; vm_compute; reflexivity.
Qed.

(* ================================================================== *)
(** * More properties: the credential, the queries, the tables *)
(* ================================================================== *)

Import Terms.

(** ** The credential *)

(** *** The cache file *)

Lemma saved_token_lookup (c : cache_file) (tok : json) (e now : Z) :
  truthy tok = true -> e <> 0 ->
  Client._get_cached_token (_save_token true c tok (JInt e)) now
  = if now <? e then Some tok else None.
Proof.
  intros Ht He. unfold Client._get_cached_token, _save_token.
  cbn -[truthy]. rewrite Ht. cbn.
  replace (e =? 0) with false by (symmetry; apply Z.eqb_neq, He).
  cbn. rewrite Z.gtb_ltb. destruct (now <? e); reflexivity.
Qed.

Lemma uyu_saved_token_lookup (c : cache_file) (tok : json) (e now : Z) :
  truthy tok = true ->
  ClientUYU._get_cached_token (_save_token true c tok (JInt e)) now
  = if now <? e then Some tok else None.
Proof.
  intros Ht. unfold ClientUYU._get_cached_token, _save_token.
  cbn -[truthy Py.gt]. rewrite Ht. cbn -[Py.gt]. rewrite gt_ints.
  destruct (now <? e); reflexivity.
Qed.

(** X1. Round trip through the cache file.  A truthy token saved with the
    expiry [e] is read back by [_get_cached_token] at every time before [e]
    and at no time from [e] on: by the reader of the Argentine client when
    [e] is not 0 (an expiry of 0 is falsy there), and by the reader of the
    Uruguayan client.  When the file cannot be written, [_save_token]
    swallows the error and the reader sees what it saw before. *)
Theorem saved_token_is_served_until_it_expires
    (c : cache_file) (tok : json) (e now : Z) :
  truthy tok = true ->
  (e <> 0 ->
   Client._get_cached_token (_save_token true c tok (JInt e)) now
   = if now <? e then Some tok else None) /\
  ClientUYU._get_cached_token (_save_token true c tok (JInt e)) now
  = (if now <? e then Some tok else None) /\
  (forall exp,
     Client._get_cached_token (_save_token false c tok exp) now
     = Client._get_cached_token c now).
Proof.
  intros Ht. split; [|split].
  - intros He. apply saved_token_lookup; assumption.
  - apply uyu_saved_token_lookup, Ht.
  - reflexivity.
Qed.

Lemma saved_token_is_served_until_it_expires_witness :
  Client._get_cached_token
    (_save_token true NoFile (JStr "eyJ.abc") (JInt 1700036000)) 1700035999
  = Some (JStr "eyJ.abc") /\
  Client._get_cached_token
    (_save_token true NoFile (JStr "eyJ.abc") (JInt 1700036000)) 1700036000
  = None.
Proof.
  destruct (saved_token_is_served_until_it_expires NoFile (JStr "eyJ.abc")
              1700036000 1700035999 eq_refl) as (H1 & _).
  destruct (saved_token_is_served_until_it_expires NoFile (JStr "eyJ.abc")
              1700036000 1700036000 eq_refl) as (H2 & _).
  split; [apply H1; discriminate | apply H2; discriminate].
Defined.

(** *** One caller after the other *)

Lemma obtained_expiry (E : Session.env) (k : nat) (tok exp : json) :
  Session._obtain_token_via_playwright E k = (tok, exp) -> truthy tok = true ->
  exp = JInt (Session.now E + 36000).
Proof.
  unfold Session._obtain_token_via_playwright.
  destruct (Session.browser E k) as [t|]; [destruct (truthy t)|];
    intros [= <- <-]; try discriminate. reflexivity.
Qed.

Lemma uyu_obtained_expiry (E : Session.env) (k : nat) (tok exp : json) :
  SessionUYU._obtain_token_via_playwright E k = (tok, exp) -> truthy tok = true ->
  exp = JInt (Session.now E + 36000).
Proof.
  unfold SessionUYU._obtain_token_via_playwright.
  destruct (Session.browser E k) as [t|]; [destruct (truthy t)|];
    intros [= <- <-]; try discriminate. reflexivity.
Qed.

Lemma no_static_token_miss (E : Session.env) :
  no_static_token E ->
  negb (String.eqb match Session.static_token E with Some e => e | None => "" end "")
  = false.
Proof.
  intros [-> | ->]; reflexivity.
Qed.

(** X2. One caller after the other.  When [_get_valid_token] finds neither
    a static token nor a cached one and the browser captures [tok], one
    session has been launched, nothing has been posted, and the token has
    been saved with an expiry ten hours ahead: until then every further call
    returns [tok] and leaves the state as it is, and from then on a call
    launches a session again.  The same holds for the Uruguayan method,
    which does not look at the static token. *)
Theorem token_is_reused_until_it_expires (E : Session.env) (st st1 : Session.state)
    (tok : json) :
  Session.write_ok E = true -> 0 <= Session.now E ->
  (no_static_token E ->
   Client._get_cached_token (Session.token_file st) (Session.now E) = None ->
   Session._get_valid_token E st = (Ok tok, st1) ->
   Session.sessions st1 = S (Session.sessions st) /\
   Session.posts st1 = Session.posts st /\
   forall t,
     (t < Session.now E + 36000 ->
      Session._get_valid_token (at_time E t) st1 = (Ok tok, st1)) /\
     (Session.now E + 36000 <= t ->
      Session.sessions (snd (Session._get_valid_token (at_time E t) st1))
      = S (Session.sessions st1))) /\
  (ClientUYU._get_cached_token (Session.token_file st) (Session.now E) = None ->
   SessionUYU._get_valid_token E st = (Ok tok, st1) ->
   Session.sessions st1 = S (Session.sessions st) /\
   Session.posts st1 = Session.posts st /\
   forall t,
     (t < Session.now E + 36000 ->
      SessionUYU._get_valid_token (at_time E t) st1 = (Ok tok, st1)) /\
     (Session.now E + 36000 <= t ->
      Session.sessions (snd (SessionUYU._get_valid_token (at_time E t) st1))
      = S (Session.sessions st1))).
Proof.
  intros Hw Hnow. split.
  - intros Hs Hmiss H. unfold Session._get_valid_token in H.
    rewrite (no_static_token_miss E Hs), Hmiss in H.
    destruct (Session._obtain_token_via_playwright _ _) as [tok' exp] eqn:Ec.
    destruct (truthy tok') eqn:Ht; [|discriminate H]. cbn [negb] in H.
    injection H as <- <-. apply obtained_expiry in Ec as ->; [|exact Ht].
    split; [reflexivity|]. split; [reflexivity|]. intros t.
    assert (Hs' : no_static_token (at_time E t)) by exact Hs.
    unfold Session._get_valid_token. rewrite (no_static_token_miss _ Hs').
    cbn [Session.token_file Session.with_token_file Session.now at_time].
    rewrite Hw, (saved_token_lookup _ _ _ t Ht) by lia.
    split; intros Ht'.
    + replace (t <? Session.now E + 36000) with true; [reflexivity|].
      symmetry. apply Z.ltb_lt. exact Ht'.
    + replace (t <? Session.now E + 36000) with false
        by (symmetry; apply Z.ltb_ge; exact Ht').
      destruct (Session._obtain_token_via_playwright _ _) as [? ?].
      destruct (negb _); reflexivity.
  - intros Hmiss H. unfold SessionUYU._get_valid_token in H. rewrite Hmiss in H.
    destruct (SessionUYU._obtain_token_via_playwright _ _) as [tok' exp] eqn:Ec.
    destruct (truthy tok') eqn:Ht; [|discriminate H]. cbn [negb] in H.
    injection H as <- <-. apply uyu_obtained_expiry in Ec as ->; [|exact Ht].
    split; [reflexivity|]. split; [reflexivity|]. intros t.
    unfold SessionUYU._get_valid_token.
    cbn [Session.token_file Session.with_token_file Session.now at_time].
    rewrite Hw, (uyu_saved_token_lookup _ _ _ t Ht).
    split; intros Ht'.
    + replace (t <? Session.now E + 36000) with true; [reflexivity|].
      symmetry. apply Z.ltb_lt. exact Ht'.
    + replace (t <? Session.now E + 36000) with false
        by (symmetry; apply Z.ltb_ge; exact Ht').
      destruct (SessionUYU._obtain_token_via_playwright _ _) as [? ?].
      destruct (negb _); reflexivity.
Qed.

Lemma token_is_reused_until_it_expires_witness :
  Session._get_valid_token
    (at_time (sample_env None (Responds 200 EmptyBody)) 1700035999)
    (snd (Session._get_valid_token (sample_env None (Responds 200 EmptyBody)) at_start))
  = (Ok (JStr "eyJ.first"),
     snd (Session._get_valid_token (sample_env None (Responds 200 EmptyBody)) at_start)).
Proof.
  destruct (token_is_reused_until_it_expires
              (sample_env None (Responds 200 EmptyBody)) at_start
              (snd (Session._get_valid_token (sample_env None (Responds 200 EmptyBody)) at_start))
              (JStr "eyJ.first") eq_refl) as [H _]; [simpl; lia|].
  destruct H as (_ & _ & H); [left; reflexivity | reflexivity | reflexivity |].
  apply (H 1700035999). simpl. lia.
Defined.

(** *** The static token *)

(** X3. A non-empty [BQB_STATIC_TOKEN] overrides cache and browser in the
    Argentine client: [_get_valid_token] returns it stripped and touches
    neither the cache file nor the browser, and [fetch_price] posts exactly
    the day payload that carries it.  The Uruguayan [_get_valid_token] does
    not read the variable. *)
Theorem static_token_overrides_cache_and_browser (E : Session.env) (e : string)
    (st : Session.state) :
  Session.static_token E = Some e -> e <> "" ->
  Session._get_valid_token E st = (Ok (JStr (strip e)), st) /\
  (forall origen destino fecha yy mm dd,
     _normalize_date_to_yymmdd fecha = Ok (yy, mm, dd) ->
     let payload := Session.payload_day (JStr (strip e)) origen destino yy mm dd "BSEAT" in
     Session.fetch_price E origen destino fecha st
     = (Client._call_price_availability
          (Session.upstream E (List.length (Session.posts st))) payload,
        Session.posted st payload)) /\
  (forall static,
     SessionUYU._get_valid_token (with_static E static) st
     = SessionUYU._get_valid_token E st).
Proof.
  intros He Hne.
  assert (H : Session._get_valid_token E st = (Ok (JStr (strip e)), st)).
  { unfold Session._get_valid_token. rewrite He.
    replace (String.eqb e "") with false by (symmetry; apply String.eqb_neq, Hne).
    reflexivity. }
  split; [exact H|]. split.
  - intros origen destino fecha yy mm dd Hn payload.
    unfold Session.fetch_price, Session._payload_day, Session.mbind, Session.lift.
    rewrite Hn, H. reflexivity.
  - intros static. reflexivity.
Qed.

Lemma static_token_overrides_cache_and_browser_witness :
  Session._get_valid_token (sample_env (Some " eyJ.static ") (Responds 200 EmptyBody)) at_start
  = (Ok (JStr "eyJ.static"), at_start).
Proof.
  apply (static_token_overrides_cache_and_browser
           (sample_env (Some " eyJ.static ") (Responds 200 EmptyBody)) " eyJ.static " at_start
           eq_refl).
  discriminate.
Defined.

(** *** The browser session *)

Section CaptureProps.
Variable loads : string -> result json.

Lemma on_request_keeps (h : json) (req : Capture.request) :
  truthy h = true -> Capture.on_request loads h req = h.
Proof.
  intros Hh. unfold Capture.on_request.
  destruct (_ || _); [|reflexivity]. cbv zeta.
  destruct (negb _); [|reflexivity].
  destruct (loads _) as [j|]; simpl; [|reflexivity].
  destruct (get j "token" JNull) as [tok|]; simpl; [|reflexivity].
  rewrite Hh, andb_false_r. reflexivity.
Qed.

Lemma fold_on_request_keeps (l : list Capture.request) (h : json) :
  truthy h = true -> fold_left (Capture.on_request loads) l h = h.
Proof.
  intros Hh. induction l as [|r l IH]; simpl; [reflexivity|].
  rewrite (on_request_keeps h r Hh). exact IH.
Qed.

Lemma fold_on_request_nothing (l : list Capture.request) :
  Forall (fun r => Capture.on_request loads JNull r = JNull) l ->
  fold_left (Capture.on_request loads) l JNull = JNull.
Proof.
  induction 1 as [|r l Hr _ IH]; simpl; [reflexivity|]. rewrite Hr. exact IH.
Qed.

Lemma uy_on_request_takes (h : json) (req : Capture.request) (tok : json) :
  CaptureUYU.on_request loads JNull req = tok -> truthy tok = true ->
  CaptureUYU.on_request loads h req = tok.
Proof.
  unfold CaptureUYU.on_request.
  destruct (_ && _); simpl; [|intros <-; discriminate].
  destruct (loads _) as [j|]; simpl; [|intros <-; discriminate].
  destruct (get j "token" JNull) as [t|]; simpl; [|intros <-; discriminate].
  destruct (truthy t); [auto | intros <-; discriminate].
Qed.

Lemma uy_on_request_leaves (h : json) (req : Capture.request) :
  CaptureUYU.on_request loads JNull req = JNull ->
  CaptureUYU.on_request loads h req = h.
Proof.
  unfold CaptureUYU.on_request.
  destruct (_ && _); simpl; [|reflexivity].
  destruct (loads _) as [j|]; simpl; [|reflexivity].
  destruct (get j "token" JNull) as [t|]; simpl; [|reflexivity].
  destruct (truthy t) eqn:Ht; [|reflexivity].
  intros ->. discriminate Ht.
Qed.

Lemma uy_fold_leaves (l : list Capture.request) (h : json) :
  Forall (fun r => CaptureUYU.on_request loads JNull r = JNull) l ->
  fold_left (CaptureUYU.on_request loads) l h = h.
Proof.
  intros H. revert h. induction H as [|r l Hr _ IH]; simpl; intros h; [reflexivity|].
  rewrite (uy_on_request_leaves h r Hr). apply IH.
Qed.

(** X8. Which token the request handlers keep.  The Argentine handler
    keeps the first token it sees: the token of a request is the result when
    no earlier request carries one, whatever follows.  The Uruguayan handler
    keeps the last one: the token of a request is the result when no later
    request carries one, whatever came before.  The Argentine handler
    ignores every request whose URL contains neither [/api/products] nor
    [/api/priceAvailability], the Uruguayan one every request whose URL does
    not contain [/api/]. *)
Theorem captured_token_first_or_last
    (l1 : list Capture.request) (req : Capture.request) (l2 : list Capture.request)
    (tok : json) :
  truthy tok = true ->
  (Capture.on_request loads JNull req = tok ->
   Forall (fun r => Capture.on_request loads JNull r = JNull) l1 ->
   fold_left (Capture.on_request loads) (l1 ++ req :: l2) JNull = tok) /\
  (CaptureUYU.on_request loads JNull req = tok ->
   Forall (fun r => CaptureUYU.on_request loads JNull r = JNull) l2 ->
   forall h, fold_left (CaptureUYU.on_request loads) (l1 ++ req :: l2) h = tok) /\
  (forall h r,
     Capture.is_in "/api/products" (Capture.url r) = false ->
     Capture.is_in "/api/priceAvailability" (Capture.url r) = false ->
     Capture.on_request loads h r = h) /\
  (forall h r,
     Capture.is_in "/api/" (Capture.url r) = false ->
     CaptureUYU.on_request loads h r = h).
Proof.
  intros Ht. split; [|split; [|split]].
  - intros Hreq Hl1. rewrite fold_left_app, (fold_on_request_nothing l1 Hl1). simpl.
    rewrite Hreq. apply fold_on_request_keeps, Ht.
  - intros Hreq Hl2 h. rewrite fold_left_app. simpl.
    rewrite (uy_on_request_takes _ req tok Hreq Ht). apply uy_fold_leaves, Hl2.
  - intros h r H1 H2. unfold Capture.on_request. rewrite H1, H2. reflexivity.
  - intros h r H1. unfold CaptureUYU.on_request. rewrite H1. reflexivity.
Qed.

End CaptureProps.

Lemma captured_token_first_or_last_witness :
  fold_left (Capture.on_request sample_loads)
    ([api_request "https://www.buquebus.com/api/products" "none"]
     ++ api_request "https://www.buquebus.com/api/products" "first"
     :: [api_request "https://www.buquebus.com/api/priceAvailability" "second"]) JNull
  = JStr "eyJ.first" /\
  Capture.on_request sample_loads JNull
    (api_request "https://www.buquebus.com/api/session" "first") = JNull.
Proof.
  destruct (captured_token_first_or_last sample_loads
              [api_request "https://www.buquebus.com/api/products" "none"]
              (api_request "https://www.buquebus.com/api/products" "first")
              [api_request "https://www.buquebus.com/api/priceAvailability" "second"]
              (JStr "eyJ.first") eq_refl) as (H1 & _ & H3 & _).
  split.
  - apply H1; [reflexivity|]. repeat constructor.
  - apply H3; reflexivity.
Defined.

(** *** The markup *)







(** *** Concurrent callers *)

Lemma uy_single_flight_witness :
  (launches (fst (run (step_uy 1700000000 (fun _ => Some (JStr "eyJ.first")) true)
                      [0; 1; 2; 0; 1; 2; 0; 0; 0; 0; 1; 2]%nat (initial NoFile 3)))
   <= 1)%nat /\
  forall i tok,
    nth_error (snd (run (step_uy 1700000000 (fun _ => Some (JStr "eyJ.first")) true)
                        [0; 1; 2; 0; 1; 2; 0; 0; 0; 0; 1; 2]%nat (initial NoFile 3))) i
    = Some (Returned tok) ->
    tok = JStr "eyJ.first".
Proof.
  exact (uy_single_flight 1700000000 (fun _ => Some (JStr "eyJ.first"))
           (JStr "eyJ.first") NoFile 3 [0; 1; 2; 0; 1; 2; 0; 0; 0; 0; 1; 2]%nat
           eq_refl eq_refl eq_refl).
Defined.

Lemma uy_callers_all_return_witness :
  (steps_taken (step_uy 1700000000 (fun _ => Some (JStr "eyJ.first")) true)
     [0; 1; 0; 1; 0; 1; 0; 1; 0; 1; 0; 1; 0; 1; 1; 1; 1]%nat (initial NoFile 2)
   <= 7 * 2)%nat /\
  (stuck (step_uy 1700000000 (fun _ => Some (JStr "eyJ.first")) true)
     (run (step_uy 1700000000 (fun _ => Some (JStr "eyJ.first")) true)
        [0; 1; 0; 1; 0; 1; 0; 1; 0; 1; 0; 1; 0; 1; 1; 1; 1]%nat (initial NoFile 2)) ->
   Forall (fun p => p = Returned (JStr "eyJ.first"))
     (snd (run (step_uy 1700000000 (fun _ => Some (JStr "eyJ.first")) true)
             [0; 1; 0; 1; 0; 1; 0; 1; 0; 1; 0; 1; 0; 1; 1; 1; 1]%nat (initial NoFile 2)))).
Proof.
  exact (uy_callers_all_return 1700000000 (fun _ => Some (JStr "eyJ.first"))
           (JStr "eyJ.first") NoFile 2
           [0; 1; 0; 1; 0; 1; 0; 1; 0; 1; 0; 1; 0; 1; 1; 1; 1]%nat
           eq_refl eq_refl eq_refl).
Defined.

Lemma fire_sessions_bounded (env : option string) (now : Z) (browser : nat -> option json)
    (write_ok : bool) (n : nat) (st : system) (i : nat) :
  sessions_bounded n st ->
  sessions_bounded n (fire (step_ar env now browser write_ok) st i).
Proof.
  destruct st as [w ps]. unfold fire, sessions_bounded. simpl. intros H.
  destruct (nth_error ps i) as [p|] eqn:Hi; [|exact H].
  pose proof (count_set_nth before_launch ps i p) as C.
  destruct p; simpl; try exact H.
  - destruct env as [e|].
    + destruct (negb (String.eqb e "")); simpl.
      * specialize (C (Returned (JStr (strip e))) Hi). simpl in C. lia.
      * destruct (Client._get_cached_token (cache w) now); simpl;
          [specialize (C (Returned j) Hi) | specialize (C Launch Hi)]; simpl in C; lia.
    + destruct (Client._get_cached_token (cache w) now); simpl;
        [specialize (C (Returned j) Hi) | specialize (C Launch Hi)]; simpl in C; lia.
  - specialize (C (Browsing (launches w)) Hi). simpl in *. lia.
  - destruct (captured now browser k) as [[tok exp]|e]; simpl;
      [specialize (C (Save tok exp) Hi) | specialize (C (Raised e) Hi)]; simpl in C; lia.
  - specialize (C (Returned tok) Hi). simpl in *. lia.
Qed.

Lemma count_repeat_start (f : pc -> bool) (n : nat) :
  f Start = true -> count f (repeat Start n) = n.
Proof.
  intros Hf. induction n as [|k IH]; [reflexivity|].
  simpl. rewrite count_cons, Hf, IH. reflexivity.
Qed.

(** X7. Callers of the Argentine [_get_valid_token], which takes no lock,
    launch at most one browser session each, whatever the schedule: [n]
    callers launch at most [n] sessions, and none at all when there is a
    non-empty static token. *)
Theorem ar_callers_launch_at_most_one_session_each
    (env : option string) (now : Z) (browser : nat -> option json) (write_ok : bool)
    (c : cache_file) (n : nat) (sched : list nat) :
  let final := run (step_ar env now browser write_ok) sched (initial c n) in
  (launches (fst final) <= n)%nat /\
  ((exists e, env = Some e /\ e <> "") -> launches (fst final) = 0%nat).
Proof.
  intros final.
  assert (B : forall st, sessions_bounded n st ->
              sessions_bounded n (run (step_ar env now browser write_ok) sched st)).
  { induction sched as [|i s IH]; intros st H; [exact H|].
    simpl. apply IH, fire_sessions_bounded, H. }
  split.
  - assert (H0 : sessions_bounded n (initial c n)).
    { unfold sessions_bounded, initial. simpl.
      rewrite count_repeat_start by reflexivity. lia. }
    specialize (B _ H0). unfold sessions_bounded in B. fold final in B. lia.
  - intros (e & -> & Hne). subst final.
    assert (I : forall st, launches (fst st) = 0%nat /\
                           Forall (fun p => p = Start \/ exists t, p = Returned t) (snd st) ->
                launches (fst (run (step_ar (Some e) now browser write_ok) sched st)) = 0%nat).
    { clear B. induction sched as [|i s IH]; intros st [H1 H2]; [exact H1|].
      simpl. apply IH. destruct st as [w ps]. unfold fire. simpl in *.
      destruct (nth_error ps i) as [p|] eqn:Hi; [|auto].
      pose proof (proj1 (Forall_forall _ _) H2 p (nth_error_In _ _ Hi)) as Hp.
      destruct Hp as [-> | [t ->]]; simpl; [|auto].
      replace (String.eqb e "") with false by (symmetry; apply String.eqb_neq, Hne).
      simpl. split; [exact H1|]. apply Forall_set_nth; [exact H2|]. right. eauto. }
    apply I. split; [reflexivity|]. simpl.
    apply Forall_forall. intros p Hp. apply repeat_spec in Hp. auto.
Qed.

(** ** Dates and payloads *)

(** *** The shape of a date *)

Lemma all_chars_lstrip (p : ascii -> bool) (a s : string) :
  all_chars p a = true -> lstrip_by p (a ++ s) = lstrip_by p s.
Proof.
  induction a as [|c a IH]; simpl; intros H; [reflexivity|].
  apply andb_true_iff in H as [Hc Ha]. rewrite Hc. auto.
Qed.

Lemma all_chars_rstrip_nil (p : ascii -> bool) (b : string) :
  all_chars p b = true -> rstrip_by p b = "".
Proof.
  induction b as [|c b IH]; simpl; intros H; [reflexivity|].
  apply andb_true_iff in H as [Hc Hb]. rewrite (IH Hb), Hc. reflexivity.
Qed.

Lemma all_chars_rstrip (p : ascii -> bool) (s b : string) :
  all_chars p b = true -> rstrip_by p (s ++ b) = rstrip_by p s.
Proof.
  intros Hb. induction s as [|c s IH]; simpl.
  - apply all_chars_rstrip_nil, Hb.
  - rewrite IH. reflexivity.
Qed.

Lemma lstrip_app (p : ascii -> bool) (s b : string) :
  lstrip_by p (s ++ b) =
  if all_chars p s then lstrip_by p b else lstrip_by p s ++ b.
Proof.
  induction s as [|c s IH]; simpl; [reflexivity|].
  destruct (p c); simpl; [exact IH | reflexivity].
Qed.

Lemma lstrip_all (p : ascii -> bool) (s : string) :
  all_chars p s = true -> lstrip_by p s = "".
Proof.
  induction s as [|c s IH]; simpl; intros H; [reflexivity|].
  apply andb_true_iff in H as [Hc Hs]. rewrite Hc. auto.
Qed.

Lemma strip_padded (a s b : string) :
  all_chars isspace a = true -> all_chars isspace b = true ->
  strip (a ++ s ++ b) = strip s.
Proof.
  intros Ha Hb. unfold strip. rewrite (all_chars_lstrip _ _ _ Ha), lstrip_app.
  destruct (all_chars isspace s) eqn:Hs.
  - rewrite (lstrip_all _ _ Hb), (lstrip_all _ _ Hs). reflexivity.
  - apply all_chars_rstrip, Hb.
Qed.

Lemma split_length (sep : ascii) (s : string) :
  List.length (split sep s) = S (occurrences sep s).
Proof.
  induction s as [|c s IH]; simpl; [reflexivity|].
  destruct (Ascii.eqb c sep); simpl; [rewrite IH; reflexivity|].
  destruct (split sep s) as [|w ws]; simpl in *; [discriminate IH | exact IH].
Qed.

Lemma unpack3_length (l : list string) :
  (List.length l = 3%nat -> succeeds (unpack3 l)) /\
  (List.length l <> 3%nat -> unpack3 l = Raise ValueError).
Proof.
  destruct l as [|a [|b [|c [|d l]]]]; simpl; split; intros H;
    try discriminate H; try reflexivity; try (exfalso; apply H; reflexivity).
  eexists. reflexivity.
Qed.

(** X10. [_normalize_date_to_yymmdd] looks at the shape of the date only.
    It returns a result exactly when the stripped text is six digits or has
    exactly two separators (slashes when there is a slash, hyphens
    otherwise), and it raises ValueError in every other case: eight digits
    in a row and a date of two parts are refused, three parts that are not
    numbers are accepted.  White space around the date changes nothing. *)
Theorem normalize_date_accepts_by_shape_only (fecha : string) :
  let t := strip fecha in
  (succeeds (_normalize_date_to_yymmdd fecha) <->
   fullmatch_6_digits t = true \/ separators t = 2%nat) /\
  (fullmatch_6_digits t = false -> separators t <> 2%nat ->
   _normalize_date_to_yymmdd fecha = Raise ValueError) /\
  (forall a b, all_chars isspace a = true -> all_chars isspace b = true ->
     _normalize_date_to_yymmdd (a ++ fecha ++ b) = _normalize_date_to_yymmdd fecha).
Proof.
  intros t.
  assert (Hbad : fullmatch_6_digits t = false -> separators t <> 2%nat ->
                 _normalize_date_to_yymmdd fecha = Raise ValueError).
  { intros H6 Hsep. unfold _normalize_date_to_yymmdd. fold t. rewrite H6.
    unfold separators in Hsep.
    destruct (contains "/" t).
    - rewrite (proj2 (unpack3_length (split "/" t))); [reflexivity|].
      rewrite split_length. lia.
    - rewrite (proj2 (unpack3_length (split "-" t))); [reflexivity|].
      rewrite split_length. lia. }
  split; [|split; [exact Hbad|]].
  - split.
    + intros [r Hr]. destruct (fullmatch_6_digits t) eqn:H6; [left; reflexivity|].
      right. destruct (Nat.eq_dec (separators t) 2) as [E|E]; [exact E|].
      rewrite (Hbad eq_refl E) in Hr. discriminate Hr.
    + intros H. unfold _normalize_date_to_yymmdd. fold t.
      destruct (fullmatch_6_digits t); [eexists; reflexivity|].
      destruct H as [H|H]; [discriminate H|]. unfold separators in H.
      destruct (contains "/" t).
      * destruct (proj1 (unpack3_length (split "/" t))) as [[[dd mm] yyyy] E].
        { rewrite split_length, H. reflexivity. }
        rewrite E. eexists. reflexivity.
      * destruct (proj1 (unpack3_length (split "-" t))) as [[[yyyy mm] dd] E].
        { rewrite split_length, H. reflexivity. }
        rewrite E. eexists. reflexivity.
  - intros a b Ha Hb. unfold _normalize_date_to_yymmdd.
    rewrite (strip_padded a fecha b Ha Hb). reflexivity.
Qed.

Lemma normalize_date_accepts_by_shape_only_witness :
  _normalize_date_to_yymmdd "20250314" = Raise ValueError /\
  _normalize_date_to_yymmdd "2025-03" = Raise ValueError /\
  succeeds (_normalize_date_to_yymmdd "ab-cd-ef") /\
  _normalize_date_to_yymmdd " 2025-03-14 " = _normalize_date_to_yymmdd "2025-03-14".
Proof.
  split; [|split; [|split]].
  - apply (proj1 (proj2 (normalize_date_accepts_by_shape_only "20250314")));
      [reflexivity | discriminate].
  - apply (proj1 (proj2 (normalize_date_accepts_by_shape_only "2025-03")));
      [reflexivity | discriminate].
  - apply (proj1 (normalize_date_accepts_by_shape_only "ab-cd-ef")).
    right. reflexivity.
  - apply (proj2 (proj2 (normalize_date_accepts_by_shape_only "2025-03-14")) " " " ");
      reflexivity.
Defined.

Section UnpaddedDates.
Variables y1 y2 y3 y4 m d : ascii.
Hypothesis Hy1 : isdigit y1 = true.
Hypothesis Hy2 : isdigit y2 = true.
Hypothesis Hy3 : isdigit y3 = true.
Hypothesis Hy4 : isdigit y4 = true.
Hypothesis Hm : isdigit m = true.
Hypothesis Hd : isdigit d = true.

Lemma normalize_iso_unpadded :
  _normalize_date_to_yymmdd
    (String y1 (String y2 (String y3 (String y4 (String "-"
      (String m (String "-" (String d ""))))))))
  = Ok (String y3 (String y4 ""), String "0" (String m ""), String "0" (String d "")).
Proof.
  unfold _normalize_date_to_yymmdd, strip. run_on_digits. reflexivity.
Qed.

Lemma normalize_dmy_unpadded :
  _normalize_date_to_yymmdd
    (String d (String "/" (String m (String "/"
      (String y1 (String y2 (String y3 (String y4 ""))))))))
  = Ok (String y3 (String y4 ""), String "0" (String m ""), String "0" (String d "")).
Proof.
  unfold _normalize_date_to_yymmdd, strip. run_on_digits. reflexivity.
Qed.

End UnpaddedDates.

(** X11. A day and a month of one digit are padded with a zero: the ISO
    form and the day-first form of such a date give the same triple as the
    padded date. *)
Theorem normalize_date_pads_day_and_month (y m d : nat) :
  (y < 100 * 100)%nat -> (m < 10)%nat -> (d < 10)%nat ->
  let triple := (two_digits (y mod 100), two_digits m, two_digits d) in
  _normalize_date_to_yymmdd (four_digits y ++ "-" ++ one_digit m ++ "-" ++ one_digit d)
  = Ok triple /\
  _normalize_date_to_yymmdd (one_digit d ++ "/" ++ one_digit m ++ "/" ++ four_digits y)
  = Ok triple /\
  _normalize_date_to_yymmdd (four_digits y ++ "-" ++ one_digit m ++ "-" ++ one_digit d)
  = _normalize_date_to_yymmdd (iso_form y m d).
Proof.
  intros Hy Hm Hd triple. subst triple.
  assert (Hc : (y / 100 < 100)%nat) by (apply Nat.Div0.div_lt_upper_bound; lia).
  assert (Hr : (y mod 100 < 100)%nat) by (apply Nat.mod_upper_bound; lia).
  destruct (two_digits_digits _ Hc) as [Hy1 Hy2].
  destruct (two_digits_digits _ Hr) as [Hy3 Hy4].
  pose proof (digit_char_isdigit m Hm) as Hm1.
  pose proof (digit_char_isdigit d Hd) as Hd1.
  assert (Hm' : (m < 100)%nat) by lia.
  assert (Hd' : (d < 100)%nat) by lia.
  destruct (two_digits_digits _ Hm') as [Hm2 Hm3].
  destruct (two_digits_digits _ Hd') as [Hd2 Hd3].
  assert (E : forall n, (n < 10)%nat -> two_digits n = String "0" (one_digit n)).
  { intros n Hn. unfold two_digits, one_digit.
    rewrite (Nat.div_small n 10 Hn), (Nat.mod_small n 10 Hn). reflexivity. }
  rewrite (E m Hm), (E d Hd).
  unfold iso_form, four_digits, two_digits, one_digit. cbn [String.append].
  rewrite normalize_iso_unpadded by assumption.
  rewrite normalize_dmy_unpadded by assumption.
  rewrite normalize_iso by assumption.
  rewrite (Nat.div_small m 10 Hm), (Nat.mod_small m 10 Hm).
  rewrite (Nat.div_small d 10 Hd), (Nat.mod_small d 10 Hd).
  repeat split; reflexivity.
Qed.

Lemma normalize_date_pads_day_and_month_witness :
  _normalize_date_to_yymmdd "2025-3-4" = Ok ("25", "03", "04") /\
  _normalize_date_to_yymmdd "4/3/2025" = Ok ("25", "03", "04") /\
  _normalize_date_to_yymmdd "2025-3-4" = _normalize_date_to_yymmdd "2025-03-04".
Proof.
  apply (normalize_date_pads_day_and_month 2025 3 4); lia.
Defined.

(** *** The payloads *)

(** X15. The payload builders agree with each other.  The payload of one
    sailing with an empty sailing code is the day payload; the day-pricing
    payload is the day payload with PROGRAMADA as the only tariff type, and
    the payload with a vehicle is the day-pricing payload with one car; the
    payload that [_post_day_pricing_economica] makes out of the day payload
    is the one it would make out of the day-pricing payload.  The
    subscripts of [_post_day_pricing_economica] never fail on a day
    payload, so that it posts exactly that payload once. *)
Theorem day_payloads_agree (token : json) (origen destino yy mm dd seat : string) :
  let day := Session.payload_day token origen destino yy mm dd seat in
  let pricing := Session.payload_day_pricing token origen destino (yy ++ mm ++ dd) seat in
  Session.payload_single_sailing_by_seat token origen destino (yy ++ mm ++ dd)
    (JStr "") seat = day /\
  SessionV2.set_tariff_types day (tariff_types ["PROGRAMADA"]) = Some pricing /\
  set_request_field "c_VEQ_VehicleRequest" one_car pricing
  = Some (Session.payload_day_pricing_vehicle token origen destino (yy ++ mm ++ dd) seat) /\
  SessionV2.set_tariff_types day (tariff_types ["ECONOMICA"])
  = SessionV2.set_tariff_types pricing (tariff_types ["ECONOMICA"]) /\
  (forall types, exists p, SessionV2.set_tariff_types day types = Some p) /\
  (forall E fecha st,
     _normalize_date_to_yymmdd fecha = Ok (yy, mm, dd) ->
     Session._get_valid_token E st = (Ok token, st) ->
     exists p,
       SessionV2.set_tariff_types pricing (tariff_types ["ECONOMICA"]) = Some p /\
       SessionV2._post_day_pricing_economica E origen destino fecha seat st
       = (ClientV2._call_price_availability
            (Session.upstream E (List.length (Session.posts st))) p,
          Session.posted st p)).
Proof.
  intros day pricing.
  split; [reflexivity|]. split; [reflexivity|]. split; [reflexivity|].
  split; [reflexivity|]. split; [intros types; eexists; reflexivity|].
  intros E fecha st Hn Ht. eexists. split; [reflexivity|].
  unfold SessionV2._post_day_pricing_economica, Session._payload_day,
    Session.mbind, Session.lift, Session.ret.
  rewrite Hn, Ht. reflexivity.
Qed.

(** *** The date in the queries *)

Lemma normalize_forms (y m d : nat) :
  (y < 100 * 100)%nat -> (m < 100)%nat -> (d < 100)%nat ->
  let triple := (two_digits (y mod 100), two_digits m, two_digits d) in
  _normalize_date_to_yymmdd (iso_form y m d) = Ok triple /\
  _normalize_date_to_yymmdd (dmy_form y m d) = Ok triple /\
  _normalize_date_to_yymmdd (short_form y m d) = Ok triple.
Proof.
  intros Hy Hm Hd triple. subst triple.
  assert (Hc : (y / 100 < 100)%nat) by (apply Nat.Div0.div_lt_upper_bound; lia).
  assert (Hr : (y mod 100 < 100)%nat) by (apply Nat.mod_upper_bound; lia).
  destruct (two_digits_digits _ Hc) as [Hy1 Hy2].
  destruct (two_digits_digits _ Hr) as [Hy3 Hy4].
  destruct (two_digits_digits _ Hm) as [Hm1 Hm2].
  destruct (two_digits_digits _ Hd) as [Hd1 Hd2].
  unfold iso_form, dmy_form, short_form, four_digits, two_digits.
  cbn [String.append].
  split; [apply normalize_iso; assumption|].
  split; [apply normalize_dmy; assumption|].
  apply normalize_short; assumption.
Qed.

(** Unfolds the queries down to the normalization of the date. *)
Ltac to_normalize :=
  unfold Session.fetch_day_raw, Session.fetch_day_full,
    Session.fetch_day_web_prices, Session.fetch_day_web_prices_with_vehicle,
    Session.web_prices, Session.fetch_day_by_seat, Session.fetch_price,
    Session._post_day_pricing, Session._post_day_pricing_vehicle,
    SessionV2._post_day_pricing_economica, SessionUYU._payload,
    Session.mbind, Session.lift.

(** X12. Every query returns the same and leaves the same state behind on
    the three forms of a date (YYYY-MM-DD, DD/MM/YYYY, YYMMDD): [fetch_price],
    [fetch_day_raw], [fetch_day_full], the three day-pricing posts, the
    Uruguayan [_payload], the two web-price queries and [fetch_day_by_seat].
    Only the last two digits of the year reach the payload: a date one
    century later gives the same [fetch_price]. *)
Theorem queries_take_the_date_in_any_form (E : Session.env)
    (origen destino seat : string) (y m d : nat) (st : Session.state) :
  (y < 100 * 100)%nat -> (m < 100)%nat -> (d < 100)%nat ->
  same_on_every_form (Session.fetch_price E origen destino) y m d st /\
  same_on_every_form (Session.fetch_day_raw E origen destino) y m d st /\
  same_on_every_form (Session.fetch_day_full E origen destino) y m d st /\
  same_on_every_form (fun fecha => Session._post_day_pricing E origen destino fecha seat)
    y m d st /\
  same_on_every_form
    (fun fecha => Session._post_day_pricing_vehicle E origen destino fecha seat) y m d st /\
  same_on_every_form
    (fun fecha => SessionV2._post_day_pricing_economica E origen destino fecha seat)
    y m d st /\
  same_on_every_form (fun fecha => SessionUYU._payload E origen destino fecha seat)
    y m d st /\
  same_on_every_form (Session.fetch_day_web_prices E origen destino) y m d st /\
  same_on_every_form (Session.fetch_day_web_prices_with_vehicle E origen destino)
    y m d st /\
  same_on_every_form (fun fecha => Session.fetch_day_by_seat E origen destino fecha seat)
    y m d st /\
  ((y + 100 < 100 * 100)%nat ->
   Session.fetch_price E origen destino (iso_form (y + 100) m d) st
   = Session.fetch_price E origen destino (iso_form y m d) st).
Proof.
  intros Hy Hm Hd.
  destruct (normalize_forms y m d Hy Hm Hd) as (Hi & Hs & Hk).
  unfold same_on_every_form.
  repeat split; try (to_normalize; rewrite ?Hi, ?Hs, ?Hk; reflexivity).
  intros Hy'. destruct (normalize_forms (y + 100) m d Hy' Hm Hd) as (Hi' & _ & _).
  to_normalize. rewrite Hi, Hi'.
  replace ((y + 100) mod 100)%nat with (y mod 100)%nat; [reflexivity|].
  rewrite <- (Nat.Div0.add_mod_idemp_r y 100 100), Nat.Div0.mod_same, Nat.add_0_r.
  reflexivity.
Qed.

Lemma queries_take_the_date_in_any_form_witness :
  Session.fetch_price (sample_env None (Responds 200 EmptyBody)) "BUE" "MVD"
    "2025-03-14" at_start
  = Session.fetch_price (sample_env None (Responds 200 EmptyBody)) "BUE" "MVD"
      "250314" at_start /\
  Session.fetch_price (sample_env None (Responds 200 EmptyBody)) "BUE" "MVD"
    "14/03/2025" at_start
  = Session.fetch_price (sample_env None (Responds 200 EmptyBody)) "BUE" "MVD"
      "250314" at_start.
Proof.
  apply (queries_take_the_date_in_any_form (sample_env None (Responds 200 EmptyBody))
           "BUE" "MVD" "BSEAT" 2025 3 14 at_start); lia.
Defined.

(** *** Failures *)




Lemma get_valid_token_posts (E : Session.env) (st : Session.state) :
  Session.posts (snd (Session._get_valid_token E st)) = Session.posts st.
Proof.
  unfold Session._get_valid_token.
  destruct (negb _); [reflexivity|].
  destruct (Client._get_cached_token _ _); [reflexivity|].
  destruct (Session._obtain_token_via_playwright _ _) as [? ?].
  destruct (negb _); reflexivity.
Qed.

Lemma get_valid_token_posted (E : Session.env) (st : Session.state) (p : json) :
  Session._get_valid_token E (Session.posted st p)
  = (fst (Session._get_valid_token E st),
     Session.posted (snd (Session._get_valid_token E st)) p).
Proof.
  unfold Session._get_valid_token. cbn [Session.posted Session.token_file Session.sessions].
  destruct (negb _); [reflexivity|].
  destruct (Client._get_cached_token _ _); [reflexivity|].
  destruct (Session._obtain_token_via_playwright _ _) as [? ?].
  destruct (negb _); reflexivity.
Qed.

(** X14. [fetch_day_raw] never raises: it always returns a status and a
    body.  When no token can be had, the status is 500, the body carries the
    text of the error, and nothing has been posted.  With a token, the day
    payload for BSEAT is posted once, and the answer is reported as follows:
    a failed post or a body that is not JSON gives 500 with the text of the
    error; status 200 gives the body as it is (an empty dict for an empty
    body); any other status gives that status with the body under
    [error]. *)
Theorem fetch_day_raw_reports_every_failure (E : Session.env)
    (origen destino fecha : string) (st : Session.state) :
  (exists status data st',
     Session.fetch_day_raw E origen destino fecha st = (Ok (status, data), st')) /\
  (forall yy mm dd e st1,
     _normalize_date_to_yymmdd fecha = Ok (yy, mm, dd) ->
     Session._get_valid_token E st = (Raise e, st1) ->
     Session.fetch_day_raw E origen destino fecha st
     = (Ok (500, JDict [("error", JStr (str_of_exn e))]), st1) /\
     Session.posts st1 = Session.posts st) /\
  (forall yy mm dd tok st1,
     _normalize_date_to_yymmdd fecha = Ok (yy, mm, dd) ->
     Session._get_valid_token E st = (Ok tok, st1) ->
     let p := Session.payload_day tok origen destino yy mm dd "BSEAT" in
     let answer := Session.upstream E (List.length (Session.posts st)) p in
     exists status data,
       Session.fetch_day_raw E origen destino fecha st
       = (Ok (status, data), Session.posted st1 p) /\
       (forall e, answer = Fails e ->
          status = 500 /\ data = JDict [("error", JStr (str_of_exn e))]) /\
       (forall s msg, answer = Responds s (OtherBody msg) ->
          status = 500 /\ data = JDict [("error", JStr msg)]) /\
       (forall j, answer = Responds 200 (JsonBody j) -> status = 200 /\ data = j) /\
       (answer = Responds 200 EmptyBody -> status = 200 /\ data = JDict []) /\
       (forall s j, s <> 200 -> answer = Responds s (JsonBody j) ->
          status = s /\ data = JDict [("error", j)]) /\
       (forall s, s <> 200 -> answer = Responds s EmptyBody ->
          status = s /\ data = JDict [("error", JDict [])])).
Proof.
  split; [|split].
  - unfold Session.fetch_day_raw.
    destruct (Session.fetch_price E origen destino fecha st) as [[[s x]|e] st'].
    + destruct (negb (s =? 200)); eauto.
    + eauto.
  - intros yy mm dd e st1 Hn Ht. pose proof (get_valid_token_posts E st) as Hp.
    rewrite Ht in Hp. split; [|exact Hp].
    unfold Session.fetch_day_raw, Session.fetch_price, Session._payload_day,
      Session.mbind, Session.lift.
    rewrite Hn, Ht. reflexivity.
  - intros yy mm dd tok st1 Hn Ht p answer.
    pose proof (get_valid_token_posts E st) as Hp. rewrite Ht in Hp. simpl in Hp.
    unfold Session.fetch_day_raw, Session.fetch_price, Session._payload_day,
      Session.mbind, Session.lift, Session.ret, Session._call_price_availability,
      Client._call_price_availability.
    rewrite Hn, Ht, Hp. fold p. fold answer.
    destruct answer as [e|s [|j|msg]]; simpl.
    + eexists _, _. split; [reflexivity|].
      repeat split; intros; try discriminate; congruence.
    + destruct (s =? 200) eqn:Es; simpl.
      * apply Z.eqb_eq in Es. subst s. eexists _, _. split; [reflexivity|].
        repeat split; intros; try discriminate; try congruence.
      * apply Z.eqb_neq in Es. eexists _, _. split; [reflexivity|].
        repeat split; intros; try discriminate; try congruence.
    + destruct (s =? 200) eqn:Es; simpl.
      * apply Z.eqb_eq in Es. subst s. eexists _, _. split; [reflexivity|].
        repeat split; intros; try discriminate; try congruence.
      * apply Z.eqb_neq in Es. eexists _, _. split; [reflexivity|].
        repeat split; intros; try discriminate; try congruence.
    + eexists _, _. split; [reflexivity|].
      repeat split; intros; try discriminate; congruence.
Qed.

(** ** The extractors *)

(** *** The data envelope *)

(** X19. Both extractors read through a [data] envelope: an answer whose
    [data] is a dict is read as that dict.  Without [sailingprice] both
    return the empty dict.  They differ on what is not a dict: for an answer
    that is not a dict, [_totales_programada_por_sailing] raises
    AttributeError while [_totales_por_tarifa] returns the empty dict; for a
    [data] that is not a dict, the first raises and the second reads the
    answer itself. *)
Theorem extractors_and_the_data_envelope (tarifa : string) :
  (forall kv rest, assoc "data" kv = None ->
     _totales_programada_por_sailing (JDict (("data", JDict kv) :: rest))
     = _totales_programada_por_sailing (JDict kv) /\
     ClientV2._totales_por_tarifa (JDict (("data", JDict kv) :: rest)) tarifa
     = ClientV2._totales_por_tarifa (JDict kv) tarifa) /\
  (forall kv, assoc "data" kv = None -> assoc "sailingprice" kv = None ->
     _totales_programada_por_sailing (JDict kv) = Ok [] /\
     ClientV2._totales_por_tarifa (JDict kv) tarifa = Ok []) /\
  (forall raw, is_dict raw = false ->
     _totales_programada_por_sailing raw = Raise AttributeError /\
     ClientV2._totales_por_tarifa raw tarifa = Ok []) /\
  (forall kv v, is_dict v = false -> assoc "data" kv = None ->
     _totales_programada_por_sailing (JDict (("data", v) :: kv)) = Raise AttributeError /\
     ClientV2._totales_por_tarifa (JDict (("data", v) :: kv)) tarifa
     = ClientV2._totales_por_tarifa (JDict kv) tarifa).
Proof.
  split; [|split; [|split]].
  - intros kv rest Hd. unfold _totales_programada_por_sailing, ClientV2._totales_por_tarifa.
    cbn -[foldM iter]. rewrite Hd. split; reflexivity.
  - intros kv Hd Hs. unfold _totales_programada_por_sailing, ClientV2._totales_por_tarifa.
    cbn -[foldM iter]. rewrite Hd. cbn -[foldM iter]. rewrite Hs. split; reflexivity.
  - intros raw Hr. unfold _totales_programada_por_sailing, ClientV2._totales_por_tarifa.
    rewrite Hr. destruct raw; try discriminate Hr; split; reflexivity.
  - intros kv v Hv Hd. unfold _totales_programada_por_sailing, ClientV2._totales_por_tarifa.
    cbn -[foldM iter]. rewrite Hd, Hv. cbn -[foldM iter].
    destruct v; try discriminate Hv; split; reflexivity.
Qed.

(** *** A later entry of the same code *)

Lemma foldM_app {A S : Type} (f : S -> A -> result S) (l1 l2 : list A) (s : S) :
  foldM f (l1 ++ l2) s = (s' <- foldM f l1 s ;; foldM f l2 s').
Proof.
  revert s. induction l1 as [|x l1 IH]; simpl; intros s; [reflexivity|].
  destruct (f s x); simpl; [apply IH | reflexivity].
Qed.

Lemma key_eqb_str (k : json) (c : string) : key_eqb k (JStr c) = true -> k = JStr c.
Proof.
  destruct k; simpl; try discriminate; try (destruct (Prim2SF _); discriminate).
  intros H. apply String.eqb_eq in H. congruence.
Qed.

Lemma lookup_set_item_same (m : fare_map) (k : json) (v : tuple4) :
  key_eqb k k = true -> lookup (set_item m k v) k = Some v.
Proof.
  intros Hk. induction m as [|[k' v'] m IH]; simpl; [rewrite Hk; reflexivity|].
  destruct (key_eqb k' k) eqn:E; simpl; rewrite E; [reflexivity | exact IH].
Qed.

Lemma lookup_set_item_other (m : fare_map) (c c' : string) (v : tuple4) :
  c' <> c -> lookup (set_item m (JStr c) v) (JStr c') = lookup m (JStr c').
Proof.
  intros Hc. induction m as [|[k' v'] m IH]; simpl.
  - destruct (String.eqb c c') eqn:E; [|reflexivity].
    apply String.eqb_eq in E. congruence.
  - destruct (key_eqb k' (JStr c)) eqn:E.
    + apply key_eqb_str in E. subst k'. simpl.
      destruct (String.eqb c c') eqn:E'; [|reflexivity].
      apply String.eqb_eq in E'. congruence.
    + simpl. destruct (key_eqb k' (JStr c')); [reflexivity | exact IH].
Qed.

Lemma set_item_length (m : fare_map) (k : json) (v : tuple4) :
  List.length (set_item m k v)
  = match lookup m k with Some _ => List.length m | None => S (List.length m) end.
Proof.
  induction m as [|[k' v'] m IH]; simpl; [reflexivity|].
  destruct (key_eqb k' k); simpl; [reflexivity|].
  rewrite IH. destruct (lookup m k); reflexivity.
Qed.

Lemma programada_step_sample (out : fare_map) (code hs ha : string) (nm amount : json)
    (x : float) :
  code <> "" -> truthy amount = true -> str_upper_is_NA amount = false ->
  float_of amount = Ok x ->
  exists t1 t2,
    programada_step out
      (sailing (JStr code) (JStr hs) (JStr ha) nm [tariff_total "PROGRAMADA" amount])
    = Ok (set_item out (JStr code) (Some (x / 100)%float, t1, t2, nm)) /\
    Reformatted (JStr "") hs t1 /\ Reformatted (JStr "") ha t2.
Proof.
  intros Hc Ht Hna Hf.
  destruct (hhmm_or_reformatted (JStr "") hs) as (t1 & E1 & R1).
  destruct (hhmm_or_reformatted (JStr "") ha) as (t2 & E2 & R2).
  exists t1, t2. split; [|split; assumption].
  unfold programada_step, sailing, tariff_total.
  run_extractor. rewrite Ht, Hna, Hf.
  run_extractor. rewrite (truthy_code code Hc).
  run_extractor. rewrite E1, E2. reflexivity.
Qed.

Lemma tarifa_step_sample (tarifa : string) (out : fare_map) (code hs ha : string)
    (nm amount : json) (x : float) :
  code <> "" -> truthy amount = true -> str_upper_is_NA amount = false ->
  float_of amount = Ok x ->
  exists t1 t2,
    ClientV2.tarifa_step tarifa out
      (sailing (JStr code) (JStr hs) (JStr ha) nm [tariff_total tarifa amount])
    = Ok (set_item out (JStr code) (Some (x / 100)%float, t1, t2, nm)) /\
    Reformatted JNull hs t1 /\ Reformatted JNull ha t2.
Proof.
  intros Hc Ht Hna Hf.
  destruct (hhmm_or_reformatted JNull hs) as (t1 & E1 & R1).
  destruct (hhmm_or_reformatted JNull ha) as (t2 & E2 & R2).
  exists t1, t2. split; [|split; assumption].
  unfold ClientV2.tarifa_step, sailing, tariff_total.
  run_extractor. rewrite String.eqb_refl. run_extractor. rewrite Ht, Hna, Hf.
  run_extractor. rewrite (truthy_code code Hc).
  run_extractor. rewrite E1, E2. reflexivity.
Qed.

(** X20. Both extractors keep one fare per sailing code, the last one.
    An entry added at the end of the answer, with a code, times and one
    readable total of the tariff looked for, sets the fare of its code to
    that total divided by 100 with its reformatted times and its ship,
    leaves the fares of all other codes as they were, and makes the dict
    longer by one only when the code was not there. *)
Theorem later_entry_replaces_the_fare_of_its_code
    (ss : list json) (code hs ha : string) (nm amount : json) (x : float) :
  code <> "" -> truthy amount = true -> str_upper_is_NA amount = false ->
  float_of amount = Ok x ->
  (forall out0,
     _totales_programada_por_sailing (response ss) = Ok out0 ->
     exists out t1 t2,
       _totales_programada_por_sailing
         (response (ss ++ [sailing (JStr code) (JStr hs) (JStr ha) nm
                             [tariff_total "PROGRAMADA" amount]]))
       = Ok out /\
       lookup out (JStr code) = Some (Some (x / 100)%float, t1, t2, nm) /\
       Reformatted (JStr "") hs t1 /\ Reformatted (JStr "") ha t2 /\
       (forall c, c <> code -> lookup out (JStr c) = lookup out0 (JStr c)) /\
       List.length out
       = match lookup out0 (JStr code) with
         | Some _ => List.length out0
         | None => S (List.length out0)
         end) /\
  (forall tarifa out0,
     ClientV2._totales_por_tarifa (response ss) tarifa = Ok out0 ->
     exists out t1 t2,
       ClientV2._totales_por_tarifa
         (response (ss ++ [sailing (JStr code) (JStr hs) (JStr ha) nm
                             [tariff_total tarifa amount]])) tarifa
       = Ok out /\
       lookup out (JStr code) = Some (Some (x / 100)%float, t1, t2, nm) /\
       Reformatted JNull hs t1 /\ Reformatted JNull ha t2 /\
       (forall c, c <> code -> lookup out (JStr c) = lookup out0 (JStr c)) /\
       List.length out
       = match lookup out0 (JStr code) with
         | Some _ => List.length out0
         | None => S (List.length out0)
         end).
Proof.
  intros Hc Ht Hna Hf. split.
  - intros out0 H0.
    destruct (programada_step_sample out0 code hs ha nm amount x Hc Ht Hna Hf)
      as (t1 & t2 & Hs & R1 & R2).
    exists (set_item out0 (JStr code) (Some (x / 100)%float, t1, t2, nm)), t1, t2.
    split.
    + unfold _totales_programada_por_sailing, response in *.
      cbn -[foldM programada_step] in *. rewrite foldM_app, H0.
      cbn -[programada_step]. rewrite Hs. reflexivity.
    + split; [apply lookup_set_item_same; simpl; apply String.eqb_refl|].
      split; [exact R1|]. split; [exact R2|].
      split; [intros c Hne; apply lookup_set_item_other; exact Hne|].
      apply set_item_length.
  - intros tarifa out0 H0.
    destruct (tarifa_step_sample tarifa out0 code hs ha nm amount x Hc Ht Hna Hf)
      as (t1 & t2 & Hs & R1 & R2).
    exists (set_item out0 (JStr code) (Some (x / 100)%float, t1, t2, nm)), t1, t2.
    split.
    + unfold ClientV2._totales_por_tarifa, response in *.
      cbn -[foldM ClientV2.tarifa_step] in *. rewrite foldM_app, H0.
      cbn -[ClientV2.tarifa_step]. rewrite Hs. reflexivity.
    + split; [apply lookup_set_item_same; simpl; apply String.eqb_refl|].
      split; [exact R1|]. split; [exact R2|].
      split; [intros c Hne; apply lookup_set_item_other; exact Hne|].
      apply set_item_length.
Qed.

Lemma later_entry_replaces_the_fare_of_its_code_witness :
  exists out t1 t2,
    _totales_programada_por_sailing
      (response ([sailing (JStr "BQ101") (JStr "0830") (JStr "0945") (JStr "Francisco")
                    [tariff_total "PROGRAMADA" (JStr "100000")]]
                 ++ [sailing (JStr "BQ101") (JStr "0900") (JStr "1015") (JStr "Silvia Ana")
                       [tariff_total "PROGRAMADA" (JStr "120000")]]))
    = Ok out /\
    lookup out (JStr "BQ101")
    = Some (Some (120000 / 100)%float, t1, t2, JStr "Silvia Ana") /\
    Reformatted (JStr "") "0900" t1 /\ Reformatted (JStr "") "1015" t2 /\
    (forall c, c <> "BQ101" ->
       lookup out (JStr c)
       = lookup [(JStr "BQ101",
                  (Some 1000%float, JStr "08:30", JStr "09:45", JStr "Francisco"))]
                (JStr c)) /\
    List.length out = 1%nat.
Proof.
  destruct (later_entry_replaces_the_fare_of_its_code
              [sailing (JStr "BQ101") (JStr "0830") (JStr "0945") (JStr "Francisco")
                 [tariff_total "PROGRAMADA" (JStr "100000")]]
              "BQ101" "0900" "1015" (JStr "Silvia Ana") (JStr "120000") 120000%float)
    as [H _].
  - discriminate.
  - reflexivity.
  - reflexivity.
  - vm_compute. reflexivity.
  - apply (H [(JStr "BQ101",
               (Some 1000%float, JStr "08:30", JStr "09:45", JStr "Francisco"))]).
    vm_compute. reflexivity.
Defined.

(** *** The two extractors on the same tariff *)

Lemma hhmm_or_four (empty : json) (s : string) :
  len s = 4%nat -> hhmm_or empty (JStr s) = Ok (JStr (take 2 s ++ ":" ++ drop 2 s)).
Proof.
  intros H. unfold hhmm_or. rewrite H. reflexivity.
Qed.

Lemma steps_agree (out : fare_map) (s : json) :
  plain_entry s ->
  programada_step out s = ClientV2.tarifa_step "PROGRAMADA" out s.
Proof.
  intros (code & hs & ha & nm & tipo & amount & -> & Hs & Ha).
  unfold programada_step, ClientV2.tarifa_step, sailing, tariff_total, store_entry.
  cbn -[hhmm_or float_of truthy str_upper_is_NA PrimFloat.div].
  destruct (String.eqb tipo "PROGRAMADA");
    cbn -[hhmm_or float_of truthy str_upper_is_NA PrimFloat.div];
    [|destruct (truthy code); reflexivity].
  destruct (truthy (JStr amount) && negb (str_upper_is_NA (JStr amount)));
    cbn -[hhmm_or float_of truthy str_upper_is_NA PrimFloat.div];
    [|destruct (truthy code); reflexivity].
  cbn [float_of]. unfold float_of_string.
  destruct (float_literal amount) as [x|];
    cbn -[hhmm_or truthy PrimFloat.div]; [|destruct (truthy code); reflexivity].
  destruct (truthy code); [|reflexivity].
  cbn -[hhmm_or PrimFloat.div]. rewrite !(hhmm_or_four _ _ Hs), !(hhmm_or_four _ _ Ha).
  reflexivity.
Qed.

Lemma foldM_ext {A S : Type} (f g : S -> A -> result S) (l : list A) (s : S) :
  (forall x, In x l -> forall s', f s' x = g s' x) -> foldM f l s = foldM g l s.
Proof.
  revert s. induction l as [|x l IH]; simpl; intros s H; [reflexivity|].
  rewrite (H x (or_introl eq_refl) s). destruct (g s x); simpl; [|reflexivity].
  apply IH. intros y Hy. apply H. right. exact Hy.
Qed.

(** X21. On an answer whose entries have one total each, a string for an
    amount, and times of four characters, [_totales_programada_por_sailing]
    and [_totales_por_tarifa] for PROGRAMADA return the same dict, with and
    without the [data] envelope. *)
Theorem extractors_agree_on_plain_entries (ss : list json) :
  Forall plain_entry ss ->
  _totales_programada_por_sailing (response ss)
  = ClientV2._totales_por_tarifa (response ss) "PROGRAMADA" /\
  _totales_programada_por_sailing (JDict [("data", response ss)])
  = ClientV2._totales_por_tarifa (JDict [("data", response ss)]) "PROGRAMADA".
Proof.
  intros H.
  assert (E : foldM programada_step ss [] = foldM (ClientV2.tarifa_step "PROGRAMADA") ss []).
  { apply foldM_ext. intros s Hs out. apply steps_agree.
    rewrite Forall_forall in H. exact (H s Hs). }
  unfold _totales_programada_por_sailing, ClientV2._totales_por_tarifa, response.
  cbn -[foldM programada_step ClientV2.tarifa_step].
  rewrite E. split; reflexivity.
Qed.

Lemma extractors_agree_on_plain_entries_witness :
  _totales_programada_por_sailing tourist_day
  = ClientV2._totales_por_tarifa tourist_day "PROGRAMADA".
Proof.
  apply (extractors_agree_on_plain_entries
           [sailing (JStr "BQ101") (JStr "0830") (JStr "0945") (JStr "Francisco")
              [tariff_total "PROGRAMADA" (JStr "100000")];
            sailing (JStr "BQ205") (JStr "0845") (JStr "1000") (JStr "Silvia Ana")
              [tariff_total "PROGRAMADA" (JStr "N/A")]]).
  repeat constructor; do 6 eexists; (split; [reflexivity|split; reflexivity]).
Defined.

(** Where they part: a first total that cannot be read before one that can. *)
Example extractors_part_after_an_unreadable_total :
  let day := response
    [sailing (JStr "BQ101") (JStr "0830") (JStr "0945") (JStr "Francisco")
       [tariff_total "PROGRAMADA" (JStr "N/A");
        tariff_total "PROGRAMADA" (JStr "100000")]] in
  _totales_programada_por_sailing day
  = Ok [(JStr "BQ101", (Some 1000%float, JStr "08:30", JStr "09:45", JStr "Francisco"))] /\
  ClientV2._totales_por_tarifa day "PROGRAMADA" = Ok [].
Proof.
  split; vm_compute; reflexivity.
Qed.

(** ** The tables *)

(** *** Sorting *)

Lemma leb_trans (a b c : string) :
  String.leb a b = true -> String.leb b c = true -> String.leb a c = true.
Proof.
  unfold String.leb. revert b c.
  induction a as [|x a IH]; intros [|y b] [|z c]; simpl; try easy.
  unfold Ascii.compare.
  destruct (N.compare_spec (N_of_ascii x) (N_of_ascii y)) as [E1|E1|E1];
    destruct (N.compare_spec (N_of_ascii y) (N_of_ascii z)) as [E2|E2|E2];
    destruct (N.compare_spec (N_of_ascii x) (N_of_ascii z)) as [E3|E3|E3];
    try easy; try lia.
  apply IH.
Qed.

Lemma xcompare_antisym (x y : xnum) :
  xcompare x y = Some Lt -> xcompare y x = Some Gt.
Proof.
  destruct x as [m1 e1|s|], y as [m2 e2|t|]; simpl; try discriminate.
  - rewrite (Z.min_comm e2 e1). intros [= H]. f_equal.
    rewrite Z.compare_antisym, H. reflexivity.
  - destruct t; [discriminate | reflexivity].
  - destruct s; [reflexivity | discriminate].
  - destruct s, t; simpl; try discriminate. reflexivity.
Qed.

Lemma lt_asym (a b : json) : lt a b = Ok true -> lt b a = Ok false.
Proof.
  assert (HN : forall x y, 
    match xcompare x y with Some Lt => true | _ => false end = true ->
    match xcompare y x with Some Lt => true | _ => false end = false).
  { intros x y H. destruct (xcompare x y) as [[| |]|] eqn:E; try discriminate H.
    rewrite (xcompare_antisym _ _ E). reflexivity. }
  assert (S : forall s t, 
    match String.compare s t with Lt => true | _ => false end = true ->
    match String.compare t s with Lt => true | _ => false end = false).
  { intros s t H. rewrite (String.compare_antisym t s).
    destruct (String.compare s t); try discriminate H. reflexivity. }
  unfold lt.
  assert (I : forall x y : bool, @Ok bool x = Ok y -> x = y) by (intros x y [= E]; exact E).
  destruct a, b; cbn -[xcompare String.compare]; try discriminate;
    intros H; apply I in H; f_equal; try (apply S; exact H); try (apply HN; exact H).
Qed.

Section SortedBy.
Context {A : Type} (key : A -> json).

Lemma insert_sorted_HdRel (x y : A) (l l' : list A) :
  insert_sorted key x l = Ok l' ->
  HdRel (in_order key) y l -> (in_order key) y x -> HdRel (in_order key) y l'.
Proof.
  destruct l as [|z l]; simpl; intros H Hl Hx.
  - injection H as <-. constructor. exact Hx.
  - inv_bind H. destruct a.
    + inv_bind H. injection H as <-. constructor. inversion Hl. assumption.
    + injection H as <-. constructor. exact Hx.
Qed.

Lemma insert_sorted_Sorted (x : A) (l l' : list A) :
  Sorted (in_order key) l -> insert_sorted key x l = Ok l' -> Sorted (in_order key) l'.
Proof.
  intros Hl. revert l'. induction Hl as [|y l Hl IH Hy]; simpl; intros l' H.
  - injection H as <-. repeat constructor.
  - inv_bind H. destruct a.
    + inv_bind H. injection H as <-. constructor; [apply IH; exact E0|].
      apply (insert_sorted_HdRel x y l a E0 Hy). apply lt_asym, E.
    + injection H as <-. constructor; [constructor; assumption|].
      constructor. exact E.
Qed.

Lemma sort_by_Sorted (l l' : list A) :
  sort_by key l = Ok l' -> Sorted (in_order key) l'.
Proof.
  revert l'. induction l as [|x l IH]; simpl; intros l' H.
  - injection H as <-. constructor.
  - inv_bind H. apply (insert_sorted_Sorted x a l' (IH a E) H).
Qed.

End SortedBy.

(** *** The merged table: order *)

Lemma hhmm_or_shape (empty hs t : json) :
  hhmm_or empty hs = Ok t -> t = empty \/ exists s, t = JStr s.
Proof.
  destruct hs; simpl; try discriminate.
  - destruct (len s =? 4)%nat; intros [= <-]; eauto.
  - destruct (List.length l =? 4)%nat; [discriminate|]. intros [= <-]. auto.
  - destruct (List.length (dict_keys kv) =? 4)%nat; [discriminate|]. intros [= <-]. auto.
Qed.

Lemma store_entry_times (empty : json) (out : fare_map) (b : blocks) (code : json)
    (total : option float) (out' : fare_map) :
  str_or_null empty -> times_are_strings out ->
  store_entry empty out b code total = Ok out' -> times_are_strings out'.
Proof.
  unfold store_entry. intros He Hout H. do 5 inv_bind H.
  unfold store in H. destruct (hashable code); [|discriminate].
  injection H as <-. intros k t Hin.
  apply In_set_item in Hin as [Hin|(-> & _)]; [exact (Hout k t Hin)|].
  simpl. split.
  - destruct (hhmm_or_shape _ _ _ E1) as [-> | [s ->]]; [exact He | right; eauto].
  - destruct (hhmm_or_shape _ _ _ E2) as [-> | [s ->]]; [exact He | right; eauto].
Qed.

Lemma programada_times (raw : json) (out : fare_map) :
  _totales_programada_por_sailing raw = Ok out -> times_are_strings out.
Proof.
  unfold _totales_programada_por_sailing. intros H. do 3 inv_bind H.
  apply (foldM_invariant programada_step times_are_strings a1)
    with (s := []) (s' := out); [| intros k t [] | exact H].
  intros s x s' _ Hs Hstep. unfold programada_step in Hstep. do 4 inv_bind Hstep.
  destruct (truthy a3 && _).
  - apply (store_entry_times _ _ _ _ _ _ (or_intror (ex_intro _ "" eq_refl)) Hs Hstep).
  - injection Hstep as <-. exact Hs.
Qed.

Lemma tarifa_times (raw : json) (tarifa : string) (out : fare_map) :
  ClientV2._totales_por_tarifa raw tarifa = Ok out -> times_are_strings out.
Proof.
  unfold ClientV2._totales_por_tarifa. intros H.
  destruct (negb (is_dict raw)); [injection H as <-; intros k t []|].
  do 3 inv_bind H.
  apply (foldM_invariant (ClientV2.tarifa_step tarifa) times_are_strings a1)
    with (s := []) (s' := out); [| intros k t [] | exact H].
  intros s x s' _ Hs Hstep. unfold ClientV2.tarifa_step in Hstep. do 4 inv_bind Hstep.
  destruct (truthy a3 && _).
  - apply (store_entry_times _ _ _ _ _ _ (or_introl eq_refl) Hs Hstep).
  - injection Hstep as <-. exact Hs.
Qed.

Lemma lookup_In (m : fare_map) (k : json) (t : tuple4) :
  lookup m k = Some t -> exists k', In (k', t) m /\ key_eqb k' k = true.
Proof.
  induction m as [|[k' v] m IH]; simpl; [discriminate|].
  destruct (key_eqb k' k) eqn:E.
  - intros [= <-]. eauto.
  - intros H. destruct (IH H) as (k'' & Hin & Hk). eauto.
Qed.

Lemma get4_times (m : fare_map) (code : json) :
  times_are_strings m ->
  str_or_null (salida_of (ClientV2.get4 m code)) /\
  str_or_null (llegada_of (ClientV2.get4 m code)).
Proof.
  intros Hm. unfold ClientV2.get4. destruct (lookup m code) as [t|] eqn:E.
  - apply lookup_In in E as (k & Hin & _). exact (Hm k t Hin).
  - simpl. split; left; reflexivity.
Qed.

Lemma py_or_str_or_null (a b : json) :
  str_or_null a -> str_or_null b -> str_or_null (py_or a b).
Proof.
  intros Ha Hb. unfold py_or. destruct (truthy a); assumption.
Qed.

Lemma merge_row_sort_key (currency : string) (mt mb mp me : fare_map) (code : json) :
  times_are_strings mt -> times_are_strings me ->
  let row := ClientV2.merge_row currency mt mb mp me code in
  ClientV2.sort_key row = JStr (departure row).
Proof.
  intros Ht He.
  destruct (get4_times mt code Ht) as [H1 _].
  destruct (get4_times me code He) as [H2 _].
  unfold ClientV2.sort_key, departure, ClientV2.merge_row.
  destruct (ClientV2.get4 mt code) as [[[? hs] ?] ?].
  destruct (ClientV2.get4 mb code) as [[[? ?] ?] ?].
  destruct (ClientV2.get4 mp code) as [[[? ?] ?] ?].
  destruct (ClientV2.get4 me code) as [[[? hs_e] ?] ?].
  cbn [ClientV2.hora_salida]. simpl in H1, H2.
  destruct (py_or_str_or_null hs hs_e H1 H2) as [-> | [s ->]]; [reflexivity|].
  unfold py_or. simpl. destruct (String.eqb s ""); reflexivity.
Qed.

Lemma in_order_before (a b : ClientV2.web_row) :
  ClientV2.sort_key a = JStr (departure a) ->
  ClientV2.sort_key b = JStr (departure b) ->
  in_order ClientV2.sort_key a b -> before a b.
Proof.
  unfold in_order, before. intros Ha Hb H. rewrite Ha, Hb in H.
  cbn -[String.compare departure] in H. unfold String.leb.
  rewrite String.compare_antisym.
  destruct (String.compare (departure b) (departure a));
    try reflexivity; discriminate H.
Qed.

Lemma Sorted_within {A : Type} (P : A -> Prop) (R R' : A -> A -> Prop) (l : list A) :
  (forall a b, P a -> P b -> R a b -> R' a b) ->
  Forall P l -> Sorted R l -> Sorted R' l.
Proof.
  intros HR HP HS. induction HS as [|a l HS IH Hd]; [constructor|].
  inversion HP as [|? ? Pa Pl]; subst. constructor; [auto|].
  destruct Hd as [|b l Hab]; constructor.
  inversion Pl; subst. auto.
Qed.

Lemma before_trans : Transitive before.
Proof.
  intros a b c. unfold before. apply leb_trans.
Qed.

Lemma merge_sorted (currency : string) (mt mb mp me : fare_map)
    (rows : list ClientV2.web_row) :
  times_are_strings mt -> times_are_strings me ->
  ClientV2.merge currency mt mb mp me = Ok rows ->
  Forall (fun row => ClientV2.sort_key row = JStr (departure row)) rows /\
  StronglySorted before rows.
Proof.
  intros Ht He Hm.
  assert (HP : Forall (fun row => ClientV2.sort_key row = JStr (departure row)) rows).
  { apply Forall_forall. intros row Hr.
    apply (merge_rows _ _ _ _ _ _ Hm) in Hr as (code & _ & ->).
    apply merge_row_sort_key; assumption. }
  split; [exact HP|].
  apply Sorted_StronglySorted; [exact before_trans|].
  unfold ClientV2.merge in Hm. inv_bind Hm. apply sort_by_Sorted in Hm.
  apply (Sorted_within _ _ _ _ in_order_before HP Hm).
Qed.

Lemma StronglySorted_split {A : Type} (R : A -> A -> Prop) (l1 l2 l3 : list A) (a b : A) :
  StronglySorted R (l1 ++ a :: l2 ++ b :: l3) -> R a b.
Proof.
  induction l1 as [|x l1 IH]; simpl; intros H; inversion H; subst; [|auto].
  match goal with F : Forall _ _ |- _ => rewrite Forall_forall in F; apply F end.
  apply in_or_app. right. left. reflexivity.
Qed.

(** X22. The rows that [fetch_day_web_prices_pro] returns, in the
    Argentine and in the Uruguayan client, are sorted by departure time:
    the sort key of every row is a string, the departure or [99:99] without
    one, each row departs no later than every row after it, and a row
    without a departure time is followed only by rows whose key is not
    below [99:99]. *)
Theorem merged_table_is_sorted_by_departure (token : result json)
    (call_t call_b call_p call_e : result (Z * json)) (st : Z)
    (rows : list ClientV2.web_row) :
  ClientV2.fetch_day_web_prices_pro token call_t call_b call_p call_e
    = Ok (st, Rows rows) \/
  ClientUYU.fetch_day_web_prices_pro token call_t call_b call_p call_e
    = Ok (st, Rows rows) ->
  (forall row, In row rows -> ClientV2.sort_key row = JStr (departure row)) /\
  StronglySorted before rows /\
  (forall l1 a l2 b l3, rows = (l1 ++ a :: l2 ++ b :: l3)%list ->
     truthy (ClientV2.hora_salida a) = false ->
     String.leb "99:99" (departure b) = true).
Proof.
  intros H.
  assert (Hm : exists currency mt mb mp me,
             extracted call_t call_b call_p call_e mt mb mp me /\
             ClientV2.merge currency mt mb mp me = Ok rows).
  { destruct H as [H|H].
    - apply v2_rows_are_merged in H as (_ & mt & mb & mp & me & H & Hm). eauto 10.
    - apply uyu_rows_are_merged in H as (_ & mt & mb & mp & me & H & Hm). eauto 10. }
  destruct Hm as (currency & mt & mb & mp & me & Hx & Hm).
  destruct Hx as (st_t & raw_t & st_b & raw_b & st_p & raw_p & st_e & raw_e &
                  _ & _ & _ & _ & Et & _ & _ & Ee).
  assert (Ht : times_are_strings mt) by (apply (programada_times raw_t), Et).
  assert (He : times_are_strings me).
  { destruct (st_e =? 200); [apply (tarifa_times raw_e "ECONOMICA"), Ee|].
    injection Ee as <-. intros k t []. }
  destruct (merge_sorted currency mt mb mp me rows Ht He Hm) as [HP HS].
  split; [apply Forall_forall, HP|]. split; [exact HS|].
  intros l1 a l2 b l3 -> Ha.
  pose proof (StronglySorted_split _ _ _ _ _ _ HS) as Hab. unfold before in Hab.
  replace (departure a) with "99:99" in Hab; [exact Hab|].
  unfold departure. destruct (ClientV2.hora_salida a); try reflexivity.
  simpl in Ha. apply negb_false_iff in Ha. rewrite Ha. reflexivity.
Qed.

Lemma merged_table_is_sorted_by_departure_witness :
  (forall row, In row [row_101; row_205] ->
     ClientV2.sort_key row = JStr (departure row)) /\
  StronglySorted before [row_101; row_205] /\
  (forall l1 a l2 b l3, [row_101; row_205] = (l1 ++ a :: l2 ++ b :: l3)%list ->
     truthy (ClientV2.hora_salida a) = false ->
     String.leb "99:99" (departure b) = true).
Proof.
  apply (merged_table_is_sorted_by_departure (Ok (JStr "eyJ.abc"))
           (Ok (200, tourist_day)) (Ok (200, business_day))
           (Ok (200, empty_day)) (Ok (200, empty_day)) 200).
  left. vm_compute. reflexivity.
Defined.

(** *** The merged table: amounts *)

Lemma add_keys_In (ks seen : list json) (k : json) :
  In k (ClientV2.add_keys seen ks) -> In k seen \/ In k ks.
Proof.
  revert seen. induction ks as [|x ks IH]; simpl; intros seen H; [auto|].
  apply IH in H as [H|H]; [|auto].
  destruct (existsb (key_eqb x) seen); [auto|].
  apply in_app_or in H as [H|[<-|[]]]; auto.
Qed.

Lemma union_keys_In (ms : list fare_map) (k : json) :
  In k (ClientV2.union_keys ms) -> exists m, In m ms /\ In k (map fst m).
Proof.
  unfold ClientV2.union_keys.
  assert (G : forall seen,
            In k (fold_left (fun seen m => ClientV2.add_keys seen (map fst m)) ms seen) ->
            In k seen \/ exists m, In m ms /\ In k (map fst m)).
  { induction ms as [|m ms IH]; simpl; intros seen H; [auto|].
    apply IH in H as [H|(m' & Hm & Hk)]; [|eauto].
    apply add_keys_In in H as [H|H]; eauto. }
  intros H. apply G in H as [[]|H]. exact H.
Qed.

Lemma lookup_present (m : fare_map) (k : json) :
  In k (map fst m) -> key_eqb k k = true -> exists t, lookup m k = Some t.
Proof.
  induction m as [|[k' v] m IH]; simpl; [intros []|].
  intros [->|H] Hk.
  - rewrite Hk. eauto.
  - destruct (key_eqb k' k); eauto.
Qed.

Lemma merge_row_fields (currency : string) (mt mb mp me : fare_map) (code : json) :
  let row := ClientV2.merge_row currency mt mb mp me code in
  ClientV2.turista row = ClientV2.fmt currency (total_of (ClientV2.get4 mt code)) /\
  ClientV2.diferencia row
  = ClientV2.fmt currency
      (ClientV2.web_diff (total_of (ClientV2.get4 mb code))
                         (total_of (ClientV2.get4 mt code))).
Proof.
  unfold ClientV2.merge_row.
  destruct (ClientV2.get4 mt code) as [[[? ?] ?] ?].
  destruct (ClientV2.get4 mb code) as [[[? ?] ?] ?].
  destruct (ClientV2.get4 mp code) as [[[? ?] ?] ?].
  destruct (ClientV2.get4 me code) as [[[? ?] ?] ?].
  split; reflexivity.
Qed.

Lemma get4_priced (currency : string) (m : fare_map) (code : json) :
  priced_map m -> In code (map fst m) -> key_eqb code code = true ->
  ClientV2.fmt currency (total_of (ClientV2.get4 m code)) <> None.
Proof.
  intros Hm Hin Hk. unfold ClientV2.get4.
  destruct (lookup_present m code Hin Hk) as [t Ht]. rewrite Ht.
  apply lookup_In in Ht as (k' & Hin' & _).
  destruct (Hm k' t Hin') as [[x ->] _]. discriminate.
Qed.

Lemma extracted_priced (call_t call_b call_p call_e : result (Z * json))
    (mt mb mp me : fare_map) :
  extracted call_t call_b call_p call_e mt mb mp me ->
  priced_map mt /\ priced_map mb /\ priced_map mp /\ priced_map me.
Proof.
  intros (st_t & raw_t & st_b & raw_b & st_p & raw_p & st_e & raw_e &
          _ & _ & _ & _ & Et & Eb & Ep & Ee).
  assert (P : forall raw m, _totales_programada_por_sailing raw = Ok m -> priced_map m).
  { intros raw m E. apply programada_all_priced in E as (ss & _ & H).
    intros k t Hin. destruct (H k t Hin) as (? & ? & _). auto. }
  split; [eauto|]. split; [eauto|]. split; [eauto|].
  destruct (st_e =? 200).
  - apply tarifa_all_priced in Ee as (ss & _ & H).
    intros k t Hin. destruct (H k t Hin) as (? & ? & _). auto.
  - injection Ee as <-. intros k t [].
Qed.

(** X23. Every row that [fetch_day_web_prices_pro] returns has a truthy
    sailing code; it shows a difference only when it shows both the tourist
    and the business amount; and a row whose code is a string shows at
    least one of the four amounts. *)
Theorem merged_rows_carry_an_amount (token : result json)
    (call_t call_b call_p call_e : result (Z * json)) (st : Z)
    (rows : list ClientV2.web_row) :
  ClientV2.fetch_day_web_prices_pro token call_t call_b call_p call_e
    = Ok (st, Rows rows) \/
  ClientUYU.fetch_day_web_prices_pro token call_t call_b call_p call_e
    = Ok (st, Rows rows) ->
  forall row, In row rows ->
    truthy (ClientV2.codigo row) = true /\
    (ClientV2.diferencia row <> None ->
     ClientV2.turista row <> None /\ ClientV2.business row <> None) /\
    ((exists s, ClientV2.codigo row = JStr s) ->
     ClientV2.turista row <> None \/ ClientV2.business row <> None \/
     ClientV2.primera row <> None \/ ClientV2.economica row <> None).
Proof.
  intros H.
  assert (Hm : exists currency mt mb mp me,
             extracted call_t call_b call_p call_e mt mb mp me /\
             ClientV2.merge currency mt mb mp me = Ok rows).
  { destruct H as [H|H].
    - apply v2_rows_are_merged in H as (_ & mt & mb & mp & me & H & Hm). eauto 10.
    - apply uyu_rows_are_merged in H as (_ & mt & mb & mp & me & H & Hm). eauto 10. }
  destruct Hm as (currency & mt & mb & mp & me & Hx & Hm).
  apply extracted_priced in Hx as (Pt & Pb & Pp & Pe).
  intros row Hr.
  apply (merge_rows _ _ _ _ _ _ Hm) in Hr as (code & Hc & ->).
  destruct (merge_row_fields currency mt mb mp me code) as (Ft & Fd).
  destruct (merge_row_amounts currency mt mb mp me code) as (Fb & Fp & Fe).
  rewrite merge_row_codigo, Ft, Fd, Fb, Fp, Fe.
  apply union_keys_In in Hc as (m & Hm' & Hk).
  split; [|split].
  - apply in_map_iff in Hk as ([k t] & <- & Hin). simpl.
    destruct Hm' as [<-|[<-|[<-|[<-|[]]]]];
      [apply (Pt k t Hin) | apply (Pb k t Hin) | apply (Pp k t Hin) | apply (Pe k t Hin)].
  - destruct (total_of (ClientV2.get4 mb code)), (total_of (ClientV2.get4 mt code));
      simpl; intros Hd; split; congruence.
  - intros [s Hs].
    assert (Hrefl : key_eqb code code = true).
    { rewrite Hs. simpl. apply String.eqb_refl. }
    destruct Hm' as [<-|[<-|[<-|[<-|[]]]]].
    + left. apply get4_priced; assumption.
    + right. left. apply get4_priced; assumption.
    + right. right. left. apply get4_priced; assumption.
    + right. right. right. apply get4_priced; assumption.
Qed.

Lemma merged_rows_carry_an_amount_witness :
  truthy (ClientV2.codigo row_205) = true /\
  (ClientV2.diferencia row_205 <> None ->
   ClientV2.turista row_205 <> None /\ ClientV2.business row_205 <> None) /\
  ((exists s, ClientV2.codigo row_205 = JStr s) ->
   ClientV2.turista row_205 <> None \/ ClientV2.business row_205 <> None \/
   ClientV2.primera row_205 <> None \/ ClientV2.economica row_205 <> None).
Proof.
  apply (merged_rows_carry_an_amount (Ok (JStr "eyJ.abc"))
           (Ok (200, tourist_day)) (Ok (200, business_day))
           (Ok (200, empty_day)) (Ok (200, empty_day)) 200 [row_101; row_205]).
  - left. vm_compute. reflexivity.
  - right. left. reflexivity.
Defined.

(** *** The table of V1 *)

Lemma v1_merge_row_codigo (wv : bool) (mt mb : fare_map) (code : json) :
  Session.codigo (Session.merge_row wv mt mb code) = code /\
  Session.vehiculo (Session.merge_row wv mt mb code) = wv.
Proof.
  unfold Session.merge_row.
  destruct (Session.get4 mt code) as [[[? ?] ?] ?].
  destruct (Session.get4 mb code) as [[[? ?] ?] ?].
  split; reflexivity.
Qed.

Lemma Sorted_map {A B : Type} (R : A -> A -> Prop) (R' : B -> B -> Prop) (f : A -> B)
    (l : list A) :
  (forall a b, R a b -> R' (f a) (f b)) -> Sorted R l -> Sorted R' (map f l).
Proof.
  intros HR H. induction H as [|a l Hl IH Hd]; simpl; constructor; [exact IH|].
  destruct Hd; simpl; constructor. auto.
Qed.

(** X17. The table that the two web-price queries of V1 build is in the
    order of the sailing codes, not of the departures, and has one row for
    each code of either dict.  Every row carries the vehicle flag of the
    query.  A code that only the business dict has gets empty strings for
    its times and no tourist amount; a code of the tourist dict gets the
    times of that dict, and an amount of zero is shown as no amount, where
    the merge of V2 shows [ARS 0,00]. *)
Theorem v1_table_is_in_code_order (wv : bool) (mapa_t mapa_b : fare_map)
    (rows : list Session.web_row) :
  Session.merge wv mapa_t mapa_b = Ok rows ->
  Sorted (in_order Session.codigo) rows /\
  (forall code, In code (ClientV2.union_keys [mapa_t; mapa_b]) <->
                exists row, In row rows /\ Session.codigo row = code) /\
  (forall row, In row rows ->
     Session.vehiculo row = wv /\
     (lookup mapa_t (Session.codigo row) = None ->
      Session.hora_salida row = JStr "" /\ Session.hora_llegada row = JStr "" /\
      Session.turista row = None /\ Session.diferencia row = None) /\
     (forall t, lookup mapa_t (Session.codigo row) = Some t ->
      Session.hora_salida row = salida_of t /\ Session.hora_llegada row = llegada_of t /\
      (total_of t = Some zero ->
       Session.turista row = None /\
       ClientV2.turista (ClientV2.merge_row "ARS" mapa_t mapa_b [] [] (Session.codigo row))
       = Some "ARS 0,00"))).
Proof.
  unfold Session.merge. intros H. inv_bind H. injection H as <-.
  split; [|split].
  - apply sort_by_Sorted in E.
    apply (Sorted_map (in_order (fun k : json => k)) _ _ _) with (2 := E).
    intros x y Hab. unfold in_order in *.
    rewrite !(proj1 (v1_merge_row_codigo _ _ _ _)). exact Hab.
  - intros code. rewrite <- (sort_by_In _ _ _ E code). split.
    + intros Hc. exists (Session.merge_row wv mapa_t mapa_b code).
      split; [apply in_map, Hc | apply v1_merge_row_codigo].
    + intros (row & Hr & <-). apply in_map_iff in Hr as (code & <- & Hc).
      rewrite (proj1 (v1_merge_row_codigo _ _ _ _)). exact Hc.
  - intros row Hr. apply in_map_iff in Hr as (code & <- & Hc).
    destruct (v1_merge_row_codigo wv mapa_t mapa_b code) as [-> ->].
    split; [reflexivity|].
    unfold Session.merge_row, ClientV2.merge_row, Session.get4, ClientV2.get4.
    split.
    + intros ->. destruct (match lookup mapa_b code with Some t => t | None => _ end)
        as [[[bus ?] ?] ?].
      cbn. destruct bus; repeat split; reflexivity.
    + intros t ->. destruct t as [[[tur hs] ha] nm].
      destruct (match lookup mapa_b code with Some t => t | None => _ end)
        as [[[bus ?] ?] ?].
      destruct (match lookup mapa_b code with Some t => t | None => _ end)
        as [[[bus' ?] ?] ?].
      cbn. split; [reflexivity|]. split; [reflexivity|].
      intros [= ->]. split; reflexivity.
Qed.

Lemma v1_table_is_in_code_order_witness :
  Sorted (in_order Session.codigo)
    [Session.merge_row false tourist_map business_map (JStr "BQ101");
     Session.merge_row false tourist_map business_map (JStr "BQ205")] /\
  Session.hora_salida (Session.merge_row false tourist_map business_map (JStr "BQ205"))
  = JStr "".
Proof.
  destruct (v1_table_is_in_code_order false tourist_map business_map
              [Session.merge_row false tourist_map business_map (JStr "BQ101");
               Session.merge_row false tourist_map business_map (JStr "BQ205")])
    as (H1 & _ & H3); [vm_compute; reflexivity|].
  split; [exact H1|].
  destruct (H3 (Session.merge_row false tourist_map business_map (JStr "BQ205")))
    as (_ & H & _); [right; left; reflexivity|].
  apply H. reflexivity.
Defined.

(** *** The two queries of V1 *)

Lemma length_posted (st : Session.state) (p : json) :
  List.length (Session.posts (Session.posted st p)) = S (List.length (Session.posts st)).
Proof.
  unfold Session.posted. simpl. rewrite length_app. simpl. lia.
Qed.

Section TwoQueries.
Variable E : Session.env.
Variable st : Session.state.
Variable wv : bool.
Variable call : string -> Session.M (Z * json).
Variable p : string -> json.

(** The call posts [p seat] and nothing else happens, before and after the
    first post. *)
Hypothesis call_posts : forall seat st',
  st' = st \/ st' = Session.posted st (p "TSEAT") ->
  call seat st'
  = (Client._call_price_availability
       (Session.upstream E (List.length (Session.posts st'))) (p seat),
     Session.posted st' (p seat)).

Lemma web_prices_tourist_then_business :
  tourist_then_business E st (Session.web_prices wv call) wv (p "TSEAT") (p "BSEAT").
Proof.
  unfold tourist_then_business. cbv zeta. intros st_t raw_t Ht.
  set (n := List.length (Session.posts st)) in *.
  unfold Session.web_prices, Session.mbind, Session.lift, Session.ret.
  rewrite (call_posts "TSEAT" st (or_introl eq_refl)). fold n. rewrite Ht.
  split; [|split].
  - intros Hne. rewrite (not_200 _ Hne). reflexivity.
  - intros e -> He. cbn [Z.eqb Pos.eqb negb]. rewrite He. reflexivity.
  - intros mapa_t -> Hm. cbn [Z.eqb Pos.eqb negb]. rewrite Hm.
    rewrite (call_posts "BSEAT" _ (or_intror eq_refl)), length_posted. fold n.
    destruct (Client._call_price_availability (Session.upstream E (S n)) (p "BSEAT"))
      as [[st_b raw_b]|e] eqn:Eb.
    2:{ exfalso. destruct (call_price_availability_returns (Session.upstream E (S n))
                             (p "BSEAT")) as ((s & j & H) & _). congruence. }
    split.
    + destruct (negb (st_b =? 200)); [reflexivity|].
      destruct (_totales_programada_por_sailing raw_b) as [mapa_b|]; [|reflexivity].
      destruct (Session.merge wv mapa_t mapa_b); reflexivity.
    + intros st_b' raw_b' [= <- <-]. split.
      * intros Hne. rewrite (not_200 _ Hne). reflexivity.
      * intros mapa_b rows -> Hb Hr. cbn [Z.eqb Pos.eqb negb]. rewrite Hb, Hr. reflexivity.
Qed.

End TwoQueries.

(** X16. [fetch_day_web_prices] and [fetch_day_web_prices_with_vehicle]
    ask for the tourist seat first and for the business seat after it, with
    the payloads of [_post_day_pricing] (of [_post_day_pricing_vehicle] for
    the second).  A tourist answer other than 200 is returned as it is and
    the business query is not made; a tourist answer that cannot be read
    raises after one post; otherwise both are posted, in this order, a
    business answer other than 200 is returned as it is, and two good
    answers give the merged rows. *)
Theorem web_prices_ask_tourist_then_business (E : Session.env)
    (origen destino fecha : string) (st : Session.state) (yy mm dd : string) (tok : json) :
  _normalize_date_to_yymmdd fecha = Ok (yy, mm, dd) ->
  Session._get_valid_token E st = (Ok tok, st) ->
  tourist_then_business E st (Session.fetch_day_web_prices E origen destino fecha) false
    (Session.payload_day_pricing tok origen destino (yy ++ mm ++ dd) "TSEAT")
    (Session.payload_day_pricing tok origen destino (yy ++ mm ++ dd) "BSEAT") /\
  tourist_then_business E st
    (Session.fetch_day_web_prices_with_vehicle E origen destino fecha) true
    (Session.payload_day_pricing_vehicle tok origen destino (yy ++ mm ++ dd) "TSEAT")
    (Session.payload_day_pricing_vehicle tok origen destino (yy ++ mm ++ dd) "BSEAT").
Proof.
  intros Hn Ht.
  assert (Ht' : forall st' q, st' = st \/ st' = Session.posted st q ->
                Session._get_valid_token E st' = (Ok tok, st')).
  { intros st' q [-> | ->]; [exact Ht|].
    rewrite get_valid_token_posted, Ht. reflexivity. }
  split.
  - apply (web_prices_tourist_then_business E st false
             (Session._post_day_pricing E origen destino fecha)
             (Session.payload_day_pricing tok origen destino (yy ++ mm ++ dd))).
    intros seat st' Hst'.
    unfold Session._post_day_pricing, Session.mbind, Session.lift,
      Session._call_price_availability.
    rewrite Hn, (Ht' st' _ Hst'). reflexivity.
  - apply (web_prices_tourist_then_business E st true
             (Session._post_day_pricing_vehicle E origen destino fecha)
             (Session.payload_day_pricing_vehicle tok origen destino (yy ++ mm ++ dd))).
    intros seat st' Hst'.
    unfold Session._post_day_pricing_vehicle, Session.mbind, Session.lift,
      Session._call_price_availability.
    rewrite Hn, (Ht' st' _ Hst'). reflexivity.
Qed.

Lemma web_prices_ask_tourist_then_business_witness :
  tourist_then_business (sample_env (Some "eyJ.static") (Responds 503 EmptyBody)) at_start
    (Session.fetch_day_web_prices (sample_env (Some "eyJ.static") (Responds 503 EmptyBody))
       "BUE" "MVD" "2025-03-14") false
    (Session.payload_day_pricing (JStr "eyJ.static") "BUE" "MVD" ("25" ++ "03" ++ "14") "TSEAT")
    (Session.payload_day_pricing (JStr "eyJ.static") "BUE" "MVD" ("25" ++ "03" ++ "14") "BSEAT")
  /\
  tourist_then_business (sample_env (Some "eyJ.static") (Responds 503 EmptyBody)) at_start
    (Session.fetch_day_web_prices_with_vehicle
       (sample_env (Some "eyJ.static") (Responds 503 EmptyBody)) "BUE" "MVD" "2025-03-14")
    true
    (Session.payload_day_pricing_vehicle (JStr "eyJ.static") "BUE" "MVD"
       ("25" ++ "03" ++ "14") "TSEAT")
    (Session.payload_day_pricing_vehicle (JStr "eyJ.static") "BUE" "MVD"
       ("25" ++ "03" ++ "14") "BSEAT").
Proof.
  apply (web_prices_ask_tourist_then_business
           (sample_env (Some "eyJ.static") (Responds 503 EmptyBody))
           "BUE" "MVD" "2025-03-14" at_start "25" "03" "14" (JStr "eyJ.static")).
  - reflexivity.
  - reflexivity.
Defined.

(** *** One query for each sailing *)

Lemma seat_step_spec (E : Session.env) (origen destino yymmdd seat : string)
    (items : list Session.seat_item) (s : json) (st : Session.state)
    (items' : list Session.seat_item) (st' : Session.state) :
  Session.seat_step E origen destino yymmdd seat items s st = (Ok items', st') ->
  exists code,
    entry_code s = Ok code /\
    ((truthy code = false /\ items' = items /\ Session.posts st' = Session.posts st) \/
     (truthy code = true /\
      exists item p,
        items' = (items ++ [item])%list /\ Session.sailingCode item = code /\
        Session.posts st' = (Session.posts st ++ [p])%list /\
        single_query origen destino yymmdd seat p item)).
Proof.
  unfold Session.seat_step, entry_code, Session.mbind, Session.lift, Session.ret.
  intros H.
  destruct (read_blocks s) as [b|]; [|discriminate H]. simpl in *.
  destruct (get (travel b) "c_C276_SailingCode" JNull) as [code|]; [|discriminate H].
  exists code. split; [reflexivity|].
  destruct (truthy code) eqn:Tc; simpl in H.
  2:{ injection H as <- <-. left. auto. }
  right. split; [reflexivity|].
  unfold Session._payload_single_sailing_by_seat, Session.mbind, Session.ret in H.
  pose proof (get_valid_token_posts E st) as Hp.
  destruct (Session._get_valid_token E st) as [[tok|e] st1]; [|discriminate H].
  simpl in Hp. unfold Session._call_price_availability in H.
  destruct (Client._call_price_availability _ _) as [[st2 resp]|]; [|discriminate H].
  destruct (Session.seat_prices st2 resp) as [[[adl prog] flex]|]; [|discriminate H].
  destruct (get (depblk b) _ _) as [d|]; [|discriminate H].
  destruct (get (arrblk b) _ _) as [a|]; [|discriminate H].
  destruct (get (shipblk b) _ _) as [nm|]; [|discriminate H].
  destruct (get (travel b) "c_C081_IsAvailable" JNull) as [av|]; [|discriminate H].
  injection H as <- <-. eexists _, _. split; [reflexivity|].
  split; [reflexivity|]. split.
  - unfold Session.posted. simpl. rewrite Hp. reflexivity.
  - exists tok. reflexivity.
Qed.

Lemma mfold_seat_steps (E : Session.env) (origen destino yymmdd seat : string)
    (ss : list json) :
  forall (items : list Session.seat_item) (st : Session.state)
         (items' : list Session.seat_item) (st' : Session.state),
    Session.mfold (Session.seat_step E origen destino yymmdd seat) ss items st
    = (Ok items', st') ->
    exists codes new singles,
      Forall2 (fun s code => entry_code s = Ok code) ss codes /\
      items' = (items ++ new)%list /\
      map Session.sailingCode new = filter truthy codes /\
      Session.posts st' = (Session.posts st ++ singles)%list /\
      Forall2 (single_query origen destino yymmdd seat) singles new.
Proof.
  induction ss as [|s ss IH]; intros items st items' st' H.
  - injection H as <- <-. exists [], [], []. rewrite !app_nil_r.
    repeat split; constructor.
  - cbn [Session.mfold] in H. unfold Session.mbind in H.
    destruct (Session.seat_step E origen destino yymmdd seat items s st)
      as [[items1|e] st1] eqn:Hs; [|discriminate H].
    apply seat_step_spec in Hs as (code & Hc & Hs).
    apply IH in H as (codes & new & singles & Hcs & -> & Hm & Hp & Hq).
    destruct Hs as [(Tc & -> & Hp1) | (Tc & item & p & -> & Hi & Hp1 & Hq1)].
    + exists (code :: codes), new, singles.
      split; [constructor; assumption|]. split; [reflexivity|].
      split; [simpl; rewrite Tc; exact Hm|]. split; [congruence | exact Hq].
    + exists (code :: codes), (item :: new), (p :: singles).
      split; [constructor; assumption|].
      split; [rewrite <- app_assoc; reflexivity|].
      split; [simpl; rewrite Tc, Hi, Hm; reflexivity|].
      split; [rewrite Hp, Hp1, <- app_assoc; reflexivity|].
      constructor; assumption.
Qed.

(** X18. When [fetch_day_by_seat] returns rows, the status is 200, the
    day was fetched first, and then one query was posted for each entry
    with a truthy sailing code, in the order of the answer: the rows are
    those entries, the k-th query after the first is the payload of the
    sailing of the k-th row, and the number of posts is one more than the
    number of rows. *)
Theorem fetch_day_by_seat_asks_once_per_sailing (E : Session.env)
    (origen destino fecha seat : string) (st : Session.state)
    (status : Z) (rows : list Session.seat_item) (st' : Session.state) :
  Session.fetch_day_by_seat E origen destino fecha seat st = (Ok (status, Rows rows), st') ->
  status = 200 /\
  exists yy mm dd base st1 ss codes singles,
    _normalize_date_to_yymmdd fecha = Ok (yy, mm, dd) /\
    Session.fetch_price E origen destino fecha st = (Ok (200, base), st1) /\
    (sp <- get base "sailingprice" (JList []) ;; iter sp) = Ok ss /\
    Forall2 (fun s code => entry_code s = Ok code) ss codes /\
    map Session.sailingCode rows = filter truthy codes /\
    Session.posts st' = (Session.posts st1 ++ singles)%list /\
    Forall2 (single_query origen destino (yy ++ mm ++ dd) seat) singles rows /\
    List.length (Session.posts st')
    = (List.length (Session.posts st) + 1 + List.length rows)%nat.
Proof.
  unfold Session.fetch_day_by_seat, Session.mbind, Session.lift, Session.ret.
  intros H.
  destruct (Session.fetch_price E origen destino fecha st) as [[[s base]|e] st1] eqn:Hf;
    [|discriminate H].
  destruct (s =? 200) eqn:Es; simpl in H; [|discriminate H].
  apply Z.eqb_eq in Es. subst s.
  destruct (_normalize_date_to_yymmdd fecha) as [[[yy mm] dd]|] eqn:Hn; [|discriminate H].
  destruct (get base "sailingprice" (JList [])) as [sp|] eqn:Hsp; [|discriminate H].
  destruct (iter sp) as [ss|] eqn:Hss; [|discriminate H].
  destruct (Session.mfold _ ss [] st1) as [[items|e] st2] eqn:Hm; [|discriminate H].
  injection H as <- <- <-. split; [reflexivity|].
  apply mfold_seat_steps in Hm as (codes & new & singles & Hcs & -> & Hmap & Hp & Hq).
  exists yy, mm, dd, base, st1, ss, codes, singles.
  split; [reflexivity|]. split; [reflexivity|].
  split; [rewrite Hsp; simpl; exact Hss|].
  split; [exact Hcs|]. split; [exact Hmap|]. split; [exact Hp|]. split; [exact Hq|].
  rewrite Hp, length_app, (Forall2_length Hq).
  assert (Hp1 : List.length (Session.posts st1) = S (List.length (Session.posts st))).
  { unfold Session.fetch_price, Session._payload_day, Session.mbind, Session.lift,
      Session.ret, Session._call_price_availability in Hf.
    rewrite Hn in Hf. pose proof (get_valid_token_posts E st) as Hg.
    destruct (Session._get_valid_token E st) as [[tok|e] st0]; [|discriminate Hf].
    simpl in Hg. injection Hf as _ <-. rewrite length_posted, Hg. reflexivity. }
  simpl. lia.
Qed.

Lemma fetch_day_by_seat_asks_once_per_sailing_witness :
  List.length
    (Session.posts
       (snd (Session.fetch_day_by_seat
               (by_seat_env two_entries (seat_answer (JStr "100000") (JStr "90000")))
               "BUE" "MVD" "2025-03-14" "TSEAT" at_start)))
  = (List.length (Session.posts at_start) + 1 + List.length [item_101])%nat.
Proof.
  destruct (fetch_day_by_seat_asks_once_per_sailing
              (by_seat_env two_entries (seat_answer (JStr "100000") (JStr "90000")))
              "BUE" "MVD" "2025-03-14" "TSEAT" at_start 200 [item_101]
              (snd (Session.fetch_day_by_seat
                      (by_seat_env two_entries (seat_answer (JStr "100000") (JStr "90000")))
                      "BUE" "MVD" "2025-03-14" "TSEAT" at_start)))
    as (_ & yy & mm & dd & base & st1 & ss & codes & singles & _ & _ & _ & _ & _ & _ & _ & H).
  - vm_compute. reflexivity.
  - exact H.
Defined.

(** ** The preview of [debug_token] *)

Lemma length_append (a b : string) :
  String.length (a ++ b) = (String.length a + String.length b)%nat.
Proof.
  induction a as [|c a IH]; simpl; [reflexivity | rewrite IH; reflexivity].
Qed.

Lemma length_take (n : nat) (s : string) :
  String.length (take n s) = Nat.min n (String.length s).
Proof.
  revert s. induction n as [|n IH]; intros [|c s]; simpl; try reflexivity.
  rewrite IH. reflexivity.
Qed.

Lemma length_drop (n : nat) (s : string) :
  String.length (drop n s) = (String.length s - n)%nat.
Proof.
  revert s. induction n as [|n IH]; intros [|c s]; simpl; try reflexivity.
  apply IH.
Qed.

Lemma take_append (n : nat) (a b : string) :
  String.length a = n -> take n (a ++ b) = a.
Proof.
  revert a. induction n as [|n IH]; intros [|c a]; simpl; intros H;
    try discriminate H.
  - destruct b; reflexivity.
  - rewrite IH; [reflexivity | lia].
Qed.

Lemma drop_append (n : nat) (a b : string) :
  String.length a = n -> drop n (a ++ b) = b.
Proof.
  revert a. induction n as [|n IH]; intros [|c a]; simpl; intros H;
    try discriminate H; [reflexivity|].
  apply IH. lia.
Qed.

(** X24. When [debug_token] reports a token, it is the static token if
    that is not empty and the token of the cache file otherwise, and the
    preview never shows it whole: it is the word [masked] for a token of at
    most 24 characters, and otherwise 23 characters, the first ten and the
    last ten of the token around three dots. *)
Theorem debug_token_preview (env : option string) (c : cache_file)
    (b64json : string -> result json) (now : Z)
    (masked : string) (valid : bool) (exp : json) :
  Api.debug_token env c b64json now = Ok (Api.HasToken masked valid exp) ->
  exists tok,
    (match env with
     | Some e => if String.eqb e "" then Api.token_field c = JStr tok else e = tok
     | None => Api.token_field c = JStr tok
     end) /\
    masked = Api.mask tok /\
    (len masked <= 23)%nat /\
    ((len tok <= 24)%nat -> masked = "masked") /\
    ((24 < len tok)%nat ->
     len masked = 23%nat /\
     take 10 masked = take 10 tok /\
     last_chars 10 masked = last_chars 10 tok /\
     slice 10 13 masked = "...").
Proof.
  unfold Api.debug_token. intros H.
  set (t := match env with
            | Some e => if negb (String.eqb e "") then JStr e else Api.token_field c
            | None => Api.token_field c
            end) in H.
  destruct (negb (truthy t)); [discriminate|].
  destruct t as [| | | |tok| |] eqn:Et; try discriminate.
  do 2 inv_bind H. injection H as <- _ _. exists tok.
  split.
  { subst t. destruct env as [e|]; [|exact Et].
    destruct (String.eqb e ""); simpl in Et; [exact Et | congruence]. }
  split; [reflexivity|].
  assert (L10 : forall s, (24 < len s)%nat -> len (take 10 s) = 10%nat /\
                                              len (last_chars 10 s) = 10%nat).
  { intros s Hs. unfold len, last_chars in *. rewrite length_take, length_drop. lia. }
  unfold Api.mask.
  destruct (24 <? len tok)%nat eqn:Hlen.
  - apply Nat.ltb_lt in Hlen. destruct (L10 tok Hlen) as [L1 L2].
    assert (Lm : len (take 10 tok ++ "..." ++ last_chars 10 tok) = 23%nat).
    { unfold len in *. rewrite !length_append, L1, L2. reflexivity. }
    split; [lia|]. split; [lia|]. intros _.
    split; [exact Lm|].
    split; [apply take_append; exact L1|].
    split.
    + unfold last_chars at 1. fold (len (take 10 tok ++ "..." ++ last_chars 10 tok)).
      rewrite Lm. change (23 - 10)%nat with 13%nat.
      change (take 10 tok ++ "..." ++ last_chars 10 tok)
        with (take 10 tok ++ ("..." ++ last_chars 10 tok)).
      replace (take 10 tok ++ "..." ++ last_chars 10 tok)
        with ((take 10 tok ++ "...") ++ last_chars 10 tok).
      * apply drop_append. rewrite length_append. unfold len in L1. rewrite L1. reflexivity.
      * clear. induction (take 10 tok) as [|x s IH]; simpl; [reflexivity|].
        rewrite IH. reflexivity.
    + unfold slice. change (13 - 10)%nat with 3%nat.
      rewrite (drop_append 10 (take 10 tok) _ L1).
      destruct (last_chars 10 tok); reflexivity.
  - apply Nat.ltb_ge in Hlen. split; [simpl; lia|]. split; [reflexivity|]. lia.
Qed.

Lemma debug_token_preview_witness :
  exists tok,
    "eyJhbGciOiJIUzI1NiJ9.e30.abcdefghijklmnop" = tok /\
    "eyJhbGciOi...ghijklmnop" = Api.mask tok /\
    (len "eyJhbGciOi...ghijklmnop" <= 23)%nat /\
    ((len tok <= 24)%nat -> "eyJhbGciOi...ghijklmnop" = "masked") /\
    ((24 < len tok)%nat ->
     len "eyJhbGciOi...ghijklmnop" = 23%nat /\
     take 10 "eyJhbGciOi...ghijklmnop" = take 10 tok /\
     last_chars 10 "eyJhbGciOi...ghijklmnop" = last_chars 10 tok /\
     slice 10 13 "eyJhbGciOi...ghijklmnop" = "...").
Proof.
  apply (debug_token_preview (Some "eyJhbGciOiJIUzI1NiJ9.e30.abcdefghijklmnop") NoFile
           (fun _ => Ok (JDict [])) 1700000000 "eyJhbGciOi...ghijklmnop" true JNull).
  reflexivity.
Defined.

(** ** Price details *)

Lemma sum_details_nothing (l : list json) :
  Forall counts_as_nothing l ->
  Details.sum_details (map price_detail l) zero = Ok zero.
Proof.
  induction 1 as [|amt l Ha _ IH]; [reflexivity|].
  cbn -[_to_money]. destruct Ha as [-> | ->]; exact IH.
Qed.

(** X25. [_sum_price_details] adds up the unit gross amounts and counts
    as nothing what [_to_money] cannot read: a falsy list gives zero, and so
    does a list whose amounts are all missing, unreadable or zero.  It
    raises TypeError on a number that is not zero and AttributeError on a
    list whose first element is not a dict.  In the example, two of five
    amounts are read. *)
Theorem sum_price_details_counts_unreadable_as_nothing :
  (forall v, truthy v = false -> Details._sum_price_details v = Ok zero) /\
  (forall l, Forall counts_as_nothing l ->
     Details._sum_price_details (JList (map price_detail l)) = Ok zero) /\
  (forall n, n <> 0 -> Details._sum_price_details (JInt n) = Raise TypeError) /\
  (forall p l, is_dict p = false ->
     Details._sum_price_details (JList (p :: l)) = Raise AttributeError) /\
  Details._sum_price_details
    (JList [price_detail (JStr "8623440"); price_detail (JStr "N/A");
            price_detail JNull; price_detail (JStr "12,50");
            price_detail (JStr "100000")])
  = Ok 87234.4%float.
Proof.
  split; [|split; [|split; [|split]]].
  - intros v Hv. unfold Details._sum_price_details, py_or. rewrite Hv. reflexivity.
  - intros l Hl. unfold Details._sum_price_details, py_or.
    destruct l as [|a l]; [reflexivity|]. cbn [map truthy iter bind].
    apply (sum_details_nothing (a :: l) Hl).
  - intros n Hn. unfold Details._sum_price_details, py_or. simpl.
    replace (n =? 0) with false by (symmetry; apply Z.eqb_neq, Hn). reflexivity.
  - intros p l Hp. unfold Details._sum_price_details, py_or. cbn -[_to_money].
    destruct p; try discriminate Hp; reflexivity.
  - vm_compute. reflexivity.
Qed.

Lemma tarifa_of_single (tipo : string) (amount : json) :
  truthy amount = true ->
  Details.tarifa_of (product_price tipo [price_detail amount])
  = match _to_money amount with
    | Some x =>
        Ok {| Details.tipoTarifa := JStr tipo;
              Details.turista := round2 ((zero + x) / 100)%float;
              Details.business := zero;
              Details.diff := None |}
    | None => Raise TypeError
    end.
Proof.
  intros Ht. unfold Details.tarifa_of, product_price, price_detail.
  cbn -[_to_money truthy round2 PrimFloat.add PrimFloat.div float_truthy].
  unfold Details.add_passengers, Details.add_price_details, Details.add_unit_gross,
    Details.add_money.
  cbn -[_to_money truthy round2 PrimFloat.add PrimFloat.div float_truthy].
  rewrite Ht. destruct (_to_money amount) as [x|]; [|reflexivity].
  cbn -[round2 PrimFloat.add PrimFloat.div float_truthy].
  replace (float_truthy zero) with false by reflexivity.
  rewrite andb_false_r. f_equal.
Qed.

Lemma preciso_item_of_products (code hs ha nm : json) (products : list json) :
  Details.preciso_item_of (sailing_with_products code hs ha nm products)
  = (rows <- mapM Details.tarifa_of products ;;
     Ok {| Details.sailingCode := code; Details.dep := hs; Details.arr := ha;
           Details.ship := nm; Details.available := true;
           Details.tarifas := rows |}).
Proof.
  unfold Details.preciso_item_of, sailing_with_products, read_blocks.
  cbn [bind get assoc String.eqb Ascii.eqb Bool.eqb iter travel depblk arrblk shipblk].
  destruct (mapM Details.tarifa_of products); reflexivity.
Qed.

(** X26. [fetch_day_full_preciso], unlike [_sum_price_details], does not
    tolerate an amount it cannot read: one truthy unit gross amount that
    [_to_money] refuses makes the whole query raise TypeError.  An amount
    that is read is divided by 100 once more and rounded to two places, the
    business column stays 0 and no difference is given; [8623440] comes out
    as 862.34. *)
Theorem fetch_day_full_preciso_on_one_amount
    (code hs ha nm : json) (tipo : string) (amount : json) :
  truthy amount = true ->
  (_to_money amount = None ->
   forall products rest,
     Details.fetch_day_full_preciso
       (Ok (200, response (sailing_with_products code hs ha nm
                             (product_price tipo [price_detail amount] :: products)
                           :: rest)))
     = Raise TypeError) /\
  (forall x, _to_money amount = Some x ->
     Details.fetch_day_full_preciso
       (Ok (200, response [sailing_with_products code hs ha nm
                             [product_price tipo [price_detail amount]]]))
     = Ok (200, Rows
         [{| Details.sailingCode := code; Details.dep := hs; Details.arr := ha;
             Details.ship := nm; Details.available := true;
             Details.tarifas :=
               [{| Details.tipoTarifa := JStr tipo;
                   Details.turista := round2 ((zero + x) / 100)%float;
                   Details.business := zero;
                   Details.diff := None |}] |}])) /\
  (amount = JStr "8623440" ->
   _to_money amount = Some 86234.4%float /\
   round2 ((zero + 86234.4) / 100)%float = 862.34%float).
Proof.
  intros Ht. split; [|split].
  - intros Hm products rest.
    unfold Details.fetch_day_full_preciso, response.
    cbn [bind get assoc String.eqb Ascii.eqb Bool.eqb iter Z.eqb Pos.eqb negb mapM].
    rewrite preciso_item_of_products. cbn [mapM].
    rewrite (tarifa_of_single tipo amount Ht), Hm. reflexivity.
  - intros x Hm.
    unfold Details.fetch_day_full_preciso, response.
    cbn [bind get assoc String.eqb Ascii.eqb Bool.eqb iter Z.eqb Pos.eqb negb mapM].
    rewrite preciso_item_of_products. cbn [mapM].
    rewrite (tarifa_of_single tipo amount Ht), Hm. reflexivity.
  - intros ->. split; vm_compute; reflexivity.
Qed.

Lemma fetch_day_full_preciso_on_one_amount_witness :
  Details.fetch_day_full_preciso
    (Ok (200, response (sailing_with_products (JStr "BQ101") (JStr "0830") (JStr "0945")
                          (JStr "Francisco")
                          (product_price "PROGRAMADA" [price_detail (JStr "N/A")] :: [])
                        :: [])))
  = Raise TypeError.
Proof.
  apply (fetch_day_full_preciso_on_one_amount (JStr "BQ101") (JStr "0830") (JStr "0945")
           (JStr "Francisco") "PROGRAMADA" (JStr "N/A") eq_refl).
  reflexivity.
Defined.

(** ** [fetch_day_classes] *)

Lemma class_tarifa_of_first_set (tipo : string) (details : json)
    (sets responses : list json) (s : float) :
  Details._sum_price_details details = Ok s ->
  Classes.tarifa_of (product_price_of tipo details sets responses)
  = Classes.Returns (class_row tipo s).
Proof.
  intros H. unfold Classes.tarifa_of, Classes.base_of, product_price_of.
  cbn [Classes.obind Classes.of_result get assoc String.eqb Ascii.eqb Bool.eqb truthy
       Classes.item0 iter].
  rewrite H.
  cbn [Classes.obind Classes.of_result Classes.add_float truthy].
  unfold Classes.diff_of, class_row. cbn [truthy].
  destruct (float_truthy (zero + s)); reflexivity.
Qed.

Lemma class_item_of_products (code hs ha nm : json) (products : list json) :
  Classes.class_item_of (sailing_with_products code hs ha nm products)
  = Classes.obind (Classes.omap Classes.tarifa_of products) (fun rows =>
     Classes.Returns
       {| Classes.sailingCode := code; Classes.dep := hs; Classes.arr := ha;
          Classes.ship := nm; Classes.available := true;
          Classes.tarifas := rows |}).
Proof.
  unfold Classes.class_item_of, sailing_with_products, read_blocks.
  cbn [bind get assoc String.eqb Ascii.eqb Bool.eqb iter travel depblk arrblk shipblk
       Classes.obind Classes.of_result].
  destruct (Classes.omap Classes.tarifa_of products); reflexivity.
Qed.

(** X27. [fetch_day_classes] takes the price of the passenger from the
    price details of the first passenger set of the first passenger
    response, whatever other sets and responses there are; without
    accommodation the business total is the same, and the difference is
    their difference, or None when the total is zero.  A product whose
    passenger response is missing or empty has the int 0 for both totals;
    one whose passenger response is a dict that is not empty makes the
    method raise KeyError.  An amount that cannot be read counts as nothing
    here, where [fetch_day_full_preciso] raises TypeError; an amount that is
    read is reported in the unit of [_to_money], where
    [fetch_day_full_preciso] divides by 100 once more. *)
Theorem fetch_day_classes_reads_the_first_passenger_set
    (tipo : string) (details : json) (sets responses : list json) (s : float) :
  Details._sum_price_details details = Ok s ->
  Classes.tarifa_of (product_price_of tipo details sets responses)
  = Classes.Returns (class_row tipo s) /\
  (forall code hs ha nm,
     Classes.fetch_day_classes
       (Ok (200, response [sailing_with_products code hs ha nm
                             [product_price_of tipo details sets responses]]))
     = Classes.Returns
         (200, Rows [{| Classes.sailingCode := code; Classes.dep := hs;
                        Classes.arr := ha; Classes.ship := nm;
                        Classes.available := true;
                        Classes.tarifas := [class_row tipo s] |}])) /\
  (forall par, truthy par = false ->
     Classes.tarifa_of (JDict [("c_U282_TariffType", JStr tipo);
                               ("c_PAR_PassengerDetailsResponse", par)])
     = Classes.Returns {| Classes.tipoTarifa := JStr tipo;
                          Classes.turista := JInt 0;
                          Classes.business := JInt 0;
                          Classes.diff := None |}) /\
  (forall k v kv,
     Classes.tarifa_of (JDict [("c_U282_TariffType", JStr tipo);
                               ("c_PAR_PassengerDetailsResponse", JDict ((k, v) :: kv))])
     = Classes.Raises Classes.KeyError) /\
  (forall amount, truthy amount = true -> _to_money amount = None ->
     Classes.tarifa_of (product_price tipo [price_detail amount])
     = Classes.Returns {| Classes.tipoTarifa := JStr tipo;
                          Classes.turista := JFloat zero;
                          Classes.business := JFloat zero;
                          Classes.diff := None |} /\
     Details.tarifa_of (product_price tipo [price_detail amount]) = Raise TypeError) /\
  (forall amount x, truthy amount = true -> _to_money amount = Some x ->
     float_truthy x = true ->
     Classes.tarifa_of (product_price tipo [price_detail amount])
     = Classes.Returns (class_row tipo (zero + x)) /\
     exists row, Details.tarifa_of (product_price tipo [price_detail amount]) = Ok row /\
                 Details.turista row = round2 ((zero + x) / 100)%float).
Proof.
  intros H. split; [apply class_tarifa_of_first_set, H|]. split.
  { intros code hs ha nm. unfold Classes.fetch_day_classes, response.
    cbn [bind get assoc String.eqb Ascii.eqb Bool.eqb iter Z.eqb Pos.eqb negb
         Classes.obind Classes.of_result Classes.omap].
    rewrite class_item_of_products. cbn [Classes.omap Classes.obind].
    rewrite (class_tarifa_of_first_set _ _ _ _ _ H). reflexivity. }
  split.
  { intros par Hp. unfold Classes.tarifa_of, Classes.base_of.
    cbn [Classes.obind Classes.of_result get assoc String.eqb Ascii.eqb Bool.eqb].
    rewrite Hp. reflexivity. }
  split.
  { intros k v kv. reflexivity. }
  split.
  { intros amount Ht Hm. split.
    - change (product_price tipo [price_detail amount])
        with (product_price_of tipo (JList [price_detail amount]) [] []).
      rewrite (class_tarifa_of_first_set _ _ _ _ zero); [reflexivity|].
      unfold Details._sum_price_details, price_detail.
      cbn -[_to_money]. rewrite Hm. reflexivity.
    - rewrite (tarifa_of_single tipo amount Ht), Hm. reflexivity. }
  intros amount x Ht Hm Hx. split.
  - change (product_price tipo [price_detail amount])
      with (product_price_of tipo (JList [price_detail amount]) [] []).
    apply class_tarifa_of_first_set.
    unfold Details._sum_price_details, price_detail.
    cbn -[_to_money float_truthy PrimFloat.add]. rewrite Hm, Hx. reflexivity.
  - rewrite (tarifa_of_single tipo amount Ht), Hm. eexists. split; reflexivity.
Qed.

Lemma fetch_day_classes_reads_the_first_passenger_set_witness :
  Classes.tarifa_of
    (product_price_of "PROGRAMADA" (JList [price_detail (JStr "8623440")])
       [JDict [("c_PRIC_PriceDetails", JList [price_detail (JStr "100000")])]] [])
  = Classes.Returns (class_row "PROGRAMADA" 86234.4%float).
Proof.
  apply (fetch_day_classes_reads_the_first_passenger_set "PROGRAMADA"
           (JList [price_detail (JStr "8623440")])
           [JDict [("c_PRIC_PriceDetails", JList [price_detail (JStr "100000")])]] []
           86234.4%float).
  vm_compute. reflexivity.
Defined.
